(** * Insight Watt: the dashboard front end, checked against its specification

    A shallow embedding of the TypeScript sources of the Insight Watt front
    end (the API types, [DashboardPage], [RiskReportCard], [OnboardingPage],
    [ChartCard] and the mock-data helpers) together with the properties the
    specification states about them.

    Conventions of the embedding:
    - a TypeScript [interface] is a [Record]; an optional field [f?: T] is a
      field of type [option T], [None] standing for an absent, [undefined] or
      [null] value;
    - a [Record<string, T>] consumed through [Object.entries] is the list of
      its entries in enumeration order;
    - a JavaScript [Map] is the list of its entries in insertion order;
    - React state is passed explicitly: a handler maps the state of the render
      it was created in to the next state;
    - reads of the clock, the locale and the network are parameters;
    - a number is an exact rational where it is only grouped, compared or
      tested for its sign, and an IEEE double where its sums are rounded
      ([Doubles]). *)

From Stdlib Require Import List String Ascii Bool Arith ZArith Lia.
From Stdlib Require Import QArith Qabs Qround Lqa.
From Stdlib Require DecimalString.
From Stdlib Require Floats.
Import ListNotations.

Set Implicit Arguments.

#[local] Close Scope Q_scope.
#[local] Open Scope string_scope.
#[local] Open Scope list_scope.

(** ** JavaScript helpers *)

Module Js.

(** [a || b] where [a] is an object reference or absent: objects are
    truthy, [undefined] and [null] are not. *)
Definition or_else {A : Type} (a b : option A) : option A :=
  match a with
  | Some x => Some x
  | None => b
  end.

(** [xs.push(x)] on the array [xs]. *)
Definition push {A : Type} (xs : list A) (x : A) : list A := xs ++ [x].

(** [n.toString()] for an integer [n] below 10^21 in absolute value, which
    JavaScript prints in plain digits. *)
Definition toString (n : Z) : string :=
  DecimalString.NilZero.string_of_int (Z.to_int n).

(** [xs.map((x, index) => f(index, x))], the first index being [i]. *)
Fixpoint mapi_from {A B : Type} (f : nat -> A -> B) (i : nat) (xs : list A)
    : list B :=
  match xs with
  | [] => []
  | x :: rest => f i x :: mapi_from f (S i) rest
  end.

Definition mapi {A B : Type} (f : nat -> A -> B) (xs : list A) : list B :=
  mapi_from f 0 xs.

(** [c.toLowerCase()] for one ASCII character. *)
Definition lowerAscii (c : ascii) : ascii :=
  let n := nat_of_ascii c in
  if ((65 <=? n) && (n <=? 90))%nat then ascii_of_nat (n + 32) else c.

(** [s.toLowerCase()] on the ASCII letters of [s].  The other bytes of the
    string are left as they are: no character outside ASCII has a lower case
    made of the letters compared against in this program. *)
Fixpoint toLowerCase (s : string) : string :=
  match s with
  | EmptyString => EmptyString
  | String c rest => String (lowerAscii c) (toLowerCase rest)
  end.

(** Numbers read as exact rationals: this reading has neither [NaN] nor the
    rounding of floating-point addition, and serves where a statement does
    not depend on either; the aggregations are followed in doubles in
    [Doubles].  A number is truthy unless it is zero. *)
Definition truthy (x : Q) : bool := negb (Qeq_bool x 0).

(** [x || d] on an optional number [x]. *)
Definition num_or (x : option Q) (d : Q) : Q :=
  match x with
  | Some v => if truthy v then v else d
  | None => d
  end.

(** [parseFloat(x.toFixed(2))].  [toFixed] prints the multiple of 1/100
    nearest to [x], the one further from zero of two equally near, and prints
    [x] itself from 10^21 on. *)
Definition toFixed2 (x : Q) : Q :=
  if Qle_bool (inject_Z (10 ^ 21)) (Qabs x) then x
  else
    let n := Qfloor (Qabs x * 100 + (1 # 2)) in
    if Qle_bool 0 x then n # 100 else (- (n # 100))%Q.

(** The sum of a list of numbers. *)
Definition sumQ (xs : list Q) : Q := fold_right Qplus 0%Q xs.

(** A [Map<string, V>]: its entries in insertion order. *)
Definition Map (V : Type) : Type := list (string * V).

(** [m.get(k)]. *)
Fixpoint get {V : Type} (m : Map V) (k : string) : option V :=
  match m with
  | [] => None
  | (k', v) :: rest => if k' =? k then Some v else get rest k
  end.

(** [m.set(k, v)]: a key the map has keeps its place, a new key goes last. *)
Fixpoint set {V : Type} (m : Map V) (k : string) (v : V) : Map V :=
  match m with
  | [] => [(k, v)]
  | (k', v') :: rest =>
      if k' =? k then (k', v) :: rest else (k', v') :: set rest k v
  end.

Definition keys {V : Type} (m : Map V) : list string := map fst m.

End Js.

(** ** src/types/api.ts *)

Module Api.

Record DayPlanAction := {
  action : string;
  reason : string
}.

(** [Record<string, DayPlanAction[]>] in [Object.entries] order.  The value
    of a key is [None] when the JSON carried [null] for it, which is what
    the guard [actions && ...] of [mapApiToPlan] is written for. *)
Definition PlanMap := list (string * option (list DayPlanAction)).

Record SevenDayPlan := {
  summary : string;
  estimated_savings_percent : Q;
  comfort_impact : string;
  daily_plan : option PlanMap;
  _7_day_plan : option PlanMap
}.

Record RiskDay := {
  date : string;
  total_usage_kw : Q;
  reasons : list string;
  severity : string
}.

Record RiskReport := {
  total_risk_days : Z;
  risk_details : option (list RiskDay);
  risk_summary : string
}.

Record ForecastDataPoint := {
  datetime : string;
  predicted_usage : Q
}.

Record UserProfile := {
  occupancy_density : string;
  daytime_load_probability : Q;
  hvac_usage : string;
  thermal_comfort_setpoint : option string;
  water_heating_source : string;
  appliance_load_tier : string
}.

Record UsageBehavior := {
  peak_hours : list Z;
  peak_months : option (list string);
  weekend_behavior : option string;
  weekend_increase_percent : option Q;
  avg_hourly_kw : option Q
}.

Record SpikeProfile := {
  spike_rate_percent : option Q;
  spike_count : option Q;
  avg_spike_kw : option Q;
  max_spike_kw : option Q;
  spike_peak_hours : option (list Z);
  weekend_spike_percent : option Q
}.

Record WeatherContext := {
  avg_temp_c : option Q;
  thermal_condition : option string;
  humidity_level : option string;
  wind_cooling_effect : option string;
  heat_stress_index : option Q;
  temp_kwh_correlation : option Q;
  temp_correlation : option Q;
  weather_driver : string
}.

Record ConsumptionInsights := {
  usage_behavior : UsageBehavior;
  spike_profile : SpikeProfile;
  weather_context : WeatherContext
}.

Record DailyBreakdown := {
  highest_day : option string;
  lowest_day : option string;
  pattern_type : option string
}.

Record ForecastAnalysis := {
  forecast_summary : string;
  forecast_insights : list string;
  daily_breakdown : option DailyBreakdown
}.

Record AnalysisResult := {
  analysis_id : string;
  created_at : string;
  user_profile : UserProfile;
  consumption_insights : ConsumptionInsights;
  risk_report : RiskReport;
  forecast_analysis : option ForecastAnalysis;
  seven_day_energy_plan : SevenDayPlan;
  forecast_data : list ForecastDataPoint
}.

(** The same plan with its two plan-map keys replaced. *)
Definition with_plan_keys (p : SevenDayPlan)
    (k7 kd : option PlanMap) : SevenDayPlan :=
  {| summary := summary p;
     estimated_savings_percent := estimated_savings_percent p;
     comfort_impact := comfort_impact p;
     daily_plan := kd;
     _7_day_plan := k7 |}.

(** The same result with another [seven_day_energy_plan]. *)
Definition with_plan (r : AnalysisResult) (p : SevenDayPlan)
    : AnalysisResult :=
  {| analysis_id := analysis_id r;
     created_at := created_at r;
     user_profile := user_profile r;
     consumption_insights := consumption_insights r;
     risk_report := risk_report r;
     forecast_analysis := forecast_analysis r;
     seven_day_energy_plan := p;
     forecast_data := forecast_data r |}.

End Api.

(** ** DashboardPage.tsx: [mapApiToPlan] *)

Module Plan.
Import Api.

Record DayPlan := {
  dayLabel : string;
  plan_date : string;
  actions : list DayPlanAction;
  completed : option bool;
  skipped : option bool
}.

Section WithClock.

(** [Date] objects, [d.setDate(d.getDate() + n)] and
    [d.toISOString().split('T')[0]]. *)
Variable Date : Type.
Variable addDays : Date -> nat -> Date.
Variable isoDay : Date -> string.

(** The plan map [mapApiToPlan] reads: ["7_day_plan"] when it is there,
    [daily_plan] otherwise. *)
Definition dailyPlanOf (p : SevenDayPlan) : option PlanMap :=
  Js.or_else (_7_day_plan p) (daily_plan p).

(** One call of the [forEach] callback, at position [index]. *)
Definition visit (today : Date) (index : nat)
    (entry : string * option (list DayPlanAction))
    (plan : list DayPlan) : list DayPlan :=
  let (dayKey, acts) := entry in
  match acts with
  | Some a =>
      if (0 <? List.length a)%nat then
        Js.push plan
          {| dayLabel := dayKey;
             plan_date := isoDay (addDays today index);
             actions := a;
             completed := None;
             skipped := None |}
      else plan
  | None => plan
  end.

(** [Object.entries(dailyPlan).forEach((entry, index) => ...)] from
    position [index] on, over the array [plan] built so far. *)
Fixpoint forEachEntry (today : Date) (entries : PlanMap) (index : nat)
    (plan : list DayPlan) : list DayPlan :=
  match entries with
  | [] => plan
  | e :: rest => forEachEntry today rest (S index) (visit today index e plan)
  end.

Definition mapApiToPlan (today : Date) (data : AnalysisResult)
    : list DayPlan :=
  match dailyPlanOf (seven_day_energy_plan data) with
  | None => []
  | Some dailyPlan => forEachEntry today dailyPlan 0 []
  end.

(** The entries [mapApiToPlan] keeps: those with at least one action. *)
Definition hasActions (e : string * option (list DayPlanAction)) : bool :=
  match snd e with
  | Some a => (0 <? List.length a)%nat
  | None => false
  end.

(** What a [DayPlan] shows of the entry it was made from. *)
Definition entryOf (d : DayPlan) : string * option (list DayPlanAction) :=
  (dayLabel d, Some (actions d)).

Lemma forEachEntry_acc today entries :
  forall index plan,
    forEachEntry today entries index plan
    = plan ++ forEachEntry today entries index [].
Proof.
  induction entries as [|e rest IH]; intros index plan; simpl.
  - now rewrite app_nil_r.
  - rewrite (IH (S index) (visit today index e plan)).
    rewrite (IH (S index) (visit today index e [])).
    destruct e as [k [a|]]; simpl.
    + destruct (0 <? List.length a)%nat; unfold Js.push; simpl.
      * now rewrite <- app_assoc.
      * reflexivity.
    + reflexivity.
Qed.

Lemma forEachEntry_entries today entries :
  forall index,
    map entryOf (forEachEntry today entries index [])
    = filter hasActions entries.
Proof.
  induction entries as [|e rest IH]; intros index; simpl; [reflexivity|].
  rewrite forEachEntry_acc, map_app, IH.
  destruct e as [k [a|]]; unfold hasActions; simpl; [|reflexivity].
  destruct (0 <? List.length a)%nat; reflexivity.
Qed.

(** The date of each kept day is today plus the position of its entry in
    the whole map, skipped entries included. *)
Lemma forEachEntry_dates today entries :
  forall index d,
    In d (forEachEntry today entries index []) ->
    exists i, (index <= i < index + List.length entries)%nat
              /\ nth_error entries (i - index) = Some (entryOf d)
              /\ plan_date d = isoDay (addDays today i).
Proof.
  induction entries as [|e rest IH]; intros index d; simpl; [tauto|].
  rewrite forEachEntry_acc, in_app_iff. intros [Hd|Hd].
  - exists index. replace (index - index)%nat with 0%nat by lia. simpl.
    destruct e as [k [a|]]; simpl in Hd; [|tauto].
    destruct (0 <? List.length a)%nat; simpl in Hd; [|tauto].
    destruct Hd as [<-|[]]. repeat split; lia.
  - destruct (IH _ _ Hd) as (i & Hi & Hn & Hdate).
    exists i. repeat split; try lia; [|exact Hdate].
    replace (i - index)%nat with (S (i - S index)) by lia. exact Hn.
Qed.

(** C1: the two plan-map keys are interchangeable.  A result that carries the
    mapping [m] under ["7_day_plan"] only and a result that carries it under
    [daily_plan] only are mapped to the same list of day plans, and a result
    that carries both keys is mapped as if it carried ["7_day_plan"] alone. *)
Theorem mapApiToPlan_plan_keys_interchangeable
    (today : Date) (only7 onlyDaily both : AnalysisResult) (m m' : PlanMap) :
  _7_day_plan (seven_day_energy_plan only7) = Some m ->
  daily_plan (seven_day_energy_plan only7) = None ->
  _7_day_plan (seven_day_energy_plan onlyDaily) = None ->
  daily_plan (seven_day_energy_plan onlyDaily) = Some m ->
  _7_day_plan (seven_day_energy_plan both) = Some m ->
  daily_plan (seven_day_energy_plan both) = Some m' ->
  mapApiToPlan today only7 = mapApiToPlan today onlyDaily
  /\ mapApiToPlan today both = mapApiToPlan today only7.
Proof.
  intros H7 Hd H7' Hd' Hb7 Hbd. unfold mapApiToPlan, dailyPlanOf.
  rewrite H7, Hd, H7', Hd', Hb7, Hbd. simpl. split; reflexivity.
Qed.

(** C4: every day of the output has actions.  A day label is in the output
    exactly when the plan map gives it a non-empty list of actions, no day of
    the output has an empty list, and the output is the list of the map's
    entries that have actions, in the map's order, each with its list of
    actions as it was. *)
Theorem mapApiToPlan_days_have_actions
    (today : Date) (data : AnalysisResult) (m : PlanMap) :
  dailyPlanOf (seven_day_energy_plan data) = Some m ->
  (forall k, In k (map dayLabel (mapApiToPlan today data))
             <-> exists a, In (k, Some a) m /\ a <> [])
  /\ Forall (fun d => actions d <> []) (mapApiToPlan today data)
  /\ map entryOf (mapApiToPlan today data) = filter hasActions m.
Proof.
  intros Hm. unfold mapApiToPlan. rewrite Hm.
  pose proof (forEachEntry_entries today m 0) as Heq.
  assert (Hin : forall d, In d (forEachEntry today m 0 []) ->
                          In (entryOf d) m /\ actions d <> []).
  { intros d Hd. apply (in_map entryOf) in Hd. rewrite Heq in Hd.
    apply filter_In in Hd. destruct Hd as [Hd Ha]. split; [exact Hd|].
    unfold hasActions, entryOf in Ha. simpl in Ha.
    intros Hnil. rewrite Hnil in Ha. discriminate. }
  split; [|split].
  - intros k. rewrite in_map_iff. split.
    + intros (d & <- & Hd). exists (actions d). exact (Hin d Hd).
    + intros (a & Ha & Hne).
      assert (Hf : In (k, Some a) (filter hasActions m)).
      { apply filter_In. split; [exact Ha|]. unfold hasActions. simpl.
        destruct a; [contradiction|reflexivity]. }
      rewrite <- Heq in Hf. apply in_map_iff in Hf.
      destruct Hf as (d & Hd & Hin'). exists d. split; [|exact Hin'].
      unfold entryOf in Hd. congruence.
  - apply Forall_forall. intros d Hd. exact (proj2 (Hin d Hd)).
  - exact Heq.
Qed.

End WithClock.

(** A week of plan entries as the backend sends them, the third day without
    actions and the fourth one [null]. *)
Definition sampleAction : DayPlanAction :=
  {| action := "Pre-cool home before peak hours";
     reason := "Reduce AC load during expensive periods" |}.

Definition samplePlanMap : PlanMap :=
  [ ("Day 1", Some [sampleAction]);
    ("Day 2", Some [sampleAction; sampleAction]);
    ("Day 3", Some []);
    ("Day 4", None);
    ("Day 5", Some [sampleAction]) ].

Definition samplePlan (k7 kd : option PlanMap) : SevenDayPlan :=
  {| summary := "Your home has medium occupancy";
     estimated_savings_percent := 7%Q;
     comfort_impact := "low";
     daily_plan := kd;
     _7_day_plan := k7 |}.

Definition sampleResult (k7 kd : option PlanMap) : AnalysisResult :=
  {| analysis_id := "a1";
     created_at := "2024-12-27T15:30:00.000000";
     user_profile :=
       {| occupancy_density := "medium";
          daytime_load_probability := (9 # 10)%Q;
          hvac_usage := "active";
          thermal_comfort_setpoint := Some "22-24";
          water_heating_source := "electric geyser";
          appliance_load_tier := "moderate" |};
     consumption_insights :=
       {| usage_behavior :=
            {| peak_hours := [0; 1; 2; 3; 4; 5; 23]%Z;
               peak_months := None;
               weekend_behavior := None;
               weekend_increase_percent := None;
               avg_hourly_kw := Some (95 # 100)%Q |};
          spike_profile :=
            {| spike_rate_percent := None;
               spike_count := Some 5%Q;
               avg_spike_kw := None;
               max_spike_kw := Some (32 # 10)%Q;
               spike_peak_hours := None;
               weekend_spike_percent := None |};
          weather_context :=
            {| avg_temp_c := None;
               thermal_condition := None;
               humidity_level := None;
               wind_cooling_effect := None;
               heat_stress_index := None;
               temp_kwh_correlation := None;
               temp_correlation := Some (12 # 100)%Q;
               weather_driver := "weather-neutral" |} |};
     risk_report :=
       {| total_risk_days := 0%Z;
          risk_details := Some [];
          risk_summary := "No high-risk days detected for the upcoming week." |};
     forecast_analysis := None;
     seven_day_energy_plan := samplePlan k7 kd;
     forecast_data := [] |}.

(** A clock for the examples: days counted from an epoch, printed by
    [sampleIso]. *)
Definition sampleIso (d : nat) : string :=
  match d with
  | 0 => "2024-12-27"
  | 1 => "2024-12-28"
  | 2 => "2024-12-29"
  | 3 => "2024-12-30"
  | 4 => "2024-12-31"
  | _ => "2025-01-01"
  end.

Example mapApiToPlan_sample :
  map (fun d => (dayLabel d, plan_date d, List.length (actions d)))
      (mapApiToPlan Nat.add sampleIso 0 (sampleResult (Some samplePlanMap) None))
  = [ ("Day 1", "2024-12-27", 1); ("Day 2", "2024-12-28", 2);
      ("Day 5", "2024-12-31", 1) ].
Proof. reflexivity. Qed.

Lemma mapApiToPlan_plan_keys_interchangeable_witness :
  mapApiToPlan Nat.add sampleIso 0 (sampleResult (Some samplePlanMap) None)
  = mapApiToPlan Nat.add sampleIso 0 (sampleResult None (Some samplePlanMap))
  /\ mapApiToPlan Nat.add sampleIso 0
       (sampleResult (Some samplePlanMap) (Some []))
     = mapApiToPlan Nat.add sampleIso 0 (sampleResult (Some samplePlanMap) None).
Proof.
  apply (@mapApiToPlan_plan_keys_interchangeable nat Nat.add sampleIso 0
           (sampleResult (Some samplePlanMap) None)
           (sampleResult None (Some samplePlanMap))
           (sampleResult (Some samplePlanMap) (Some []))
           samplePlanMap []); reflexivity.
Defined.

Lemma mapApiToPlan_days_have_actions_witness :
  (forall k,
      In k (map dayLabel
              (mapApiToPlan Nat.add sampleIso 0
                 (sampleResult (Some samplePlanMap) None)))
      <-> exists a, In (k, Some a) samplePlanMap /\ a <> [])
  /\ Forall (fun d => actions d <> [])
       (mapApiToPlan Nat.add sampleIso 0
          (sampleResult (Some samplePlanMap) None))
  /\ map entryOf
       (mapApiToPlan Nat.add sampleIso 0
          (sampleResult (Some samplePlanMap) None))
     = filter hasActions samplePlanMap.
Proof.
  apply (@mapApiToPlan_days_have_actions nat Nat.add sampleIso 0
           (sampleResult (Some samplePlanMap) None) samplePlanMap).
  reflexivity.
Defined.

End Plan.

(** ** DashboardPage.tsx: the data the page reads from an analysis *)

Module Dashboard.
Import Api.

(** [const savingsPercent = sevenDayPlan?.estimated_savings_percent || 10]. *)
Definition savingsPercent (sevenDayPlan : option SevenDayPlan) : Q :=
  Js.num_or (option_map estimated_savings_percent sevenDayPlan) 10%Q.

(** The "Estimated Savings" line [buildSystemPrompt] of services/groq.ts gives
    the chat model: the field itself, whenever there is a plan. *)
Definition promptSavings (sevenDayPlan : option SevenDayPlan) : option Q :=
  option_map estimated_savings_percent sevenDayPlan.

Definition mockUserProfile : UserProfile :=
  {| occupancy_density := "medium";
     daytime_load_probability := (7 # 10)%Q;
     hvac_usage := "moderate";
     thermal_comfort_setpoint := Some "22-24";
     water_heating_source := "electric geyser";
     appliance_load_tier := "moderate" |}.

Definition mockConsumptionInsights : ConsumptionInsights :=
  {| usage_behavior :=
       {| peak_hours := [18; 19; 20; 21; 22]%Z;
          peak_months := Some ["June"; "July"; "August"];
          weekend_behavior := Some "higher";
          weekend_increase_percent := Some 15%Q;
          avg_hourly_kw := None |};
     spike_profile :=
       {| spike_rate_percent := Some (85 # 10)%Q;
          spike_count := None;
          avg_spike_kw := Some (32 # 10)%Q;
          max_spike_kw := None;
          spike_peak_hours := Some [19; 20; 21]%Z;
          weekend_spike_percent := Some 25%Q |};
     weather_context :=
       {| avg_temp_c := Some (285 # 10)%Q;
          thermal_condition := Some "warm";
          humidity_level := Some "moderate";
          wind_cooling_effect := Some "moderate";
          heat_stress_index := Some 32%Q;
          temp_kwh_correlation := Some (4 # 10)%Q;
          temp_correlation := None;
          weather_driver := "weather-neutral" |} |}.

Definition mockRiskReport : RiskReport :=
  {| total_risk_days := 0%Z;
     risk_details := Some [];
     risk_summary := "No high-risk days detected for the upcoming week." |}.

(** What the [useMemo] of [DashboardPage] hands to the page. *)
Record PageData := {
  userProfile : UserProfile;
  consumptionInsights : ConsumptionInsights;
  riskReport : RiskReport;
  plan : list Plan.DayPlan;
  forecastData : list ForecastDataPoint;
  sevenDayPlan : option SevenDayPlan;
  forecastAnalysis : option ForecastAnalysis
}.

Section PageClock.

Variable Date : Type.
Variable addDays : Date -> nat -> Date.
Variable isoDay : Date -> string.

Definition pageData (today : Date) (analysisData : option AnalysisResult)
    : PageData :=
  match analysisData with
  | None =>
      {| userProfile := mockUserProfile;
         consumptionInsights := mockConsumptionInsights;
         riskReport := mockRiskReport;
         plan := [];
         forecastData := [];
         sevenDayPlan := None;
         forecastAnalysis := None |}
  | Some data =>
      {| userProfile := user_profile data;
         consumptionInsights := consumption_insights data;
         riskReport := risk_report data;
         plan := Plan.mapApiToPlan addDays isoDay today data;
         forecastData := forecast_data data;
         sevenDayPlan := Some (seven_day_energy_plan data);
         forecastAnalysis := Js.or_else (forecast_analysis data) None |}
  end.

End PageClock.

(** The own keys of the JSON object behind an [AnalysisResult]: the required
    fields of the interface, and [forecast_analysis], declared with [?], when
    the value has it. *)
Definition keys (r : AnalysisResult) : list string :=
  ["analysis_id"; "created_at"; "user_profile"; "consumption_insights";
   "risk_report"]
  ++ (match forecast_analysis r with
      | Some _ => ["forecast_analysis"]
      | None => []
      end)
  ++ ["seven_day_energy_plan"; "forecast_data"].

(** The six fields the specification lists for the result. *)
Definition resultFields : list string :=
  ["user_profile"; "consumption_insights"; "risk_report";
   "forecast_analysis"; "seven_day_energy_plan"; "forecast_data"].

(** The five of them the interface requires. *)
Definition requiredResultFields : list string :=
  ["user_profile"; "consumption_insights"; "risk_report";
   "seven_day_energy_plan"; "forecast_data"].

(** A plan with nothing to save, as the synthesizer's clamp to [0, 100]
    produces it from a negative estimate. *)
Definition zeroSavingsPlan : SevenDayPlan :=
  {| summary := "No further savings were found for this week.";
     estimated_savings_percent := 0%Q;
     comfort_impact := "low";
     daily_plan := None;
     _7_day_plan := Some Plan.samplePlanMap |}.

Lemma truthy_nonzero (x : Q) : ~ (x == 0)%Q -> Js.truthy x = true.
Proof.
  intros Hx. unfold Js.truthy. destruct (Qeq_bool x 0) eqn:E; [|reflexivity].
  apply Qeq_bool_eq in E. contradiction.
Qed.

(** Away from zero the page shows the estimate itself. *)
Lemma savingsPercent_nonzero (p : SevenDayPlan) :
  ~ (estimated_savings_percent p == 0)%Q ->
  savingsPercent (Some p) = estimated_savings_percent p.
Proof.
  intros Hp. unfold savingsPercent, Js.num_or. simpl.
  now rewrite (truthy_nonzero Hp).
Qed.

(** C3: an estimate of 0 percent, which lies in [0, 100], is displayed as 10
    percent, while the chat prompt built from the same plan reports 0. *)
Theorem savingsPercent_zero_shows_ten :
  (0 <= estimated_savings_percent zeroSavingsPlan <= 100)%Q
  /\ savingsPercent (Some zeroSavingsPlan) = 10%Q
  /\ ~ (savingsPercent (Some zeroSavingsPlan)
        == estimated_savings_percent zeroSavingsPlan)%Q
  /\ promptSavings (Some zeroSavingsPlan) = Some 0%Q.
Proof.
  repeat split; try reflexivity; try discriminate.
Qed.

Lemma keys_required (r : AnalysisResult) (k : string) :
  In k requiredResultFields -> In k (keys r).
Proof.
  unfold requiredResultFields, keys. intros Hk. simpl in Hk.
  apply in_or_app.
  destruct Hk as [<-|[<-|[<-|[<-|[<-|[]]]]]];
    try (left; simpl; tauto);
    right; apply in_or_app; right; simpl; tauto.
Qed.

Lemma keys_forecast_analysis (r : AnalysisResult) :
  In "forecast_analysis" (keys r) <-> forecast_analysis r <> None.
Proof.
  unfold keys. rewrite !in_app_iff. destruct (forecast_analysis r); simpl.
  - split; [discriminate|tauto].
  - split; [|congruence].
    intros [H|[[]|H]];
      repeat (destruct H as [H|H]; [discriminate H|]); destruct H.
Qed.

(** C5 as stated fails: a result without [forecast_analysis] is a value of
    the interface; not all six fields are among its keys, and the page reads
    [null] for the forecast analysis. *)
Lemma result_without_forecast_analysis :
  ~ (forall k, In k resultFields ->
               In k (keys (Plan.sampleResult (Some Plan.samplePlanMap) None)))
  /\ forecastAnalysis
       (pageData Nat.add Plan.sampleIso 0
          (Some (Plan.sampleResult (Some Plan.samplePlanMap) None)))
     = None.
Proof.
  split; [|reflexivity].
  intros H. specialize (H "forecast_analysis").
  assert (Hin : In "forecast_analysis" resultFields) by (simpl; tauto).
  apply H, keys_forecast_analysis in Hin. apply Hin. reflexivity.
Qed.

(** C5, amended: every result has the five required fields, and the page
    reads each of them as it is; [forecast_analysis] is among the keys exactly
    when the value has it, and the page reads it when it is there and [null]
    otherwise. *)
Theorem result_fields_required_and_optional
    (Date : Type) (addDays : Date -> nat -> Date) (isoDay : Date -> string)
    (today : Date) (r : AnalysisResult) :
  (forall k, In k requiredResultFields -> In k (keys r))
  /\ (In "forecast_analysis" (keys r) <-> forecast_analysis r <> None)
  /\ userProfile (pageData addDays isoDay today (Some r)) = user_profile r
  /\ consumptionInsights (pageData addDays isoDay today (Some r))
     = consumption_insights r
  /\ riskReport (pageData addDays isoDay today (Some r)) = risk_report r
  /\ sevenDayPlan (pageData addDays isoDay today (Some r))
     = Some (seven_day_energy_plan r)
  /\ forecastData (pageData addDays isoDay today (Some r)) = forecast_data r
  /\ forecastAnalysis (pageData addDays isoDay today (Some r))
     = forecast_analysis r.
Proof.
  split; [exact (keys_required r)|].
  split; [exact (keys_forecast_analysis r)|].
  repeat split. simpl. now destruct (forecast_analysis r).
Qed.

End Dashboard.

(** ** DashboardPage.tsx: [handleSendMessage] *)

Module Chat.

Inductive Role := user | assistant.

(** [ChatMessage] of src/types: what the chat window shows. *)
Record ChatMessage := {
  id : string;
  role : Role;
  content : string;
  timestamp : Z
}.

Inductive GroqRole := groq_system | groq_user | groq_assistant.

(** [ChatMessage] of services/groq.ts: what is sent to the model. *)
Record GroqChatMessage := {
  groq_role : GroqRole;
  groq_content : string
}.

(** The three pieces of React state the handler writes. *)
Record State := {
  chatMessages : list ChatMessage;
  conversationHistory : list GroqChatMessage;
  isTyping : bool
}.

(** How the promise of [sendChatMessage] settles: with the reply, or with an
    error whose [message] may be missing. *)
Inductive Outcome :=
| Resolved (aiResponseContent : string)
| Rejected (message : option string).

(** The state setters, each called with an updater [prev => ...]. *)
Definition setChatMessages (f : list ChatMessage -> list ChatMessage)
    (s : State) : State :=
  {| chatMessages := f (chatMessages s);
     conversationHistory := conversationHistory s;
     isTyping := isTyping s |}.

Definition setConversationHistory
    (f : list GroqChatMessage -> list GroqChatMessage) (s : State) : State :=
  {| chatMessages := chatMessages s;
     conversationHistory := f (conversationHistory s);
     isTyping := isTyping s |}.

Definition setIsTyping (b : bool) (s : State) : State :=
  {| chatMessages := chatMessages s;
     conversationHistory := conversationHistory s;
     isTyping := b |}.

(** Sequencing of state updates, in program order. *)
Definition andThen (f g : State -> State) : State -> State :=
  fun s => g (f s).

#[local] Infix ">>" := andThen (at level 61, left associativity).

Definition toString := Js.toString.

(** [error.message || 'Unable to connect to AI service']: the empty string is
    falsy as well. *)
Definition errorText (message : option string) : string :=
  match message with
  | Some "" | None => "Unable to connect to AI service"
  | Some m => m
  end.

Definition userMessage (now : Z) (message : string) : ChatMessage :=
  {| id := toString now; role := user; content := message; timestamp := now |}.

Definition aiResponse (now : Z) (aiResponseContent : string) : ChatMessage :=
  {| id := toString (now + 1); role := assistant;
     content := aiResponseContent; timestamp := now |}.

Definition errorResponse (now : Z) (message : option string) : ChatMessage :=
  {| id := toString (now + 1); role := assistant;
     content := "Sorry, I encountered an error: " ++ errorText message
                ++ ". Please try again.";
     timestamp := now |}.

(** The handler up to its [await]; [t0] is the clock when it is called. *)
Definition beforeAwait (t0 : Z) (message : string) : State -> State :=
  setChatMessages (fun prev => prev ++ [userMessage t0 message])
  >> setIsTyping true.

(** The handler from the moment the promise settles, at clock [t1]: the rest
    of the [try] block or the [catch] block, then [finally]. *)
Definition afterAwait (t1 : Z) (message : string) (o : Outcome)
    : State -> State :=
  match o with
  | Resolved aiResponseContent =>
      setConversationHistory
        (fun prev =>
           prev ++ [ {| groq_role := groq_user; groq_content := message |};
                     {| groq_role := groq_assistant;
                        groq_content := aiResponseContent |} ])
      >> setChatMessages (fun prev => prev ++ [aiResponse t1 aiResponseContent])
      >> setIsTyping false
  | Rejected e =>
      setChatMessages (fun prev => prev ++ [errorResponse t1 e])
      >> setIsTyping false
  end.

Definition handleSendMessage (t0 t1 : Z) (message : string) (o : Outcome)
    : State -> State :=
  beforeAwait t0 message >> afterAwait t1 message o.

(** The messages of [l'] that come after the prefix [l]. *)
Definition appended {A : Type} (l l' : list A) : list A :=
  skipn (List.length l) l'.

Definition isAssistant (m : ChatMessage) : bool :=
  match role m with
  | assistant => true
  | user => false
  end.

(** The message the chat opens with. *)
Definition greeting : string :=
  "Hi! I'm your AI Energy Coach. I've analyzed your electricity data and I'm here to help you understand your usage patterns and save money. What would you like to know?".

Definition mockChatHistory : list ChatMessage :=
  [ {| id := "1"; role := assistant;
       content := greeting;
       timestamp := 0 |} ].

Definition initialChat : State :=
  {| chatMessages := mockChatHistory;
     conversationHistory := [];
     isTyping := false |}.

Example toString_now : toString 1735310000000 = "1735310000000".
Proof. reflexivity. Qed.

Example send_rejected :
  map content
    (chatMessages
       (handleSendMessage 5 9 "Why is my bill so high?" (Rejected (Some ""))
          initialChat))
  = [ greeting; "Why is my bill so high?";
      "Sorry, I encountered an error: Unable to connect to AI service. Please try again." ].
Proof. reflexivity. Qed.

Lemma appended_app {A : Type} (l more : list A) : appended l (l ++ more) = more.
Proof.
  unfold appended. induction l as [|x l IH]; simpl; [reflexivity|exact IH].
Qed.

(** C10: a send whose request is rejected leaves the conversation history as
    it was and appends, after the user's message, exactly one assistant
    message, the error text, to the chat; a send whose request resolves
    appends to the conversation history exactly two entries, the user's
    message and then the assistant's reply.  Either way the typing indicator
    ends switched off. *)
Theorem handleSendMessage_history_atomic
    (t0 t1 : Z) (message : string) (s : State) :
  (forall e,
      let s' := handleSendMessage t0 t1 message (Rejected e) s in
      conversationHistory s' = conversationHistory s
      /\ chatMessages s'
         = chatMessages s ++ [userMessage t0 message; errorResponse t1 e]
      /\ List.length
           (filter isAssistant (appended (chatMessages s) (chatMessages s')))
         = 1
      /\ isTyping s' = false)
  /\ (forall reply,
        let s' := handleSendMessage t0 t1 message (Resolved reply) s in
        conversationHistory s'
        = conversationHistory s
          ++ [ {| groq_role := groq_user; groq_content := message |};
               {| groq_role := groq_assistant; groq_content := reply |} ]
        /\ List.length
             (appended (conversationHistory s) (conversationHistory s'))
           = 2
        /\ chatMessages s'
           = chatMessages s ++ [userMessage t0 message; aiResponse t1 reply]
        /\ isTyping s' = false).
Proof.
  split.
  - intros e s'. subst s'.
    unfold handleSendMessage, beforeAwait, afterAwait, andThen. simpl.
    rewrite <- app_assoc. simpl. rewrite appended_app.
    repeat split; reflexivity.
  - intros reply s'. subst s'.
    unfold handleSendMessage, beforeAwait, afterAwait, andThen. simpl.
    rewrite <- app_assoc. simpl. rewrite appended_app.
    repeat split; reflexivity.
Qed.

End Chat.

(** ** RiskReportCard.tsx *)

Module RiskReportCard.
Import Api.

Record Styles := {
  bg : string;
  text : string;
  border : string
}.

Definition highStyles : Styles :=
  {| bg := "bg-destructive/10"; text := "text-destructive";
     border := "border-destructive/30" |}.

Definition mediumStyles : Styles :=
  {| bg := "bg-warning/10"; text := "text-warning";
     border := "border-warning/30" |}.

Definition lowStyles : Styles :=
  {| bg := "bg-insight/10"; text := "text-insight";
     border := "border-insight/30" |}.

Definition getSeverityStyles (severity : string) : Styles :=
  let lower := Js.toLowerCase severity in
  if lower =? "high" then highStyles
  else if lower =? "medium" then mediumStyles
  else lowStyles.

(** One rendered risk day.  Its React key is [day.date || index]. *)
Record RiskDayItem := {
  key : string + nat;
  styles : Styles;
  dateLabel : string;
  reasonLines : list string;
  usageText : string;
  severityBadge : string
}.

(** The parts of the card that depend on the report. *)
Record Card := {
  badgeClass : string;
  badgeText : string;
  summaryText : string;
  details : option (list RiskDayItem);
  noRiskBanner : bool
}.

Section WithLocale.

(** [new Date(s).toLocaleDateString('en-US', {weekday, month, day})] and
    [x.toFixed(1)]. *)
Variable formatDate : string -> string.
Variable toFixed1 : Q -> string.

Definition renderRiskDay (index : nat) (day : RiskDay) : RiskDayItem :=
  let styles := getSeverityStyles (severity day) in
  {| key := if date day =? "" then inr index else inl (date day);
     styles := styles;
     dateLabel := formatDate (date day);
     reasonLines := reasons day;
     usageText := toFixed1 (total_usage_kw day);
     severityBadge := severity day |}.

(** [{riskReport.risk_details && riskReport.risk_details.length > 0 && (...)}] *)
Definition renderDetails (risk_details : option (list RiskDay))
    : option (list RiskDayItem) :=
  match risk_details with
  | Some l =>
      if (0 <? List.length l)%nat then Some (Js.mapi renderRiskDay l) else None
  | None => None
  end.

Definition render (riskReport : RiskReport) : Card :=
  {| badgeClass :=
       if (0 <? total_risk_days riskReport)%Z then "bg-warning/10 text-warning"
       else "bg-savings/10 text-savings";
     badgeText := Js.toString (total_risk_days riskReport) ++ " Risk Days";
     summaryText := risk_summary riskReport;
     details := renderDetails (risk_details riskReport);
     noRiskBanner := (total_risk_days riskReport =? 0)%Z |}.

End WithLocale.

(** The invariant of the data model: [total_risk_days == len(risk_details)]. *)
Definition consistent (r : RiskReport) : Prop :=
  exists l, risk_details r = Some l
            /\ total_risk_days r = Z.of_nat (List.length l).

Definition sampleRiskDay (d sev : string) : RiskDay :=
  {| date := d;
     total_usage_kw := (452 # 10)%Q;
     reasons := ["High temperature"; "Weekend usage"];
     severity := sev |}.

Definition sampleRiskReport : RiskReport :=
  {| total_risk_days := 2;
     risk_details :=
       Some [sampleRiskDay "2024-12-28" "high";
             sampleRiskDay "2024-12-29" "Medium"];
     risk_summary := "Identified 2 days with potential energy spikes." |}.

Example getSeverityStyles_samples :
  map getSeverityStyles ["high"; "HIGH"; "High"; "MeDiUm"; "low"; "critical"; ""]
  = [highStyles; highStyles; highStyles; mediumStyles; lowStyles; lowStyles;
     lowStyles].
Proof. reflexivity. Qed.

Lemma mapi_from_nth {A B : Type} (f : nat -> A -> B) (xs : list A) :
  forall i n x,
    nth_error xs n = Some x ->
    nth_error (Js.mapi_from f i xs) n = Some (f (i + n)%nat x).
Proof.
  induction xs as [|y rest IH]; intros i n x Hn.
  - destruct n; discriminate.
  - destruct n as [|n]; simpl in *.
    + injection Hn as ->. now rewrite Nat.add_0_r.
    + rewrite (IH (S i) n x Hn). f_equal. f_equal. lia.
Qed.

Lemma mapi_from_length {A B : Type} (f : nat -> A -> B) (xs : list A) :
  forall i, List.length (Js.mapi_from f i xs) = List.length xs.
Proof.
  induction xs as [|y rest IH]; intros i; simpl; [reflexivity|].
  now rewrite IH.
Qed.

(** The capital of a small ASCII letter, 32 places before it. *)
Definition capitalOf (c : ascii) : ascii := ascii_of_nat (nat_of_ascii c - 32).

(** [spells word s]: [s] is the lower-case [word] written with small or
    capital letters, letter by letter, and nothing else. *)
Fixpoint spells (word s : string) : bool :=
  match word, s with
  | EmptyString, EmptyString => true
  | String a word', String c s' =>
      (Ascii.eqb c a || Ascii.eqb c (capitalOf a)) && spells word' s'
  | _, _ => false
  end.

Example spells_samples :
  spells "high" "HIGH" = true /\ spells "high" "High" = true
  /\ spells "medium" "mEdIuM" = true /\ spells "high" "hig" = false
  /\ spells "high" "highs" = false /\ spells "medium" "high" = false.
Proof. repeat split. Qed.

(** The small letters, and all the bytes. *)
Definition smallLetters : list ascii :=
  map ascii_of_nat (seq 97 26).

Definition allBytes : list ascii := map ascii_of_nat (seq 0 256).

Lemma in_allBytes (c : ascii) : In c allBytes.
Proof.
  unfold allBytes. rewrite <- (ascii_nat_embedding c).
  apply in_map, in_seq. pose proof (nat_ascii_bounded c). lia.
Qed.

(** A byte lower-cases to a small letter exactly when it is that letter or
    its capital. *)
Lemma lowerAscii_small (a c : ascii) :
  In a smallLetters ->
  Ascii.eqb (Js.lowerAscii c) a = (Ascii.eqb c a || Ascii.eqb c (capitalOf a)).
Proof.
  intros Ha.
  assert (H : forallb
                (fun a' =>
                   forallb
                     (fun c' =>
                        Bool.eqb (Ascii.eqb (Js.lowerAscii c') a')
                          (Ascii.eqb c' a' || Ascii.eqb c' (capitalOf a')))
                     allBytes)
                smallLetters = true) by (vm_compute; reflexivity).
  rewrite forallb_forall in H. specialize (H a Ha).
  rewrite forallb_forall in H. specialize (H c (in_allBytes c)).
  now apply Bool.eqb_prop in H.
Qed.

(** A word of small letters. *)
Fixpoint smallWord (word : string) : Prop :=
  match word with
  | EmptyString => True
  | String a rest => In a smallLetters /\ smallWord rest
  end.

(** Comparing the lower case of a string with a word of small letters is
    spelling the word. *)
Lemma toLowerCase_spells (word : string) :
  smallWord word ->
  forall s, (Js.toLowerCase s =? word) = spells word s.
Proof.
  induction word as [|a word IH]; intros Hw [|c s]; simpl; try reflexivity.
  destruct Hw as [Ha Hw].
  rewrite (lowerAscii_small c Ha), (IH Hw s). reflexivity.
Qed.

Ltac iff_case :=
  split; intros Hside;
  first [ reflexivity | discriminate | congruence
        | (destruct Hside; congruence) | tauto ].

(** C9: [getSeverityStyles] returns a style for every string and does not
    tell capitals from small letters.  The style is the destructive one
    exactly when the lower-cased severity is "high", that is exactly when the
    severity is the word "high" written with small or capital letters in any
    mix; it is the warning one exactly when the same holds of "medium"; it is
    the insight one in every other case; and two strings with the same lower
    case get the same style. *)
Theorem getSeverityStyles_total_case_insensitive (severity : string) :
  (getSeverityStyles severity = highStyles
   <-> Js.toLowerCase severity = "high")
  /\ (getSeverityStyles severity = mediumStyles
      <-> Js.toLowerCase severity = "medium")
  /\ (getSeverityStyles severity = lowStyles
      <-> Js.toLowerCase severity <> "high"
          /\ Js.toLowerCase severity <> "medium")
  /\ (getSeverityStyles severity = highStyles
      <-> spells "high" severity = true)
  /\ (getSeverityStyles severity = mediumStyles
      <-> spells "medium" severity = true)
  /\ (forall other,
        Js.toLowerCase other = Js.toLowerCase severity ->
        getSeverityStyles other = getSeverityStyles severity).
Proof.
  assert (Hh : smallWord "high") by (vm_compute; tauto).
  assert (Hm : smallWord "medium") by (vm_compute; tauto).
  pose proof (@toLowerCase_spells "high" Hh severity) as Eh.
  pose proof (@toLowerCase_spells "medium" Hm severity) as Em.
  unfold getSeverityStyles.
  destruct (Js.toLowerCase severity =? "high") eqn:Bh;
    [|destruct (Js.toLowerCase severity =? "medium") eqn:Bm].
  - apply String.eqb_eq in Bh. rewrite Bh in Em |- *.
    change ("high" =? "medium") with false in Em. rewrite <- Eh, <- Em.
    split; [|split; [|split; [|split; [|split]]]]; try iff_case.
    intros other ->. reflexivity.
  - apply String.eqb_neq in Bh. apply String.eqb_eq in Bm. rewrite Bm in *.
    rewrite <- Eh, <- Em.
    split; [|split; [|split; [|split; [|split]]]]; try iff_case.
    intros other ->. reflexivity.
  - rewrite <- Eh, <- Em.
    pose proof Bh as Bh'. pose proof Bm as Bm'.
    apply String.eqb_neq in Bh. apply String.eqb_neq in Bm.
    split; [|split; [|split; [|split; [|split]]]]; try iff_case.
    intros other ->. now rewrite Bh', Bm'.
Qed.

(** C2: for a report whose [total_risk_days] is the length of its
    [risk_details], the list of risk days is rendered exactly when
    [total_risk_days > 0], the "No High-Risk Days Detected" banner exactly
    when [total_risk_days = 0], never both, and the rendered list shows the
    risk days one for one in the order of [risk_details]. *)
Theorem render_details_or_banner
    (formatDate : string -> string) (toFixed1 : Q -> string)
    (r : RiskReport) :
  consistent r ->
  (details (render formatDate toFixed1 r) <> None
   <-> (0 < total_risk_days r)%Z)
  /\ (noRiskBanner (render formatDate toFixed1 r) = true
      <-> total_risk_days r = 0%Z)
  /\ ~ (details (render formatDate toFixed1 r) <> None
        /\ noRiskBanner (render formatDate toFixed1 r) = true)
  /\ (forall l, risk_details r = Some l -> (0 < total_risk_days r)%Z ->
        exists items,
          details (render formatDate toFixed1 r) = Some items
          /\ List.length items = List.length l
          /\ forall i day,
               nth_error l i = Some day ->
               nth_error items i
               = Some (renderRiskDay formatDate toFixed1 i day)).
Proof.
  intros (l & Hl & Hn).
  assert (Hd : details (render formatDate toFixed1 r) <> None
               <-> (0 < total_risk_days r)%Z).
  { simpl. unfold renderDetails. rewrite Hl, Hn.
    destruct l as [|d l]; simpl; split; intros H; try lia; congruence. }
  assert (Hb : noRiskBanner (render formatDate toFixed1 r) = true
               <-> total_risk_days r = 0%Z).
  { simpl. apply Z.eqb_eq. }
  split; [exact Hd|]. split; [exact Hb|]. split.
  - intros [H1 H2]. apply Hd in H1. apply Hb in H2. lia.
  - intros l' Hl' Hpos. rewrite Hl in Hl'. injection Hl' as <-.
    exists (Js.mapi (renderRiskDay formatDate toFixed1) l).
    split; [|split].
    + simpl. unfold renderDetails. rewrite Hl.
      destruct l as [|d l]; [simpl in Hn; lia|reflexivity].
    + apply mapi_from_length.
    + intros i day Hi. unfold Js.mapi.
      now rewrite (mapi_from_nth _ _ 0 _ Hi).
Qed.

Lemma render_details_or_banner_witness :
  (details (render (fun s => s) (fun _ => "45.2") sampleRiskReport) <> None
   <-> (0 < total_risk_days sampleRiskReport)%Z)
  /\ (noRiskBanner (render (fun s => s) (fun _ => "45.2") sampleRiskReport)
      = true
      <-> total_risk_days sampleRiskReport = 0%Z)
  /\ ~ (details (render (fun s => s) (fun _ => "45.2") sampleRiskReport)
        <> None
        /\ noRiskBanner (render (fun s => s) (fun _ => "45.2") sampleRiskReport)
           = true)
  /\ (forall l, risk_details sampleRiskReport = Some l ->
        (0 < total_risk_days sampleRiskReport)%Z ->
        exists items,
          details (render (fun s => s) (fun _ => "45.2") sampleRiskReport)
          = Some items
          /\ List.length items = List.length l
          /\ forall i day,
               nth_error l i = Some day ->
               nth_error items i
               = Some (renderRiskDay (fun s => s) (fun _ => "45.2") i day)).
Proof.
  apply (@render_details_or_banner (fun s => s) (fun _ => "45.2")
           sampleRiskReport).
  exists [sampleRiskDay "2024-12-28" "high"; sampleRiskDay "2024-12-29" "Medium"].
  split; reflexivity.
Defined.

End RiskReportCard.

(** ** OnboardingPage.tsx: the questionnaire *)

Module Onboarding.

(** [keyof QuestionnaireAnswers]. *)
Inductive QuestionId := q1 | q2 | q3 | q3_1 | q4 | q5.

Definition QuestionId_eqb (a b : QuestionId) : bool :=
  match a, b with
  | q1, q1 | q2, q2 | q3, q3 | q3_1, q3_1 | q4, q4 | q5, q5 => true
  | _, _ => false
  end.

(** [Partial<QuestionnaireAnswers>]: each key with its value, or without
    one when the object does not have the key. *)
Record Answers := {
  a_q1 : option string;
  a_q2 : option string;
  a_q3 : option string;
  a_q3_1 : option string;
  a_q4 : option string;
  a_q5 : option string
}.

Definition noAnswers : Answers :=
  {| a_q1 := None; a_q2 := None; a_q3 := None; a_q3_1 := None;
     a_q4 := None; a_q5 := None |}.

(** [answers[field]]. *)
Definition get (answers : Answers) (field : QuestionId) : option string :=
  match field with
  | q1 => a_q1 answers
  | q2 => a_q2 answers
  | q3 => a_q3 answers
  | q3_1 => a_q3_1 answers
  | q4 => a_q4 answers
  | q5 => a_q5 answers
  end.

(** [{...answers, [questionId]: value}]. *)
Definition set (answers : Answers) (questionId : QuestionId) (value : string)
    : Answers :=
  {| a_q1 := if QuestionId_eqb questionId q1 then Some value else a_q1 answers;
     a_q2 := if QuestionId_eqb questionId q2 then Some value else a_q2 answers;
     a_q3 := if QuestionId_eqb questionId q3 then Some value else a_q3 answers;
     a_q3_1 :=
       if QuestionId_eqb questionId q3_1 then Some value else a_q3_1 answers;
     a_q4 := if QuestionId_eqb questionId q4 then Some value else a_q4 answers;
     a_q5 := if QuestionId_eqb questionId q5 then Some value else a_q5 answers
  |}.

Record Question := {
  id : QuestionId;
  title : string;
  options : list string;
  conditionalOn : option (QuestionId * string)
}.

Definition questions : list Question :=
  [ {| id := q1; title := "How many people live in your home?";
       options := ["1-2"; "3-4"; "5+"];
       conditionalOn := None |};
    {| id := q2; title := "How occupied is your home during daytime?";
       options := ["Mostly empty"; "Partially occupied"; "Mostly occupied"];
       conditionalOn := None |};
    {| id := q3; title := "Do you use air conditioning / HVAC?";
       options := ["Yes"; "No"];
       conditionalOn := None |};
    {| id := q3_1; title := "What is your preferred thermal comfort setpoint?";
       options := ["18-20"; "20-22"; "22-24"; "24-26"];
       conditionalOn := Some (q3, "Yes") |};
    {| id := q4; title := "What's your water heating source?";
       options := ["Electric geyser"; "Gas geyser"; "Solar"; "None"];
       conditionalOn := None |};
    {| id := q5; title := "How many heavy appliances do you use regularly?";
       options := ["0-1"; "2-3"; "4+"];
       conditionalOn := None |} ].

(** [answers[field] === value]. *)
Definition answerIs (answers : Answers) (field : QuestionId) (value : string)
    : bool :=
  match get answers field with
  | Some v => v =? value
  | None => false
  end.

Definition isVisible (answers : Answers) (q : Question) : bool :=
  match conditionalOn q with
  | None => true
  | Some (field, value) => answerIs answers field value
  end.

Definition visibleQuestions (answers : Answers) : list Question :=
  filter (isVisible answers) questions.

Inductive Step := upload | questionsStep.

(** The state of the page, and the answers handed to [startAnalysis] so far,
    oldest first. *)
Record State := {
  step : Step;
  selectedFile : bool;
  currentQuestion : nat;
  answers : Answers;
  submitted : list Answers
}.

Definition initialState : State :=
  {| step := upload; selectedFile := false; currentQuestion := 0;
     answers := noAnswers; submitted := [] |}.

(** [handleSubmitAnalysis(finalAnswers)]: nothing without a file. *)
Definition handleSubmitAnalysis (finalAnswers : Answers) (s : State) : State :=
  if selectedFile s then
    {| step := step s; selectedFile := selectedFile s;
       currentQuestion := currentQuestion s; answers := answers s;
       submitted := submitted s ++ [finalAnswers] |}
  else s.

(** [handleAnswer(questionId, value)] together with its timer callback.  The
    callback reads [currentQuestion], [visibleQuestions] and [answers] of the
    render in which the option was clicked, that is of [s].  The click and
    the callback are one step here, as they are when nothing happens in the
    300 ms between them; [OnboardingTimers] takes them apart. *)
Definition handleAnswer (questionId : QuestionId) (value : string) (s : State)
    : State :=
  let s1 :=
    {| step := step s; selectedFile := selectedFile s;
       currentQuestion := currentQuestion s;
       answers := set (answers s) questionId value;
       submitted := submitted s |} in
  if (Z.of_nat (currentQuestion s)
      <? Z.of_nat (List.length (visibleQuestions (answers s))) - 1)%Z
  then
    {| step := step s1; selectedFile := selectedFile s1;
       currentQuestion := currentQuestion s1 + 1;
       answers := answers s1; submitted := submitted s1 |}
  else handleSubmitAnalysis (set (answers s) questionId value) s1.

(** What the user can do on the page. *)
Inductive Event :=
| SelectFile
| Continue
| Choose (value : string)
| Previous.

(** One event.  A control that is not rendered, or is disabled, in the
    current state does nothing. *)
Definition react (s : State) (e : Event) : State :=
  match e, step s with
  | SelectFile, upload =>
      {| step := step s; selectedFile := true;
         currentQuestion := currentQuestion s; answers := answers s;
         submitted := submitted s |}
  | Continue, upload =>
      if selectedFile s then
        {| step := questionsStep; selectedFile := selectedFile s;
           currentQuestion := currentQuestion s; answers := answers s;
           submitted := submitted s |}
      else s
  | Choose value, questionsStep =>
      match nth_error (visibleQuestions (answers s)) (currentQuestion s) with
      | Some question =>
          if existsb (String.eqb value) (options question)
          then handleAnswer (id question) value s
          else s
      | None => s
      end
  | Previous, questionsStep =>
      if (0 <? currentQuestion s)%nat then
        {| step := step s; selectedFile := selectedFile s;
           currentQuestion := currentQuestion s - 1;
           answers := answers s; submitted := submitted s |}
      else s
  | _, _ => s
  end.

Definition run (events : list Event) : State := fold_left react events initialState.

(** A user who answers "No" to the HVAC question and is never asked for a
    setpoint. *)
Definition straightNo : list Event :=
  [SelectFile; Continue; Choose "3-4"; Choose "Mostly occupied"; Choose "No";
   Choose "Solar"; Choose "2-3"].

(** A user who answers "Yes", picks a setpoint, then goes back twice and
    changes the HVAC answer to "No". *)
Definition changedMind : list Event :=
  [SelectFile; Continue; Choose "3-4"; Choose "Mostly occupied"; Choose "Yes";
   Choose "22-24"; Previous; Previous; Choose "No"; Choose "Solar";
   Choose "2-3"].

Example straightNo_submits :
  submitted (run straightNo)
  = [ {| a_q1 := Some "3-4"; a_q2 := Some "Mostly occupied";
         a_q3 := Some "No"; a_q3_1 := None;
         a_q4 := Some "Solar"; a_q5 := Some "2-3" |} ].
Proof. reflexivity. Qed.

(** [q3_1] is among the visible questions exactly when [q3] is "Yes". *)
Lemma q3_1_visible_iff (answers : Answers) :
  In q3_1 (map id (visibleQuestions answers)) <-> a_q3 answers = Some "Yes".
Proof.
  unfold visibleQuestions, questions, isVisible, answerIs. simpl.
  destruct (a_q3 answers) as [v|].
  - destruct (v =? "Yes") eqn:E; simpl.
    + apply String.eqb_eq in E. subst v. split; [reflexivity|].
      intros _. do 3 right. left. reflexivity.
    + apply String.eqb_neq in E. split; [|congruence].
      intros H. repeat (destruct H as [H|H]; [discriminate H|]). destruct H.
  - simpl. split; [|discriminate].
    intros H. repeat (destruct H as [H|H]; [discriminate H|]). destruct H.
Qed.

(** Without "Yes" to [q3] five questions are visible, with it six. *)
Lemma visibleQuestions_count (answers : Answers) :
  map id (visibleQuestions answers)
  = if answerIs answers q3 "Yes" then [q1; q2; q3; q3_1; q4; q5]
    else [q1; q2; q3; q4; q5].
Proof.
  unfold visibleQuestions, questions, isVisible. simpl.
  destruct (answerIs answers q3 "Yes"); reflexivity.
Qed.

(** The visible questions are all six with "Yes" to [q3] and all but [q3_1]
    without. *)
Lemma visibleQuestions_cases (a : Answers) :
  visibleQuestions a
  = if answerIs a q3 "Yes" then questions
    else filter (fun q => negb (QuestionId_eqb (id q) q3_1)) questions.
Proof.
  unfold visibleQuestions, questions, isVisible. simpl.
  destruct (answerIs a q3 "Yes"); reflexivity.
Qed.

(** Answers are coherent when a setpoint comes only with "Yes" to [q3]. *)
Definition coherent (a : Answers) : Prop :=
  a_q3_1 a <> None -> a_q3 a = Some "Yes".

(** What holds of the page as long as the user never goes back: the answers
    given and the answers submitted are coherent, and [q3] is answered only
    once the page is past it. *)
Definition forward_invariant (s : State) : Prop :=
  coherent (answers s)
  /\ (a_q3 (answers s) <> None -> 3 <= currentQuestion s)
  /\ Forall coherent (submitted s).

Definition isPrevious (e : Event) : bool :=
  match e with
  | Previous => true
  | _ => false
  end.

Lemma answerIs_q3 (a : Answers) :
  answerIs a q3 "Yes" = true <-> a_q3 a = Some "Yes".
Proof.
  unfold answerIs. simpl. destruct (a_q3 a) as [v|]; [|split; discriminate].
  rewrite String.eqb_eq. split; congruence.
Qed.

Lemma handleAnswer_forward (s : State) (question : Question) (value : string) :
  forward_invariant s ->
  nth_error (visibleQuestions (answers s)) (currentQuestion s) = Some question ->
  forward_invariant (handleAnswer (id question) value s).
Proof.
  intros (Hco & Hpast & Hsub) Hq.
  assert (Hnew : coherent (set (answers s) (id question) value)
                 /\ (a_q3 (set (answers s) (id question) value) <> None ->
                     3 <= currentQuestion s + 1)
                 /\ (currentQuestion s < 3 ->
                     (Z.of_nat (currentQuestion s)
                      <? Z.of_nat (List.length (visibleQuestions (answers s)))
                         - 1)%Z = true)).
  { rewrite visibleQuestions_cases in *.
    destruct (answerIs (answers s) q3 "Yes") eqn:Eyes.
    - apply answerIs_q3 in Eyes.
      assert (Hcq : 3 <= currentQuestion s) by (apply Hpast; congruence).
      destruct (currentQuestion s) as [|[|[|[|[|[|n]]]]]]; try lia;
        simpl in Hq; try (destruct n; discriminate);
        injection Hq as <-; unfold coherent; simpl;
        (split; [intros _; exact Eyes|split; [intros _; lia|intros; lia]]).
    - assert (Hno : a_q3 (answers s) <> Some "Yes").
      { intros H. apply answerIs_q3 in H. congruence. }
      assert (Hnone : a_q3_1 (answers s) = None).
      { destruct (a_q3_1 (answers s)) eqn:E; [|reflexivity].
        elim Hno. apply Hco. congruence. }
      destruct (currentQuestion s) as [|[|[|[|[|n]]]]] eqn:Ecq;
        simpl in Hq; try (destruct n; discriminate);
        injection Hq as <-; unfold coherent; simpl; rewrite ?Hnone;
        (split; [congruence|split; [|intros; lia || reflexivity]]);
        try (intros _; lia);
        try (intros H; specialize (Hpast H); lia). }
  destruct Hnew as (Hco' & Hpast' & Hlt).
  unfold handleAnswer.
  destruct (Z.of_nat (currentQuestion s)
            <? Z.of_nat (List.length (visibleQuestions (answers s))) - 1)%Z
    eqn:E.
  - repeat split; simpl; assumption.
  - unfold handleSubmitAnalysis. simpl.
    assert (Hcq : 3 <= currentQuestion s).
    { destruct (Nat.lt_ge_cases (currentQuestion s) 3) as [H|H]; [|exact H].
      specialize (Hlt H). congruence. }
    assert (Hpast2 : a_q3 (set (answers s) (id question) value) <> None ->
                     3 <= currentQuestion s) by (intros _; exact Hcq).
    destruct (selectedFile s); repeat split; simpl; try assumption.
    apply Forall_app. split; [exact Hsub|]. constructor; [exact Hco'|constructor].
Qed.

Lemma react_forward (s : State) (e : Event) :
  isPrevious e = false -> forward_invariant s -> forward_invariant (react s e).
Proof.
  intros He Hinv. destruct e as [| |value|]; try discriminate; simpl;
    destruct (step s); try exact Hinv.
  - destruct (selectedFile s); exact Hinv.
  - destruct (nth_error (visibleQuestions (answers s)) (currentQuestion s))
      as [question|] eqn:Eq; [|exact Hinv].
    destruct (existsb (String.eqb value) (options question)); [|exact Hinv].
    now apply handleAnswer_forward.
Qed.

(** As long as the user never goes back, every set of answers submitted has
    a setpoint only together with "Yes" to the HVAC question. *)
Lemma forward_runs_submit_coherent (events : list Event) :
  forallb (fun e => negb (isPrevious e)) events = true ->
  Forall coherent (submitted (run events)).
Proof.
  intros Hfw.
  assert (H : forall s, forward_invariant s ->
                        forward_invariant (fold_left react events s)).
  { induction events as [|e rest IH]; intros s Hs; simpl; [exact Hs|].
    simpl in Hfw. apply andb_true_iff in Hfw. destruct Hfw as [He Hrest].
    apply (IH Hrest). apply react_forward; [|exact Hs].
    now destruct (isPrevious e). }
  assert (Hinit : forward_invariant initialState).
  { split; [|split].
    - intros H'. now elim H'.
    - intros H'. now elim H'.
    - constructor. }
  exact (proj2 (proj2 (H initialState Hinit))).
Qed.

(** C6: a user who first answers "Yes" and a setpoint, then goes back and
    answers "No", ends with five visible questions, yet the answers
    submitted carry [q3 = "No"] together with the stale [q3_1 = "22-24"]. *)
Theorem changedMind_submits_stale_setpoint :
  submitted (run changedMind)
  = [ {| a_q1 := Some "3-4"; a_q2 := Some "Mostly occupied";
         a_q3 := Some "No"; a_q3_1 := Some "22-24";
         a_q4 := Some "Solar"; a_q5 := Some "2-3" |} ]
  /\ map id (visibleQuestions (answers (run changedMind)))
     = [q1; q2; q3; q4; q5].
Proof. split; reflexivity. Qed.

End Onboarding.

(** ** Grouping rows by a key in a [Map] *)

Module Grouping.

Section MapFacts.

Context {V : Type}.

Lemma get_set_same (m : Js.Map V) (k : string) (v : V) :
  Js.get (Js.set m k v) k = Some v.
Proof.
  induction m as [|[k' v'] rest IH]; simpl.
  - now rewrite String.eqb_refl.
  - destruct (k' =? k) eqn:E; simpl; rewrite E; [reflexivity|exact IH].
Qed.

Lemma get_set_other (m : Js.Map V) (k k' : string) (v : V) :
  k' <> k -> Js.get (Js.set m k v) k' = Js.get m k'.
Proof.
  intros Hne.
  assert (Hkk : (k =? k') = false) by (apply String.eqb_neq; congruence).
  induction m as [|[k0 v0] rest IH]; simpl.
  - now rewrite Hkk.
  - destruct (k0 =? k) eqn:E; simpl.
    + apply String.eqb_eq in E. subst k0. now rewrite Hkk.
    + now rewrite IH.
Qed.

Lemma get_None_keys (m : Js.Map V) (k : string) :
  Js.get m k = None <-> ~ In k (Js.keys m).
Proof.
  induction m as [|[k' v'] rest IH]; simpl.
  - tauto.
  - destruct (k' =? k) eqn:E.
    + apply String.eqb_eq in E. split; [discriminate|tauto].
    + apply String.eqb_neq in E. rewrite IH. tauto.
Qed.

Lemma keys_set (m : Js.Map V) (k : string) (v : V) :
  Js.keys (Js.set m k v)
  = match Js.get m k with
    | Some _ => Js.keys m
    | None => Js.keys m ++ [k]
    end.
Proof.
  unfold Js.keys.
  induction m as [|[k' v'] rest IH]; simpl; [reflexivity|].
  destruct (k' =? k) eqn:E; simpl; [reflexivity|].
  rewrite IH. destruct (Js.get rest k); reflexivity.
Qed.

Lemma in_keys_set (m : Js.Map V) (k k' : string) (v : V) :
  In k' (Js.keys (Js.set m k v)) <-> In k' (Js.keys m) \/ k' = k.
Proof.
  rewrite keys_set. destruct (Js.get m k) eqn:E.
  - split; [tauto|]. intros [H| ->]; [exact H|].
    destruct (in_dec string_dec k (Js.keys m)) as [Hin|Hout]; [exact Hin|].
    apply get_None_keys in Hout. congruence.
  - rewrite in_app_iff. simpl. intuition congruence.
Qed.

Lemma NoDup_keys_set (m : Js.Map V) (k : string) (v : V) :
  NoDup (Js.keys m) -> NoDup (Js.keys (Js.set m k v)).
Proof.
  intros Hm. rewrite keys_set. destruct (Js.get m k) eqn:E; [exact Hm|].
  apply get_None_keys in E.
  apply NoDup_app; [exact Hm|repeat constructor; simpl; tauto|].
  intros x Hx [<-|[]]. contradiction.
Qed.

Lemma in_get (m : Js.Map V) (k : string) (v : V) :
  NoDup (Js.keys m) -> In (k, v) m -> Js.get m k = Some v.
Proof.
  induction m as [|[k' v'] rest IH]; simpl; [tauto|].
  intros Hnd [Heq|Hin].
  - injection Heq as -> ->. now rewrite String.eqb_refl.
  - inversion Hnd as [|? ? Hk' Hrest]; subst.
    destruct (k' =? k) eqn:E.
    + apply String.eqb_eq in E. subst k'.
      elim Hk'. change k with (fst (k, v)). now apply in_map.
    + now apply IH.
Qed.

End MapFacts.

Section Fold.

(** Rows of type [A], each with a key and an amount, are folded into a map
    whose values of type [V] carry the amount gathered for their key. *)
Variables A V : Type.
Variable keyOf : A -> string.
Variable valOf : A -> Q.
Variable amount : V -> Q.
Variable step : Js.Map V -> A -> Js.Map V.

(** The amount the map holds for a key, zero when it has none. *)
Definition held (m : Js.Map V) (k : string) : Q :=
  match Js.get m k with
  | Some v => amount v
  | None => 0%Q
  end.

(** The amounts of all the entries of the map. *)
Definition total (m : Js.Map V) : Q :=
  Js.sumQ (map (fun e => amount (snd e)) m).

(** One step stores, under the key of the row, what the map held for the key
    plus the amount of the row. *)
Hypothesis step_adds :
  forall m a, exists v,
    step m a = Js.set m (keyOf a) v
    /\ (amount v == held m (keyOf a) + valOf a)%Q.

Lemma total_set (m : Js.Map V) (k : string) (v : V) :
  (total (Js.set m k v) == total m - held m k + amount v)%Q.
Proof.
  unfold total, held. induction m as [|[k' v'] rest IH]; simpl.
  - lra.
  - destruct (k' =? k) eqn:E; simpl.
    + lra.
    + rewrite IH. lra.
Qed.

Lemma total_fold (data : list A) :
  forall m,
    (total (fold_left step data m) == total m + Js.sumQ (map valOf data))%Q.
Proof.
  induction data as [|a rest IH]; intros m; simpl.
  - lra.
  - rewrite IH. destruct (step_adds m a) as (v & -> & Hv).
    rewrite total_set, Hv. lra.
Qed.

Lemma keys_fold (data : list A) :
  forall m k,
    In k (Js.keys (fold_left step data m))
    <-> In k (Js.keys m) \/ In k (map keyOf data).
Proof.
  induction data as [|a rest IH]; intros m k; simpl.
  - tauto.
  - rewrite IH. destruct (step_adds m a) as (v & -> & _).
    rewrite in_keys_set. intuition congruence.
Qed.

Lemma NoDup_fold (data : list A) :
  forall m, NoDup (Js.keys m) -> NoDup (Js.keys (fold_left step data m)).
Proof.
  induction data as [|a rest IH]; intros m Hm; simpl; [exact Hm|].
  apply IH. destruct (step_adds m a) as (v & -> & _).
  now apply NoDup_keys_set.
Qed.

Lemma held_fold (data : list A) :
  forall m k,
    (held (fold_left step data m) k
     == held m k
        + Js.sumQ (map valOf (filter (fun a => keyOf a =? k) data)))%Q.
Proof.
  induction data as [|a rest IH]; intros m k; simpl.
  - lra.
  - rewrite IH. destruct (step_adds m a) as (v & -> & Hv).
    destruct (keyOf a =? k) eqn:E; simpl.
    + apply String.eqb_eq in E. subst k.
      unfold held at 1. rewrite get_set_same. rewrite Hv. lra.
    + apply String.eqb_neq in E.
      unfold held at 1. rewrite get_set_other by congruence.
      fold (held m k). lra.
Qed.

(** The entry of a key holds the amounts of the rows of that key. *)
Lemma entry_fold (data : list A) (k : string) (v : V) :
  In (k, v) (fold_left step data []) ->
  (amount v == Js.sumQ (map valOf (filter (fun a => keyOf a =? k) data)))%Q.
Proof.
  intros Hin.
  assert (Hnd : NoDup (Js.keys (fold_left step data []))).
  { apply NoDup_fold. constructor. }
  pose proof (held_fold data [] k) as Hh.
  unfold held in Hh at 1. rewrite (in_get _ _ _ Hnd Hin) in Hh.
  rewrite Hh. unfold held. simpl. lra.
Qed.

End Fold.

(** Rounding every number of a list to two decimals moves the sum by at most
    half a hundredth per number. *)
Lemma toFixed2_close (x : Q) : (Qabs (Js.toFixed2 x - x) <= 1 # 200)%Q.
Proof.
  unfold Js.toFixed2.
  destruct (Qle_bool (inject_Z (10 ^ 21)) (Qabs x)).
  - setoid_replace (x - x)%Q with 0%Q by ring. discriminate.
  - set (y := (Qabs x * 100 + (1 # 2))%Q).
    pose proof (Qfloor_le y) as Hlo.
    pose proof (Qlt_floor y) as Hhi.
    rewrite inject_Z_plus in Hhi.
    set (n := Qfloor y) in *.
    assert (Hn : (n # 100 == inject_Z n * (1 # 100))%Q).
    { unfold Qeq, Qmult, inject_Z. simpl. lia. }
    unfold y in Hlo, Hhi. clearbody n. clear y.
    change (inject_Z 1) with 1%Q in Hhi.
    generalize dependent (inject_Z n). intros z Hlo Hhi Hn.
    destruct (Qle_bool 0 x) eqn:Ex.
    + apply Qle_bool_iff in Ex. rewrite (Qabs_pos x Ex) in Hlo, Hhi.
      apply Qabs_Qle_condition. rewrite Hn. split; lra.
    + assert (Hx : (x < 0)%Q).
      { apply Qnot_le_lt. intros H. apply Qle_bool_iff in H. congruence. }
      rewrite (Qabs_neg x) in Hlo, Hhi by lra.
      apply Qabs_Qle_condition. rewrite Hn. split; lra.
Qed.

Lemma sum_toFixed2_close (xs : list Q) :
  (Qabs (Js.sumQ (map Js.toFixed2 xs) - Js.sumQ xs)
   <= (1 # 200) * inject_Z (Z.of_nat (List.length xs)))%Q.
Proof.
  induction xs as [|x rest IH].
  - simpl. discriminate.
  - cbn [map Js.sumQ fold_right List.length].
    fold (Js.sumQ rest). fold (Js.sumQ (map Js.toFixed2 rest)).
    rewrite Nat2Z.inj_succ. unfold Z.succ. rewrite inject_Z_plus.
    change (inject_Z 1) with 1%Q.
    pose proof (toFixed2_close x) as Hx.
    apply Qabs_Qle_condition in Hx. apply Qabs_Qle_condition in IH.
    apply Qabs_Qle_condition. split; lra.
Qed.

(** The rounded amounts of the map add up to the amounts of the rows, within
    half a hundredth per entry. *)
Lemma rounded_total_close (A V : Type) (keyOf : A -> string) (valOf : A -> Q)
    (amount : V -> Q) (step : Js.Map V -> A -> Js.Map V) (data : list A) :
  (forall m a, exists v,
      step m a = Js.set m (keyOf a) v
      /\ (amount v == held amount m (keyOf a) + valOf a)%Q) ->
  (Qabs (Js.sumQ (map (fun e => Js.toFixed2 (amount (snd e)))
                    (fold_left step data []))
         - Js.sumQ (map valOf data))
   <= (1 # 200)
      * inject_Z (Z.of_nat (List.length (fold_left step data []))))%Q.
Proof.
  intros Hstep.
  pose proof (total_fold keyOf valOf amount step Hstep data []) as Ht.
  unfold total in Ht. simpl in Ht.
  set (m := fold_left step data []) in *.
  pose proof (sum_toFixed2_close (map (fun e => amount (snd e)) m)) as Hr.
  rewrite map_map, length_map in Hr.
  rewrite Ht in Hr.
  setoid_replace (Js.sumQ (map valOf data))
    with (0 + Js.sumQ (map valOf data))%Q by ring.
  exact Hr.
Qed.

End Grouping.

(** ** data/mockData.ts: [getDailyConsumption] *)

Module MockData.

(** [ConsumptionData] of src/types. *)
Record ConsumptionData := {
  date : string;
  hour : option Z;
  kWh : Q;
  isPeak : option bool
}.

(** The body of [data.forEach(item => ...)], the numbers read as exact
    rationals; [Doubles.addRow] is the same body in doubles. *)
Definition addRow (dailyMap : Js.Map Q) (item : ConsumptionData) : Js.Map Q :=
  let current := Js.num_or (Js.get dailyMap (date item)) 0%Q in
  Js.set dailyMap (date item) (current + kWh item)%Q.

Definition getDailyConsumption (data : list ConsumptionData)
    : list ConsumptionData :=
  let dailyMap := fold_left addRow data [] in
  map (fun e =>
         {| date := fst e; hour := None; kWh := Js.toFixed2 (snd e);
            isPeak := None |})
      dailyMap.

(** The rows of one date. *)
Definition rowsOf (d : string) (data : list ConsumptionData)
    : list ConsumptionData :=
  filter (fun r => date r =? d) data.

Definition row (d : string) (h : Z) (k : Q) : ConsumptionData :=
  {| date := d; hour := Some h; kWh := k; isPeak := Some false |}.

Example getDailyConsumption_sample :
  map (fun r => (date r, Qred (kWh r)))
    (getDailyConsumption
       [ row "2024-01-15" 0 (334 # 1000); row "2024-01-16" 0 (5 # 10);
         row "2024-01-15" 1 (1 # 1000); row "2024-01-16" 1 (25 # 100) ])
  = [ ("2024-01-15", (17 # 50)%Q); ("2024-01-16", (3 # 4)%Q) ].
Proof. reflexivity. Qed.

Lemma num_or_zero (x : option Q) :
  (Js.num_or x 0 == match x with Some v => v | None => 0 end)%Q.
Proof.
  destruct x as [v|]; simpl; [|reflexivity].
  unfold Js.truthy. destruct (Qeq_bool v 0) eqn:E; simpl; [|reflexivity].
  apply Qeq_bool_eq in E. now rewrite E.
Qed.

Lemma addRow_adds (m : Js.Map Q) (item : ConsumptionData) :
  exists v,
    addRow m item = Js.set m (date item) v
    /\ (v == Grouping.held (fun x => x) m (date item) + kWh item)%Q.
Proof.
  eexists. split; [reflexivity|].
  unfold Grouping.held. rewrite num_or_zero.
  destruct (Js.get m (date item)); reflexivity.
Qed.

End MockData.

(** ** ChartCard.tsx: [dailyData] *)

Module ChartCard.
Import Api.

(** A point of the chart.  The hourly points carry all the fields, the daily
    ones built by [dailyData] only [date], [dayName] and [kWh]. *)
Record ChartPoint := {
  index : option nat;
  date : string;
  dayName : string;
  fullDate : option string;
  kWh : Q;
  point_datetime : option string;
  isMidnight : option bool
}.

(** The values of the map of [dailyData]. *)
Record DayTotal := {
  total_kWh : Q;
  last_datetime : string
}.

Section ChartLocale.

(** [new Date(s).toLocaleDateString('en-US', { month: 'short', day: 'numeric' })]
    and [new Date(s).toLocaleDateString('en-US', { weekday: 'short' })]. *)
Variable dateKeyOf : string -> string.
Variable dayNameOf : string -> string.

(** The body of [forecastData.forEach(item => ...)], the numbers read as
    exact rationals; [Doubles.addPoint] is the same body in doubles. *)
Definition addPoint (dailyMap : Js.Map DayTotal) (item : ForecastDataPoint)
    : Js.Map DayTotal :=
  let dateKey := dateKeyOf (datetime item) in
  match Js.get dailyMap dateKey with
  | Some current =>
      Js.set dailyMap dateKey
        {| total_kWh := (total_kWh current + predicted_usage item)%Q;
           last_datetime := datetime item |}
  | None =>
      Js.set dailyMap dateKey
        {| total_kWh := predicted_usage item;
           last_datetime := datetime item |}
  end.

(** [dailyData]; [hourlyData] is the value of the memo above it. *)
Definition dailyData (forecastData : option (list ForecastDataPoint))
    (hourlyData : list ChartPoint) : list ChartPoint :=
  match forecastData with
  | None | Some [] => hourlyData
  | Some points =>
      map (fun e =>
             {| index := None;
                date := fst e;
                dayName := dayNameOf (last_datetime (snd e));
                fullDate := None;
                kWh := Js.toFixed2 (total_kWh (snd e));
                point_datetime := None;
                isMidnight := None |})
          (fold_left addPoint points [])
  end.

(** The points of one day of the chart. *)
Definition pointsOf (d : string) (points : list ForecastDataPoint)
    : list ForecastDataPoint :=
  filter (fun p => dateKeyOf (datetime p) =? d) points.

Lemma addPoint_adds (m : Js.Map DayTotal) (item : ForecastDataPoint) :
  exists v,
    addPoint m item = Js.set m (dateKeyOf (datetime item)) v
    /\ (total_kWh v
        == Grouping.held total_kWh m (dateKeyOf (datetime item))
           + predicted_usage item)%Q.
Proof.
  unfold addPoint, Grouping.held.
  destruct (Js.get m (dateKeyOf (datetime item))) as [current|];
    eexists; (split; [reflexivity|]); simpl; lra.
Qed.

End ChartLocale.

(** The day label of a timestamp such as "2024-12-27 13:00:00": its month
    and day. *)
Definition sampleDateKey (s : string) : string := substring 5 5 s.

Definition point (s : string) (k : Q) : ForecastDataPoint :=
  {| datetime := s; predicted_usage := k |}.

Example dailyData_sample :
  map (fun p => (date p, dayName p, Qred (kWh p)))
    (dailyData sampleDateKey (fun s => substring 11 2 s)
       (Some [ point "2024-12-27 22:00:00" (123 # 100);
               point "2024-12-27 23:00:00" (1454 # 1000);
               point "2024-12-28 00:00:00" (167 # 100) ])
       [])
  = [ ("12-27", "23", (67 # 25)%Q); ("12-28", "00", (167 # 100)%Q) ].
Proof. reflexivity. Qed.

End ChartCard.

(** ** The aggregations in floating point

    A JavaScript number is an IEEE 754 double.  This part follows
    [getDailyConsumption] and [dailyData] with numbers as the doubles of the
    kernel ([PrimFloat.float]): sums are rounded as the processor rounds
    them, and [toFixed(2)] reads the exact value of the double. *)

Module Doubles.
Import SpecFloat PrimFloat FloatOps.

(** A number is falsy when it is [+0], [-0] or [NaN]. *)
Definition truthy (x : float) : bool := negb (is_zero x || is_nan x).

(** [x || 0] on the number a [Map] holds for a key, if it holds one. *)
Definition num_or_zero (x : option float) : float :=
  match x with
  | Some v => if truthy v then v else zero
  | None => zero
  end.

(** The exact value of the finite double of mantissa [m] and exponent [e],
    sign apart: [m * 2^e]. *)
Definition magnitude (m : positive) (e : Z) : Q :=
  if (0 <=? e)%Z then inject_Z (Zpos m * 2 ^ e)
  else Zpos m # Z.to_pos (2 ^ (- e)).


(** The double nearest to [n / 100], ties to even: what [parseFloat] reads
    from the digits of [n] with a point before the last two. *)
Definition fromHundredths (n : Z) : float :=
  match n with
  | Zpos p =>
      SF2Prim (SFdiv prec emax (S754_finite false p 0) (S754_finite false 100 0))
  | _ => zero
  end.

(** [parseFloat(x.toFixed(2))].  [toFixed] gives "NaN", "Infinity" and
    "-Infinity" for the numbers that are not finite and the digits of [x]
    itself from 10^21 on; otherwise it prints the sign of [x], none for
    [-0], and the integer [n] for which [n / 100] is nearest to the exact
    value of [|x|], the larger of two equally near. *)
Definition toFixed2 (x : float) : float :=
  match Prim2SF x with
  | S754_nan | S754_infinity _ => x
  | S754_zero _ => zero
  | S754_finite s m e =>
      if Qle_bool (inject_Z (10 ^ 21)) (magnitude m e) then x
      else
        let n := Qfloor (magnitude m e * 100 + (1 # 2)) in
        if s then (- fromHundredths n)%float else fromHundredths n
  end.

Set Warnings "-inexact-float".

Example toFixed2_samples :
  map toFixed2
    [0.375; 1.005; 2.675; 0.125; (-0.375); (-0.001); 1e21; 0.1; infinity;
     8.345; 0.005; 0.015; 99.995; 123456789012345.678;
     4503599627370497.5]%float
  = [0.38; 1; 2.67; 0.13; (-0.38); (-0); 1e21; 0.1; infinity;
     8.35; 0.01; 0.01; 100; 123456789012345.67;
     4503599627370497.5]%float.
Proof. vm_compute. reflexivity. Qed.

(** [ConsumptionData] of src/types. *)
Record ConsumptionData := {
  date : string;
  hour : option Z;
  kWh : float;
  isPeak : option bool
}.

(** The body of [data.forEach(item => ...)]. *)
Definition addRow (dailyMap : Js.Map float) (item : ConsumptionData)
    : Js.Map float :=
  let current := num_or_zero (Js.get dailyMap (date item)) in
  Js.set dailyMap (date item) (current + kWh item)%float.

Definition getDailyConsumption (data : list ConsumptionData)
    : list ConsumptionData :=
  let dailyMap := fold_left addRow data [] in
  map (fun e =>
         {| date := fst e; hour := None; kWh := toFixed2 (snd e);
            isPeak := None |})
      dailyMap.

(** The rows of one date. *)
Definition rowsOf (d : string) (data : list ConsumptionData)
    : list ConsumptionData :=
  filter (fun r => date r =? d) data.

(** [ForecastDataPoint] of types/api.ts. *)
Record ForecastDataPoint := {
  datetime : string;
  predicted_usage : float
}.

(** A point of the chart, as in [ChartCard.ChartPoint]. *)
Record ChartPoint := {
  index : option nat;
  point_date : string;
  dayName : string;
  fullDate : option string;
  point_kWh : float;
  point_datetime : option string;
  isMidnight : option bool
}.

(** The values of the map of [dailyData]. *)
Record DayTotal := {
  total_kWh : float;
  last_datetime : string
}.

Section ChartLocale.

(** [new Date(s).toLocaleDateString('en-US', { month: 'short', day: 'numeric' })]
    and [new Date(s).toLocaleDateString('en-US', { weekday: 'short' })]. *)
Variable dateKeyOf : string -> string.
Variable dayNameOf : string -> string.

(** The body of [forecastData.forEach(item => ...)]. *)
Definition addPoint (dailyMap : Js.Map DayTotal) (item : ForecastDataPoint)
    : Js.Map DayTotal :=
  let dateKey := dateKeyOf (datetime item) in
  match Js.get dailyMap dateKey with
  | Some current =>
      Js.set dailyMap dateKey
        {| total_kWh := (total_kWh current + predicted_usage item)%float;
           last_datetime := datetime item |}
  | None =>
      Js.set dailyMap dateKey
        {| total_kWh := predicted_usage item;
           last_datetime := datetime item |}
  end.

(** [dailyData]; [hourlyData] is the value of the memo above it. *)
Definition dailyData (forecastData : option (list ForecastDataPoint))
    (hourlyData : list ChartPoint) : list ChartPoint :=
  match forecastData with
  | None | Some [] => hourlyData
  | Some points =>
      map (fun e =>
             {| index := None;
                point_date := fst e;
                dayName := dayNameOf (last_datetime (snd e));
                fullDate := None;
                point_kWh := toFixed2 (total_kWh (snd e));
                point_datetime := None;
                isMidnight := None |})
          (fold_left addPoint points [])
  end.

(** The points of one day of the chart. *)
Definition pointsOf (d : string) (points : list ForecastDataPoint)
    : list ForecastDataPoint :=
  filter (fun p => dateKeyOf (datetime p) =? d) points.

End ChartLocale.



(** *** Folding rows into a [Map] *)

Section Gather.

Variables A V : Type.
Variable keyOf : A -> string.

(** What the map gets for the key of a row, from what it held for it. *)
Variable upd : option V -> A -> V.






End Gather.









Definition row (d : string) (h : Z) (k : float) : ConsumptionData :=
  {| date := d; hour := Some h; kWh := k; isPeak := Some false |}.




End Doubles.

(** ** The analysis orchestrator

    The orchestrator is backend code (agents/main_graph.py) that this
    development does not have; the front end only shows its node graph.  It is
    modelled here from the specification. *)

Module Orchestrator.

(** Modelled from the spec: the stages of the analysis run (the nodes of the
    LangGraph workflow of agents/main_graph.py, which is missing). *)
Inductive Stage :=
| UserContext
| MergeWeather
| ConsumptionInsight
| Forecast
| ForecastInsight
| RiskDetector
| PlanSynthesizer.

Definition stages : list Stage :=
  [UserContext; MergeWeather; ConsumptionInsight; Forecast; ForecastInsight;
   RiskDetector; PlanSynthesizer].

Definition Stage_eqb (a b : Stage) : bool :=
  match a, b with
  | UserContext, UserContext
  | MergeWeather, MergeWeather
  | ConsumptionInsight, ConsumptionInsight
  | Forecast, Forecast
  | ForecastInsight, ForecastInsight
  | RiskDetector, RiskDetector
  | PlanSynthesizer, PlanSynthesizer => true
  | _, _ => false
  end.

(** Modelled from the spec: the dependency graph of the missing orchestrator.
    [UserContext] and [MergeWeather] depend on nothing; [ConsumptionInsight]
    and [Forecast] on the output of [MergeWeather]; [ForecastInsight] and
    [RiskDetector] on the output of [Forecast]; the join barrier before
    [PlanSynthesizer] requires [UserContext], [ConsumptionInsight],
    [ForecastInsight] and [RiskDetector]. *)
Definition dependencies (s : Stage) : list Stage :=
  match s with
  | UserContext | MergeWeather => []
  | ConsumptionInsight | Forecast => [MergeWeather]
  | ForecastInsight | RiskDetector => [Forecast]
  | PlanSynthesizer =>
      [UserContext; ConsumptionInsight; ForecastInsight; RiskDetector]
  end.

(** Modelled from the spec: how a stage of the missing orchestrator ends when
    it produces a result, normally or through its fallback. *)
Inductive Outcome := Success | Degraded.

(** Modelled from the spec: the life of a stage of the missing orchestrator.
    [Failed] is a stage that exhausted its fallback without a valid output. *)
Inductive Status :=
| NotStarted
| Running
| Done (o : Outcome)
| Failed.

(** Modelled from the spec: the terminal success-or-degraded states of a
    stage of the missing orchestrator. *)
Definition terminal (x : Status) : bool :=
  match x with
  | Done _ => true
  | _ => false
  end.

Definition isFailed (x : Status) : bool :=
  match x with
  | Failed => true
  | _ => false
  end.

(** Modelled from the spec: the state of a run of the missing orchestrator,
    the status of each stage and whether the caller cancelled the run. *)
Record State := {
  status : Stage -> Status;
  cancelled : bool
}.

Definition initial : State :=
  {| status := fun _ => NotStarted; cancelled := false |}.

Definition update (st : State) (s : Stage) (x : Status) : State :=
  {| status := fun s' => if Stage_eqb s' s then x else status st s';
     cancelled := cancelled st |}.

(** Modelled from the spec: the scheduler of the missing orchestrator
    executes a stage once its dependencies are satisfied. *)
Definition ready (st : State) (s : Stage) : bool :=
  forallb (fun d => terminal (status st d)) (dependencies s).

(** Modelled from the spec: the missing orchestrator is in its [Failed] state
    once a stage reported a non-recoverable error. *)
Definition failed (st : State) : bool :=
  existsb (fun s => isFailed (status st s)) stages.

(** What happens during a run: stages of one fan-out group start and end in
    any order. *)
Inductive Event :=
| Start (s : Stage)
| Finish (s : Stage) (o : Outcome)
| Fail (s : Stage)
| Cancel.

(** Modelled from the spec: one transition of the missing orchestrator.  A
    stage is started when it has not run, its dependencies are terminal and
    the run is neither failed nor cancelled; a running stage ends with a
    result, degraded or not, or fails for good. *)
Definition fire (st : State) (e : Event) : option State :=
  match e with
  | Start s =>
      match status st s with
      | NotStarted =>
          if ready st s && negb (failed st) && negb (cancelled st)
          then Some (update st s Running)
          else None
      | _ => None
      end
  | Finish s o =>
      match status st s with
      | Running => Some (update st s (Done o))
      | _ => None
      end
  | Fail s =>
      match status st s with
      | Running => Some (update st s Failed)
      | _ => None
      end
  | Cancel => Some {| status := status st; cancelled := true |}
  end.

(** A run: the events in the order they happen. *)
Fixpoint run (st : State) (events : list Event) : option State :=
  match events with
  | [] => Some st
  | e :: rest =>
      match fire st e with
      | Some st' => run st' rest
      | None => None
      end
  end.

(** A run in which every stage produces a result, [o s] for stage [s], up to
    the start of [PlanSynthesizer]. *)
Definition schedule (o : Stage -> Outcome) : list Event :=
  [ Start MergeWeather; Start UserContext;
    Finish MergeWeather (o MergeWeather);
    Start Forecast; Start ConsumptionInsight;
    Finish UserContext (o UserContext);
    Finish Forecast (o Forecast);
    Start RiskDetector; Start ForecastInsight;
    Finish ConsumptionInsight (o ConsumptionInsight);
    Finish ForecastInsight (o ForecastInsight);
    Finish RiskDetector (o RiskDetector);
    Start PlanSynthesizer ].

(** All results normal but the one of stage [d]. *)
Definition onlyDegraded (d : Stage) : Stage -> Outcome :=
  fun s => if Stage_eqb s d then Degraded else Success.

(** Every stage that has started has its dependencies terminal. *)
Definition started_after_dependencies (st : State) : Prop :=
  forall s, status st s <> NotStarted -> ready st s = true.

Lemma Stage_eqb_eq (a b : Stage) : Stage_eqb a b = true <-> a = b.
Proof. destruct a, b; simpl; split; congruence. Qed.

Lemma terminal_update (st : State) (s d : Stage) (x : Status) :
  terminal (status st s) = false ->
  terminal (status st d) = true ->
  terminal (status (update st s x) d) = true.
Proof.
  intros Hs Hd. simpl. destruct (Stage_eqb d s) eqn:E; [|exact Hd].
  apply Stage_eqb_eq in E. subst d. congruence.
Qed.

Lemma ready_update (st : State) (s s' : Stage) (x : Status) :
  terminal (status st s) = false ->
  ready st s' = true ->
  ready (update st s x) s' = true.
Proof.
  intros Hs. unfold ready. rewrite !forallb_forall.
  intros H d Hd. apply terminal_update; [exact Hs|exact (H d Hd)].
Qed.

Lemma update_keeps (st : State) (s : Stage) (x : Status) :
  terminal (status st s) = false ->
  (status st s <> NotStarted \/ ready st s = true) ->
  started_after_dependencies st ->
  started_after_dependencies (update st s x).
Proof.
  intros Hs Hready Hinv s' Hs'. apply ready_update; [exact Hs|].
  simpl in Hs'. destruct (Stage_eqb s' s) eqn:E.
  - apply Stage_eqb_eq in E. subst s'.
    destruct Hready as [H|H]; [exact (Hinv s H)|exact H].
  - exact (Hinv s' Hs').
Qed.

Lemma fire_keeps (st st' : State) (e : Event) :
  started_after_dependencies st ->
  fire st e = Some st' ->
  started_after_dependencies st'.
Proof.
  intros Hinv. destruct e as [s|s o|s|]; simpl.
  - destruct (status st s) eqn:Es; try discriminate.
    destruct (ready st s) eqn:Er; simpl; [|discriminate].
    destruct (negb (failed st) && negb (cancelled st)); [|discriminate].
    intros [= <-]. apply update_keeps; [now rewrite Es|now right|exact Hinv].
  - destruct (status st s) eqn:Es; try discriminate.
    intros [= <-]. apply update_keeps; [now rewrite Es| |exact Hinv].
    left. congruence.
  - destruct (status st s) eqn:Es; try discriminate.
    intros [= <-]. apply update_keeps; [now rewrite Es| |exact Hinv].
    left. congruence.
  - intros [= <-]. exact Hinv.
Qed.

Lemma run_keeps (events : list Event) :
  forall st st',
    started_after_dependencies st ->
    run st events = Some st' ->
    started_after_dependencies st'.
Proof.
  induction events as [|e rest IH]; intros st st' Hinv; simpl.
  - intros [= <-]. exact Hinv.
  - destruct (fire st e) as [st1|] eqn:E; [|discriminate].
    apply IH. exact (@fire_keeps st st1 e Hinv E).
Qed.

Lemma initial_started_after_dependencies : started_after_dependencies initial.
Proof. intros s Hs. now elim Hs. Qed.

Lemma cancelled_stays (events : list Event) :
  forall st st',
    run st events = Some st' -> cancelled st = true -> cancelled st' = true.
Proof.
  induction events as [|e rest IH]; intros st st'; simpl.
  - now intros [= <-].
  - destruct (fire st e) as [st1|] eqn:E; [|discriminate].
    intros Hrun Hc. apply (IH st1 st' Hrun).
    destruct e as [s|s o|s|]; simpl in E.
    + destruct (status st s); try discriminate.
      rewrite Hc, andb_false_r in E. discriminate.
    + destruct (status st s); try discriminate. now injection E as <-.
    + destruct (status st s); try discriminate. now injection E as <-.
    + now injection E as <-.
Qed.

(** C7: in every run, once [PlanSynthesizer] has been started each of its
    four dependencies is in a terminal success-or-degraded state; in every
    state a run can reach in which the four are terminal, whatever their
    results, and the run is not cancelled, [PlanSynthesizer] is started; and
    for each stage there is a run in which that stage ends degraded and
    [PlanSynthesizer] is started all the same. *)
Theorem plan_synthesizer_waits_for_barrier :
  (forall events st,
      run initial events = Some st ->
      status st PlanSynthesizer <> NotStarted ->
      forall d, In d [UserContext; ConsumptionInsight; ForecastInsight;
                      RiskDetector] ->
                exists o, status st d = Done o)
  /\ (forall events st,
        run initial events = Some st ->
        (forall d, In d [UserContext; ConsumptionInsight; ForecastInsight;
                         RiskDetector] ->
                   exists o, status st d = Done o) ->
        status st PlanSynthesizer = NotStarted ->
        cancelled st = false ->
        exists st',
          fire st (Start PlanSynthesizer) = Some st'
          /\ status st' PlanSynthesizer = Running)
  /\ (forall d, d <> PlanSynthesizer ->
        exists st,
          run initial (schedule (onlyDegraded d)) = Some st
          /\ status st d = Done Degraded
          /\ status st PlanSynthesizer = Running).
Proof.
  split; [|split].
  - intros events st Hrun Hps d Hd.
    pose proof (@run_keeps events initial st
                  initial_started_after_dependencies Hrun) as Hinv.
    specialize (Hinv PlanSynthesizer Hps). unfold ready in Hinv.
    rewrite forallb_forall in Hinv. specialize (Hinv d Hd).
    destruct (status st d) as [| |o|]; try discriminate. now exists o.
  - intros events st Hrun Hfour Hps Hc.
    pose proof (@run_keeps events initial st
                  initial_started_after_dependencies Hrun) as Hinv.
    destruct (Hfour UserContext) as [o1 H1]; [simpl; tauto|].
    destruct (Hfour ConsumptionInsight) as [o2 H2]; [simpl; tauto|].
    destruct (Hfour ForecastInsight) as [o3 H3]; [simpl; tauto|].
    destruct (Hfour RiskDetector) as [o4 H4]; [simpl; tauto|].
    assert (Hmw : terminal (status st MergeWeather) = true).
    { assert (H : ready st ConsumptionInsight = true) by (apply Hinv; congruence).
      unfold ready in H. simpl in H. now rewrite andb_true_r in H. }
    assert (Hf : terminal (status st Forecast) = true).
    { assert (H : ready st ForecastInsight = true) by (apply Hinv; congruence).
      unfold ready in H. simpl in H. now rewrite andb_true_r in H. }
    exists (update st PlanSynthesizer Running). split; [|reflexivity].
    simpl. rewrite Hps. unfold ready, failed. simpl.
    rewrite H1, H2, H3, H4, Hps, Hc. simpl.
    destruct (status st MergeWeather); try discriminate.
    destruct (status st Forecast); try discriminate.
    reflexivity.
  - intros d Hd. destruct d; try (now elim Hd);
      (eexists; split; [reflexivity|split; reflexivity]).
Qed.

End Orchestrator.

(** ** OnboardingPage.tsx: what every run of the questionnaire keeps *)

Module OnboardingRuns.
Import Onboarding.

(** [progress]: the width of the progress bar, in percent. *)
Definition progress (s : State) : Q :=
  (inject_Z (Z.of_nat (currentQuestion s) + 1)
   / inject_Z (Z.of_nat (List.length (visibleQuestions (answers s))))
   * 100)%Q.

(** [const question = visibleQuestions[currentQuestion]]. *)
Definition question (s : State) : option Question :=
  nth_error (visibleQuestions (answers s)) (currentQuestion s).

(** The ids of the visible questions, in order. *)
Definition visibleIds (a : Answers) : list QuestionId :=
  map id (visibleQuestions a).

(** Every answer the object has is one of the options of its question. *)
Definition valid (a : Answers) : Prop :=
  forall q v, In q questions -> get a (id q) = Some v -> In v (options q).

(** Every question visible for these answers has an answer. *)
Definition complete (a : Answers) : Prop :=
  forall i, In i (visibleIds a) -> get a i <> None.

(** What every state of a run satisfies: the current question exists, the
    questions before it are answered, the answers are options of their
    questions, what was submitted is complete, and the question step is
    entered, and answers are submitted, with a file only. *)
Record reachable_invariant (s : State) : Prop := {
  inv_range : currentQuestion s < List.length (visibleIds (answers s));
  inv_answered :
    forall n i,
      n < currentQuestion s ->
      nth_error (visibleIds (answers s)) n = Some i ->
      get (answers s) i <> None;
  inv_valid : valid (answers s);
  inv_submitted : Forall (fun a => valid a /\ complete a) (submitted s);
  inv_file : step s = questionsStep -> selectedFile s = true;
  inv_upload : step s = upload -> submitted s = []
}.

Lemma QuestionId_eqb_eq (i j : QuestionId) :
  QuestionId_eqb i j = true <-> i = j.
Proof. destruct i, j; simpl; split; congruence. Qed.

Lemma get_set (a : Answers) (i j : QuestionId) (v : string) :
  get (set a i v) j = if QuestionId_eqb i j then Some v else get a j.
Proof. destruct i, j; reflexivity. Qed.

Lemma get_set_kept (a : Answers) (i j : QuestionId) (v : string) :
  get a j <> None -> get (set a i v) j <> None.
Proof.
  rewrite get_set. destruct (QuestionId_eqb i j); [discriminate|tauto].
Qed.

Lemma visibleIds_cases (a : Answers) :
  visibleIds a
  = if answerIs a q3 "Yes" then [q1; q2; q3; q3_1; q4; q5]
    else [q1; q2; q3; q4; q5].
Proof. exact (visibleQuestions_count a). Qed.

Lemma visibleIds_set (a : Answers) (i : QuestionId) (v : string) :
  i <> q3 -> visibleIds (set a i v) = visibleIds a.
Proof.
  intros Hi. rewrite !visibleIds_cases. unfold answerIs.
  rewrite get_set. destruct i; try reflexivity. now elim Hi.
Qed.

Lemma visibleIds_length (a : Answers) : 5 <= List.length (visibleIds a).
Proof.
  rewrite visibleIds_cases. destruct (answerIs a q3 "Yes"); simpl; lia.
Qed.

(** The first three questions do not depend on the answers, and [q3] is the
    third question only. *)
Lemma visibleIds_start (a b : Answers) (n : nat) :
  n < 3 -> nth_error (visibleIds a) n = nth_error (visibleIds b) n.
Proof.
  intros Hn. rewrite !visibleIds_cases.
  destruct (answerIs a q3 "Yes"), (answerIs b q3 "Yes");
    destruct n as [|[|[|n]]]; try lia; reflexivity.
Qed.

Lemma visibleIds_q3 (a : Answers) (n : nat) :
  nth_error (visibleIds a) n = Some q3 <-> n = 2.
Proof.
  rewrite visibleIds_cases.
  destruct (answerIs a q3 "Yes");
    destruct n as [|[|[|[|[|[|[|n]]]]]]]; simpl;
    split; intros H; try discriminate; try lia; try reflexivity;
    destruct n; discriminate.
Qed.

Lemma valid_set (a : Answers) (q : Question) (v : string) :
  In q questions -> In v (options q) -> valid a -> valid (set a (id q) v).
Proof.
  intros Hq Hv Ha q' v' Hq' Hget. rewrite get_set in Hget.
  destruct (QuestionId_eqb (id q) (id q')) eqn:E.
  - injection Hget as <-.
    assert (q' = q); [|now subst].
    unfold questions in Hq, Hq'. simpl in Hq, Hq'.
    repeat (destruct Hq as [<-|Hq]);
      repeat (destruct Hq' as [<-|Hq']);
      try reflexivity; try discriminate E; try contradiction.
  - exact (Ha q' v' Hq' Hget).
Qed.

Lemma visible_in_questions (a : Answers) (q : Question) :
  In q (visibleQuestions a) -> In q questions.
Proof. unfold visibleQuestions. intros H. now apply filter_In in H. Qed.

Lemma initial_invariant : reachable_invariant initialState.
Proof.
  split; simpl; try discriminate; try reflexivity.
  - lia.
  - intros n i Hn. lia.
  - intros q v _ H. destruct (id q); discriminate.
  - constructor.
Qed.

(** The answers after an answer to the current question: the questions up
    to the current one are answered. *)
Lemma answered_after (s : State) (i : QuestionId) (v : string) :
  nth_error (visibleIds (answers s)) (currentQuestion s) = Some i ->
  (forall n j,
      n < currentQuestion s ->
      nth_error (visibleIds (answers s)) n = Some j ->
      get (answers s) j <> None) ->
  forall n j,
    n < currentQuestion s + 1 ->
    nth_error (visibleIds (set (answers s) i v)) n = Some j ->
    get (set (answers s) i v) j <> None.
Proof.
  intros Hi Hans n j Hn Hj.
  destruct (QuestionId_eqb i q3) eqn:E3.
  - apply QuestionId_eqb_eq in E3. subst i.
    apply visibleIds_q3 in Hi.
    rewrite (visibleIds_start _ (answers s)) in Hj by lia.
    destruct (Nat.eq_dec n (currentQuestion s)) as [->|Hne].
    + rewrite Hi in Hj.
      pose proof (proj2 (visibleIds_q3 (answers s) 2) eq_refl) as H3.
      assert (j = q3) by congruence.
      subst j. rewrite get_set. discriminate.
    + apply get_set_kept. apply (Hans n j); [lia|exact Hj].
  - assert (Hne3 : i <> q3).
    { intros ->. discriminate. }
    rewrite (visibleIds_set _ _ Hne3) in Hj.
    destruct (Nat.eq_dec n (currentQuestion s)) as [->|Hne].
    + rewrite Hi in Hj. injection Hj as <-. rewrite get_set.
      now rewrite (proj2 (QuestionId_eqb_eq i i) eq_refl).
    + apply get_set_kept. apply (Hans n j); [lia|exact Hj].
Qed.

Lemma handleAnswer_invariant (s : State) (q : Question) (v : string) :
  step s = questionsStep ->
  question s = Some q ->
  In v (options q) ->
  reachable_invariant s ->
  reachable_invariant (handleAnswer (id q) v s).
Proof.
  intros Hstep Hq Hv [Hrange Hans Hvalid Hsub Hfile Hup].
  unfold question in Hq.
  assert (Hin : In q questions).
  { apply (@visible_in_questions (answers s)). exact (nth_error_In _ _ Hq). }
  assert (Hi : nth_error (visibleIds (answers s)) (currentQuestion s)
               = Some (id q)).
  { unfold visibleIds. now apply map_nth_error. }
  assert (Hvalid' : valid (set (answers s) (id q) v)) by now apply valid_set.
  assert (Hans' := answered_after s v Hi Hans).
  assert (Hlen : List.length (visibleQuestions (answers s))
                 = List.length (visibleIds (answers s))).
  { unfold visibleIds. now rewrite length_map. }
  unfold handleAnswer, handleSubmitAnalysis. rewrite (Hfile Hstep), Hlen.
  destruct (Z.of_nat (currentQuestion s)
            <? Z.of_nat (List.length (visibleIds (answers s))) - 1)%Z eqn:E.
  - apply Z.ltb_lt in E.
    split; cbn [currentQuestion answers submitted step selectedFile];
      try assumption; try (intros; congruence).
    destruct (QuestionId_eqb (id q) q3) eqn:E3.
    + apply QuestionId_eqb_eq in E3. rewrite E3 in Hi.
      apply visibleIds_q3 in Hi.
      pose proof (visibleIds_length (set (answers s) (id q) v)). lia.
    + rewrite visibleIds_set; [lia|]. intros H. rewrite H in E3. discriminate.
  - apply Z.ltb_ge in E.
    assert (Hnot3 : id q <> q3).
    { intros H. rewrite H in Hi. apply visibleIds_q3 in Hi.
      pose proof (visibleIds_length (answers s)). lia. }
    split; cbn [currentQuestion answers submitted step selectedFile];
      try assumption; try (intros; congruence).
    + now rewrite visibleIds_set.
    + intros n i Hn. apply Hans'. lia.
    + apply Forall_app. split; [exact Hsub|]. constructor; [|constructor].
      split; [exact Hvalid'|].
      intros i Hin'. apply In_nth_error in Hin'. destruct Hin' as [n Hn].
      apply (Hans' n i); [|exact Hn].
      assert (n < List.length (visibleIds (set (answers s) (id q) v))).
      { apply nth_error_Some. congruence. }
      rewrite visibleIds_set in H by exact Hnot3. lia.
Qed.

Lemma react_invariant (s : State) (e : Event) :
  reachable_invariant s -> reachable_invariant (react s e).
Proof.
  intros Hinv. destruct e as [| |value|]; simpl;
    destruct (step s) eqn:Estep; try exact Hinv.
  - destruct Hinv as [Hrange Hans Hvalid Hsub Hfile Hup].
    split; cbn [currentQuestion answers submitted step selectedFile];
      try assumption; [reflexivity|intros _; exact (Hup Estep)].
  - destruct (selectedFile s) eqn:Efile; [|exact Hinv].
    destruct Hinv as [Hrange Hans Hvalid Hsub Hfile Hup].
    split; cbn [currentQuestion answers submitted step selectedFile];
      try assumption; [reflexivity|discriminate].
  - destruct (nth_error (visibleQuestions (answers s)) (currentQuestion s))
      as [q|] eqn:Eq; [|exact Hinv].
    destruct (existsb (String.eqb value) (options q)) eqn:Eopt; [|exact Hinv].
    apply handleAnswer_invariant; try assumption.
    apply existsb_exists in Eopt. destruct Eopt as (o & Ho & Heq).
    apply String.eqb_eq in Heq. now subst.
  - destruct (0 <? currentQuestion s)%nat eqn:Epos; [|exact Hinv].
    apply Nat.ltb_lt in Epos.
    destruct Hinv as [Hrange Hans Hvalid Hsub Hfile Hup].
    split; cbn [currentQuestion answers submitted step selectedFile];
      try assumption.
    + lia.
    + intros n i Hn. apply Hans. lia.
    + intros _. exact (Hfile Estep).
    + discriminate.
Qed.

Lemma run_invariant (events : list Event) : reachable_invariant (run events).
Proof.
  unfold run.
  assert (H : forall s, reachable_invariant s ->
                        reachable_invariant (fold_left react events s)).
  { induction events as [|e rest IH]; intros s Hs; simpl; [exact Hs|].
    apply IH. now apply react_invariant. }
  apply H. exact initial_invariant.
Qed.

Lemma react_keeps_answers (s : State) (e : Event) (i : QuestionId) :
  get (answers s) i <> None -> get (answers (react s e)) i <> None.
Proof.
  intros Hi. destruct e as [| |value|]; simpl; destruct (step s); try exact Hi.
  - destruct (selectedFile s); exact Hi.
  - destruct (nth_error (visibleQuestions (answers s)) (currentQuestion s))
      as [q|]; [|exact Hi].
    destruct (existsb (String.eqb value) (options q)); [|exact Hi].
    unfold handleAnswer, handleSubmitAnalysis.
    destruct (Z.of_nat (currentQuestion s)
              <? Z.of_nat (List.length (visibleQuestions (answers s))) - 1)%Z;
      [|destruct (selectedFile s)]; simpl; now apply get_set_kept.
  - destruct (0 <? currentQuestion s)%nat; exact Hi.
Qed.

Lemma ratio_bounds (a b : Z) :
  (0 < a <= b)%Z ->
  (0 < inject_Z a / inject_Z b * 100 <= 100)%Q
  /\ ((inject_Z a / inject_Z b * 100 == 100)%Q <-> a = b).
Proof.
  intros [Ha Hab].
  assert (Hb : (0 < inject_Z b)%Q).
  { change 0%Q with (inject_Z 0). rewrite <- Zlt_Qlt. lia. }
  assert (Ha' : (0 < inject_Z a)%Q).
  { change 0%Q with (inject_Z 0). now rewrite <- Zlt_Qlt. }
  assert (Hab' : (inject_Z a <= inject_Z b)%Q) by now rewrite <- Zle_Qle.
  set (x := (inject_Z a / inject_Z b)%Q).
  assert (Hx0 : (0 < x)%Q).
  { apply Qlt_shift_div_l; [exact Hb|]. lra. }
  assert (Hx1 : (x <= 1)%Q).
  { apply Qle_shift_div_r; [exact Hb|]. lra. }
  split; [split; lra|]. split.
  - intros H. assert (Hone : (x == 1)%Q) by lra.
    unfold x in Hone.
    assert (Heq : (inject_Z a == inject_Z b)%Q).
    { rewrite <- (Qmult_div_r (inject_Z a) (inject_Z b)) by lra.
      rewrite Hone. ring. }
    exact (proj1 (inject_Z_injective a b) Heq).
  - intros ->. unfold x. field. lra.
Qed.

(** With every click taken together with its timer, every set of answers
    handed to [startAnalysis] answers each question that is visible for it,
    each answer it holds is one of the options of its question, and a file
    has been selected. *)
Lemma atomic_submitted_complete_and_valid
    (events : list Event) (a : Answers) :
  In a (submitted (run events)) ->
  (forall q, In q (visibleQuestions a) ->
             exists v, get a (id q) = Some v /\ In v (options q))
  /\ (forall q v, In q questions -> get a (id q) = Some v -> In v (options q))
  /\ selectedFile (run events) = true.
Proof.
  intros Ha. destruct (run_invariant events) as [_ _ _ Hsub Hfile Hup].
  rewrite Forall_forall in Hsub. destruct (Hsub a Ha) as [Hvalid Hcomplete].
  split; [|split].
  - intros q Hq.
    assert (Hin := visible_in_questions Hq).
    destruct (get a (id q)) as [v|] eqn:E.
    + exists v. split; [reflexivity|]. exact (Hvalid q v Hin E).
    + elim (Hcomplete (id q)); [|exact E]. unfold visibleIds. now apply in_map.
  - exact Hvalid.
  - destruct (step (run events)) eqn:Es; [|now apply Hfile].
    rewrite (Hup eq_refl) in Ha. destruct Ha.
Qed.

(** With every click taken together with its timer, the current question
    exists in every state, and the progress bar is above 0 and at most 100
    percent, with 100 percent exactly on the last visible question. *)
Lemma atomic_question_defined (events : list Event) :
  (exists q, question (run events) = Some q)
  /\ (0 < progress (run events) <= 100)%Q
  /\ ((progress (run events) == 100)%Q
      <-> currentQuestion (run events) + 1
          = List.length (visibleQuestions (answers (run events)))).
Proof.
  destruct (run_invariant events) as [Hrange _ _ _ _ _].
  unfold visibleIds in Hrange. rewrite length_map in Hrange.
  split.
  - unfold question.
    destruct (nth_error (visibleQuestions (answers (run events)))
                (currentQuestion (run events))) as [q|] eqn:E.
    + now exists q.
    + apply nth_error_None in E. lia.
  - unfold progress.
    destruct (@ratio_bounds (Z.of_nat (currentQuestion (run events)) + 1)
                (Z.of_nat (List.length
                             (visibleQuestions (answers (run events))))))
      as [Hb Heq]; [lia|].
    split; [exact Hb|]. rewrite Heq. lia.
Qed.

(** X3: without a file nothing happens: as long as no file has been
    selected, the page stays in its initial state, on the upload step, with
    no answers and nothing submitted. *)
Theorem no_file_no_questionnaire (events : list Event) :
  ~ In SelectFile events -> run events = initialState.
Proof.
  unfold run.
  assert (H : forall s, step s = upload -> selectedFile s = false ->
                        ~ In SelectFile events ->
                        fold_left react events s = s).
  { induction events as [|e rest IH]; intros s Hs Hf Hno; [reflexivity|].
    simpl. assert (Hstay : react s e = s).
    { destruct e; simpl; rewrite Hs; try reflexivity.
      - elim Hno. now left.
      - now rewrite Hf. }
    rewrite Hstay. apply IH; try assumption.
    intros Hin. apply Hno. now right. }
  intros Hno. apply (H initialState); try reflexivity. exact Hno.
Qed.

Lemma no_file_no_questionnaire_witness :
  run [Continue; Choose "3-4"; Previous; Continue; Choose "Yes"] = initialState.
Proof.
  apply no_file_no_questionnaire.
  intros H. repeat (destruct H as [H|H]; [discriminate H|]). destruct H.
Defined.

(** X4: an answer, once given, is never removed: a key the answers have
    after some events is still there after any further events, going back
    and changing other answers included. *)
Theorem answers_are_never_removed
    (events more : list Event) (i : QuestionId) :
  get (answers (run events)) i <> None ->
  get (answers (run (events ++ more))) i <> None.
Proof.
  unfold run. rewrite fold_left_app.
  generalize (fold_left react events initialState). intros s.
  revert s. induction more as [|e rest IH]; intros s Hs; simpl; [exact Hs|].
  apply IH. now apply react_keeps_answers.
Qed.

Lemma answers_are_never_removed_witness :
  get (answers
         (run ([SelectFile; Continue; Choose "3-4"; Choose "Mostly occupied";
                Choose "Yes"; Choose "22-24"]
               ++ [Previous; Previous; Choose "No"])))
      q3_1
  <> None.
Proof.
  apply (@answers_are_never_removed
           [SelectFile; Continue; Choose "3-4"; Choose "Mostly occupied";
            Choose "Yes"; Choose "22-24"]
           [Previous; Previous; Choose "No"] q3_1).
  discriminate.
Defined.

(** With every click taken together with its timer, and as long as the user
    never goes back, a set of answers handed to [startAnalysis] holds a
    setpoint exactly when its answer to the HVAC question is "Yes". *)
Lemma atomic_setpoint_iff_hvac (events : list Event) (a : Answers) :
  forallb (fun e => negb (isPrevious e)) events = true ->
  In a (submitted (run events)) ->
  a_q3_1 a <> None <-> a_q3 a = Some "Yes".
Proof.
  intros Hfw Ha. split.
  - assert (Hco := forward_runs_submit_coherent events Hfw).
    rewrite Forall_forall in Hco. exact (Hco a Ha).
  - intros Hyes. destruct (run_invariant events) as [_ _ _ Hsub _ _].
    rewrite Forall_forall in Hsub. destruct (Hsub a Ha) as [_ Hcomplete].
    apply (Hcomplete q3_1). unfold visibleIds.
    now apply q3_1_visible_iff.
Qed.

End OnboardingRuns.

(** ** OnboardingPage.tsx: the click and its timer

    [handleAnswer] stores the answer at once and leaves the rest to a timer
    of 300 ms.  Here the click and the callback of its timer are two events,
    so that a second click can come before the timer of the first has fired.
    The card and the Previous button are hidden while an analysis runs; this
    is not followed, so the runs below include those of the page. *)

Module OnboardingTimers.
Import Onboarding.

(** What the callback of [setTimeout] closed over in the render of the
    click: [currentQuestion], [visibleQuestions.length], [selectedFile] and
    [{...answers, [questionId]: value}]. *)
Record Timer := {
  seenQuestion : nat;
  seenVisible : nat;
  seenFile : bool;
  finalAnswers : Answers
}.

(** The page, and the timers that have not fired yet, oldest first: they
    have the same delay and fire in the order of the clicks. *)
Record State := {
  page : Onboarding.State;
  timers : list Timer
}.

Definition initialState : State :=
  {| page := Onboarding.initialState; timers := [] |}.

(** The click: [handleAnswer(questionId, value)] up to [setTimeout]. *)
Definition handleAnswer (questionId : QuestionId) (value : string) (s : State)
    : State :=
  let p := page s in
  {| page :=
       {| step := step p; selectedFile := selectedFile p;
          currentQuestion := currentQuestion p;
          answers := set (answers p) questionId value;
          submitted := submitted p |};
     timers :=
       timers s
       ++ [ {| seenQuestion := currentQuestion p;
               seenVisible := List.length (visibleQuestions (answers p));
               seenFile := selectedFile p;
               finalAnswers := set (answers p) questionId value |} ] |}.

(** The callback of the timer [t], run on the page as it is by then:
    [setCurrentQuestion(prev => prev + 1)], or [handleSubmitAnalysis] of the
    render of the click. *)
Definition fire (t : Timer) (p : Onboarding.State) : Onboarding.State :=
  if (Z.of_nat (seenQuestion t) <? Z.of_nat (seenVisible t) - 1)%Z
  then
    {| step := step p; selectedFile := selectedFile p;
       currentQuestion := currentQuestion p + 1;
       answers := answers p; submitted := submitted p |}
  else if seenFile t then
    {| step := step p; selectedFile := selectedFile p;
       currentQuestion := currentQuestion p; answers := answers p;
       submitted := submitted p ++ [finalAnswers t] |}
  else p.

(** What happens on the page: the user acts, or the oldest timer fires. *)
Inductive Event :=
| SelectFile
| Continue
| Click (value : string)
| Previous
| Timeout.

(** One event.  The file box, Continue and Previous are those of
    [Onboarding.react]; an option can be clicked when the card is shown,
    that is when [question] is defined. *)
Definition react (s : State) (e : Event) : State :=
  match e with
  | SelectFile =>
      {| page := Onboarding.react (page s) Onboarding.SelectFile;
         timers := timers s |}
  | Continue =>
      {| page := Onboarding.react (page s) Onboarding.Continue;
         timers := timers s |}
  | Previous =>
      {| page := Onboarding.react (page s) Onboarding.Previous;
         timers := timers s |}
  | Click value =>
      match step (page s),
            nth_error (visibleQuestions (answers (page s)))
              (currentQuestion (page s)) with
      | questionsStep, Some question =>
          if existsb (String.eqb value) (options question)
          then handleAnswer (id question) value s
          else s
      | _, _ => s
      end
  | Timeout =>
      match timers s with
      | [] => s
      | t :: rest => {| page := fire t (page s); timers := rest |}
      end
  end.

Definition run (events : list Event) : State :=
  fold_left react events initialState.

Definition isPrevious (e : Event) : bool :=
  match e with
  | Previous => true
  | _ => false
  end.

(** The clicks are spaced when the timer of each click fires before
    anything else happens, as it does when the user leaves 300 ms between a
    click and what comes next. *)
Fixpoint spaced (events : list Event) : bool :=
  match events with
  | [] => true
  | Click _ :: rest =>
      match rest with
      | Timeout :: rest' => spaced rest'
      | _ => false
      end
  | _ :: rest => spaced rest
  end.

(** A spaced run with every click and its timer taken as one event. *)
Fixpoint paired (events : list Event) : list Onboarding.Event :=
  match events with
  | [] => []
  | SelectFile :: rest => Onboarding.SelectFile :: paired rest
  | Continue :: rest => Onboarding.Continue :: paired rest
  | Previous :: rest => Onboarding.Previous :: paired rest
  | Timeout :: rest => paired rest
  | Click value :: rest =>
      match rest with
      | Timeout :: rest' => Onboarding.Choose value :: paired rest'
      | _ => Onboarding.Choose value :: paired rest
      end
  end.

(** A click followed by its timer is [Onboarding.handleAnswer]. *)
Lemma click_then_timeout (p : Onboarding.State) (value : string) :
  react (react {| page := p; timers := [] |} (Click value)) Timeout
  = {| page := Onboarding.react p (Onboarding.Choose value); timers := [] |}.
Proof.
  unfold react at 2. cbn [page timers]. simpl Onboarding.react.
  destruct (step p); [reflexivity|].
  destruct (nth_error (visibleQuestions (answers p)) (currentQuestion p))
    as [question|]; [|reflexivity].
  destruct (existsb (String.eqb value) (options question)); [|reflexivity].
  unfold handleAnswer, Onboarding.handleAnswer, handleSubmitAnalysis, fire.
  cbn.
  destruct (Z.of_nat (currentQuestion p)
            <? Z.of_nat (List.length (visibleQuestions (answers p))) - 1)%Z;
    [reflexivity|].
  destruct (selectedFile p); reflexivity.
Qed.

Lemma spaced_fold (n : nat) :
  forall events p,
    List.length events <= n ->
    spaced events = true ->
    fold_left react events {| page := p; timers := [] |}
    = {| page := fold_left Onboarding.react (paired events) p;
         timers := [] |}
    /\ forallb (fun e => negb (Onboarding.isPrevious e)) (paired events)
       = forallb (fun e => negb (isPrevious e)) events.
Proof.
  induction n as [|n IH]; intros events p Hn Hs.
  - destruct events; [now split|simpl in Hn; lia].
  - destruct events as [|e rest]; [now split|].
    simpl in Hn.
    destruct e as [| |value| |].
    + destruct (IH rest (Onboarding.react p Onboarding.SelectFile)) as [H1 H2];
        [lia|exact Hs|].
      split; [exact H1|]. simpl. now rewrite H2.
    + destruct (IH rest (Onboarding.react p Onboarding.Continue)) as [H1 H2];
        [lia|exact Hs|].
      split; [exact H1|]. simpl. now rewrite H2.
    + destruct rest as [|e' rest']; [discriminate Hs|].
      destruct e'; try discriminate Hs.
      simpl in Hn.
      destruct (IH rest' (Onboarding.react p (Onboarding.Choose value)))
        as [H1 H2]; [lia|exact Hs|].
      split.
      * change (fold_left react (Click value :: Timeout :: rest')
                  {| page := p; timers := [] |})
          with (fold_left react rest'
                  (react (react {| page := p; timers := [] |} (Click value))
                     Timeout)).
        rewrite click_then_timeout. exact H1.
      * simpl. now rewrite H2.
    + destruct (IH rest (Onboarding.react p Onboarding.Previous)) as [H1 H2];
        [lia|exact Hs|].
      split; [exact H1|]. reflexivity.
    + destruct (IH rest p) as [H1 H2]; [lia|exact Hs|].
      split; [exact H1|]. simpl. exact H2.
Qed.

(** A spaced run is the run of [Onboarding.react] on its paired events, and
    leaves no timer behind. *)
Lemma spaced_run (events : list Event) :
  spaced events = true ->
  run events
  = {| page := Onboarding.run (paired events); timers := [] |}.
Proof.
  intros Hs. pose proof (@spaced_fold (List.length events)) as H.
  exact (proj1 (H events Onboarding.initialState (le_n _) Hs)).
Qed.

(** X1: when the clicks are spaced, every set of answers handed to
    [startAnalysis] answers each question that is visible for it, each answer
    it holds is one of the options of its question, and a file has been
    selected. *)
Theorem spaced_clicks_submit_complete_answers
    (events : list Event) (a : Answers) :
  spaced events = true ->
  In a (submitted (page (run events))) ->
  (forall q, In q (visibleQuestions a) ->
             exists v, get a (id q) = Some v /\ In v (options q))
  /\ (forall q v, In q questions -> get a (id q) = Some v -> In v (options q))
  /\ selectedFile (page (run events)) = true.
Proof.
  intros Hs. rewrite (spaced_run events Hs). cbn [page].
  apply OnboardingRuns.atomic_submitted_complete_and_valid.
Qed.

(** X2: when the clicks are spaced, the current question exists in every
    state, so the question card is never empty, and the progress bar is
    above 0 and at most 100 percent, with 100 percent exactly on the last
    visible question. *)
Theorem spaced_clicks_question_defined (events : list Event) :
  spaced events = true ->
  (exists q, OnboardingRuns.question (page (run events)) = Some q)
  /\ (0 < OnboardingRuns.progress (page (run events)) <= 100)%Q
  /\ ((OnboardingRuns.progress (page (run events)) == 100)%Q
      <-> currentQuestion (page (run events)) + 1
          = List.length (visibleQuestions (answers (page (run events))))).
Proof.
  intros Hs. rewrite (spaced_run events Hs). cbn [page].
  apply OnboardingRuns.atomic_question_defined.
Qed.

(** X5: when the clicks are spaced and the user never goes back, a set of
    answers handed to [startAnalysis] holds a setpoint exactly when its
    answer to the HVAC question is "Yes". *)
Theorem spaced_forward_setpoint_iff_hvac (events : list Event) (a : Answers) :
  spaced events = true ->
  forallb (fun e => negb (isPrevious e)) events = true ->
  In a (submitted (page (run events))) ->
  a_q3_1 a <> None <-> a_q3 a = Some "Yes".
Proof.
  intros Hs Hfw. rewrite (spaced_run events Hs). cbn [page].
  apply OnboardingRuns.atomic_setpoint_iff_hvac.
  pose proof (@spaced_fold (List.length events)) as H.
  rewrite (proj2 (H events Onboarding.initialState (le_n _) Hs)).
  exact Hfw.
Qed.

(** A user who answers "Yes" and a setpoint, each timer firing before the
    next click. *)
Definition spacedYes : list Event :=
  [SelectFile; Continue; Click "3-4"; Timeout; Click "Mostly occupied";
   Timeout; Click "Yes"; Timeout; Click "22-24"; Timeout; Click "Solar";
   Timeout; Click "2-3"; Timeout].

Definition yesAnswers : Answers :=
  {| a_q1 := Some "3-4"; a_q2 := Some "Mostly occupied";
     a_q3 := Some "Yes"; a_q3_1 := Some "22-24";
     a_q4 := Some "Solar"; a_q5 := Some "2-3" |}.

Example spacedYes_submits :
  submitted (page (run spacedYes)) = [yesAnswers]
  /\ timers (run spacedYes) = [].
Proof. split; reflexivity. Qed.

Lemma spaced_clicks_submit_complete_answers_witness :
  (forall q, In q (visibleQuestions yesAnswers) ->
             exists v, get yesAnswers (id q) = Some v /\ In v (options q))
  /\ (forall q v, In q questions -> get yesAnswers (id q) = Some v ->
                  In v (options q))
  /\ selectedFile (page (run spacedYes)) = true.
Proof.
  apply (@spaced_clicks_submit_complete_answers spacedYes yesAnswers).
  - reflexivity.
  - simpl. left. reflexivity.
Defined.

Lemma spaced_clicks_question_defined_witness :
  (exists q,
      OnboardingRuns.question
        (page (run [SelectFile; Continue; Click "3-4"; Timeout])) = Some q)
  /\ (0 < OnboardingRuns.progress
            (page (run [SelectFile; Continue; Click "3-4"; Timeout]))
      <= 100)%Q
  /\ ((OnboardingRuns.progress
         (page (run [SelectFile; Continue; Click "3-4"; Timeout])) == 100)%Q
      <-> currentQuestion
            (page (run [SelectFile; Continue; Click "3-4"; Timeout])) + 1
          = List.length
              (visibleQuestions
                 (answers
                    (page (run [SelectFile; Continue; Click "3-4";
                                Timeout]))))).
Proof.
  apply (@spaced_clicks_question_defined
           [SelectFile; Continue; Click "3-4"; Timeout]).
  reflexivity.
Defined.

Lemma spaced_forward_setpoint_iff_hvac_witness :
  a_q3_1 yesAnswers <> None <-> a_q3 yesAnswers = Some "Yes".
Proof.
  apply (@spaced_forward_setpoint_iff_hvac spacedYes yesAnswers).
  - reflexivity.
  - reflexivity.
  - simpl. left. reflexivity.
Defined.

(** The question shown stays the question shown when it is answered: an
    answer to it changes at most which questions come after it. *)
Lemma question_stays (a : Answers) (c : nat) (q : Question) (v : string) :
  nth_error (visibleQuestions a) c = Some q ->
  nth_error (visibleQuestions (set a (id q) v)) c = Some q.
Proof.
  rewrite !visibleQuestions_cases. unfold answerIs.
  rewrite OnboardingRuns.get_set.
  destruct (QuestionId_eqb (id q) q3) eqn:E.
  - apply OnboardingRuns.QuestionId_eqb_eq in E.
    destruct (match get a q3 with Some v0 => v0 =? "Yes" | None => false end),
      (v =? "Yes");
      destruct c as [|[|[|[|[|[|c]]]]]]; simpl;
      try (destruct c; discriminate); intros [= <-]; simpl in E;
      try discriminate E; reflexivity.
  - intros H. exact H.
Qed.

Lemma visibleQuestions_length (a : Answers) :
  5 <= List.length (visibleQuestions a).
Proof.
  pose proof (OnboardingRuns.visibleIds_length a) as H.
  unfold OnboardingRuns.visibleIds in H. now rewrite length_map in H.
Qed.

(** X26: a second click before the timer of the first skips a question.
    When an option of the question shown is clicked twice, or two of its
    options one after the other, before the first timer fires, and the
    question is one of the first four, then both timers advance the page:
    it ends two questions further, the question in between is passed over
    without an answer, only the question clicked is answered, nothing is
    submitted and no timer is left. *)
Theorem double_click_skips_a_question
    (s : State) (q : Question) (v v' : string) :
  timers s = [] ->
  step (page s) = questionsStep ->
  nth_error (visibleQuestions (answers (page s))) (currentQuestion (page s))
  = Some q ->
  In v (options q) ->
  In v' (options q) ->
  currentQuestion (page s) < 4 ->
  currentQuestion
    (page (fold_left react [Click v; Click v'; Timeout; Timeout] s))
  = currentQuestion (page s) + 2
  /\ answers (page (fold_left react [Click v; Click v'; Timeout; Timeout] s))
     = set (set (answers (page s)) (id q) v) (id q) v'
  /\ (forall i,
        i <> id q ->
        get (answers
               (page (fold_left react [Click v; Click v'; Timeout; Timeout] s)))
            i
        = get (answers (page s)) i)
  /\ submitted
       (page (fold_left react [Click v; Click v'; Timeout; Timeout] s))
     = submitted (page s)
  /\ timers (fold_left react [Click v; Click v'; Timeout; Timeout] s) = [].
Proof.
  intros Ht Hstep Hq Hv Hv' Hc.
  assert (Hopt : forall w, In w (options q) ->
                           existsb (String.eqb w) (options q) = true).
  { intros w Hw. apply existsb_exists. exists w. split; [exact Hw|].
    apply String.eqb_refl. }
  destruct s as [p ts]. cbn [page timers] in *. subst ts.
  set (p1 := {| step := step p; selectedFile := selectedFile p;
                currentQuestion := currentQuestion p;
                answers := set (answers p) (id q) v;
                submitted := submitted p |}).
  set (t1 := {| seenQuestion := currentQuestion p;
                seenVisible := List.length (visibleQuestions (answers p));
                seenFile := selectedFile p;
                finalAnswers := set (answers p) (id q) v |}).
  set (p2 := {| step := step p; selectedFile := selectedFile p;
                currentQuestion := currentQuestion p;
                answers := set (set (answers p) (id q) v) (id q) v';
                submitted := submitted p |}).
  set (t2 := {| seenQuestion := currentQuestion p;
                seenVisible :=
                  List.length
                    (visibleQuestions (set (answers p) (id q) v));
                seenFile := selectedFile p;
                finalAnswers := set (set (answers p) (id q) v) (id q) v' |}).
  assert (E1 : react {| page := p; timers := [] |} (Click v)
               = {| page := p1; timers := [t1] |}).
  { unfold react. cbn [page]. rewrite Hstep, Hq, (Hopt v Hv). reflexivity. }
  assert (E2 : react {| page := p1; timers := [t1] |} (Click v')
               = {| page := p2; timers := [t1; t2] |}).
  { unfold react. cbn [page].
    change (step p1) with (step p).
    change (answers p1) with (set (answers p) (id q) v).
    change (currentQuestion p1) with (currentQuestion p).
    rewrite Hstep, (question_stays _ _ v Hq), (Hopt v' Hv'). reflexivity. }
  change (fold_left react [Click v; Click v'; Timeout; Timeout]
            {| page := p; timers := [] |})
    with (react (react (react (react {| page := p; timers := [] |} (Click v))
                          (Click v')) Timeout) Timeout).
  rewrite E1, E2.
  change (react (react {| page := p2; timers := [t1; t2] |} Timeout) Timeout)
    with {| page := fire t2 (fire t1 p2); timers := [] |}.
  cbn [page timers].
  pose proof (visibleQuestions_length (answers p)) as L0.
  pose proof (visibleQuestions_length (set (answers p) (id q) v)) as L1.
  assert (F1 : fire t1 p2
               = {| step := step p; selectedFile := selectedFile p;
                    currentQuestion := currentQuestion p + 1;
                    answers := set (set (answers p) (id q) v) (id q) v';
                    submitted := submitted p |}).
  { unfold fire, t1. cbn [seenQuestion seenVisible].
    destruct (Z.of_nat (currentQuestion p)
              <? Z.of_nat (List.length (visibleQuestions (answers p))) - 1)%Z
      eqn:B; [reflexivity|apply Z.ltb_ge in B; lia]. }
  rewrite F1. unfold fire, t2. cbn [seenQuestion seenVisible].
  destruct (Z.of_nat (currentQuestion p)
            <? Z.of_nat
                 (List.length (visibleQuestions (set (answers p) (id q) v)))
               - 1)%Z
    eqn:B; [|apply Z.ltb_ge in B; lia].
  cbn [currentQuestion answers submitted].
  split; [lia|]. split; [reflexivity|]. split; [|split; reflexivity].
  intros i Hi. rewrite !OnboardingRuns.get_set.
  destruct (QuestionId_eqb (id q) i) eqn:E; [|reflexivity].
  apply OnboardingRuns.QuestionId_eqb_eq in E. congruence.
Qed.

(** The first question clicked twice in a row: the page is on the third
    question, and the second has no answer. *)
Lemma double_click_skips_a_question_witness :
  currentQuestion
    (page (fold_left react [Click "3-4"; Click "3-4"; Timeout; Timeout]
             (run [SelectFile; Continue])))
  = currentQuestion (page (run [SelectFile; Continue])) + 2
  /\ answers
       (page (fold_left react [Click "3-4"; Click "3-4"; Timeout; Timeout]
                (run [SelectFile; Continue])))
     = set (set (answers (page (run [SelectFile; Continue]))) q1 "3-4")
         q1 "3-4"
  /\ (forall i,
        i <> q1 ->
        get (answers
               (page (fold_left react
                        [Click "3-4"; Click "3-4"; Timeout; Timeout]
                        (run [SelectFile; Continue]))))
            i
        = get (answers (page (run [SelectFile; Continue]))) i)
  /\ submitted
       (page (fold_left react [Click "3-4"; Click "3-4"; Timeout; Timeout]
                (run [SelectFile; Continue])))
     = submitted (page (run [SelectFile; Continue]))
  /\ timers (fold_left react [Click "3-4"; Click "3-4"; Timeout; Timeout]
               (run [SelectFile; Continue]))
     = [].
Proof.
  apply (@double_click_skips_a_question (run [SelectFile; Continue])
           {| id := q1; title := "How many people live in your home?";
              options := ["1-2"; "3-4"; "5+"]; conditionalOn := None |}
           "3-4" "3-4").
  - reflexivity.
  - reflexivity.
  - reflexivity.
  - simpl. right. left. reflexivity.
  - simpl. right. left. reflexivity.
  - simpl. lia.
Defined.

(** One double click on the first question, then spaced clicks: the answers
    handed to [startAnalysis] have no answer to the second question. *)
Example double_click_submits_without_q2 :
  submitted
    (page (run [SelectFile; Continue; Click "3-4"; Click "3-4"; Timeout;
                Timeout; Click "No"; Timeout; Click "Solar"; Timeout;
                Click "2-3"; Timeout]))
  = [ {| a_q1 := Some "3-4"; a_q2 := None; a_q3 := Some "No";
         a_q3_1 := None; a_q4 := Some "Solar"; a_q5 := Some "2-3" |} ].
Proof. reflexivity. Qed.

End OnboardingTimers.

(** ** services/groq.ts: [sendChatMessage] *)

Module Groq.
Import Chat.

(** What [fetch] and the reading of its response come to.  A choice is the
    value of [choice?.message?.content], [None] when a link of the chain is
    missing. *)
Inductive OkBody :=
| BadJson (message : string)
| NoChoices (message : string)
| Choices (contents : list (option string)).

(** The body of a response that is not ok: [errorData.error?.message] when
    [errorData] is an object, the body that is not JSON being read as [{}];
    reading [error] from a body that is [null] throws. *)
Inductive ErrorBody :=
| NullBody (message : string)
| ErrorData (errorMessage : option string).

Inductive FetchResult :=
| NetworkFailure (message : string)
| HttpError (status : Z) (errorData : ErrorBody)
| HttpOk (body : OkBody).

(** A falsy string: missing or empty. *)
Definition nonEmpty (x : option string) : option string :=
  match x with
  | Some "" | None => None
  | Some s => Some s
  end.

(** What one call did: the message lists it posted, and how its promise
    settled. *)
Record Call := {
  posted : list (list GroqChatMessage);
  settled : Outcome
}.

Section WithNetwork.

(** [import.meta.env.VITE_GROQ_API_KEY]. *)
Variable GROQ_API_KEY : option string.

(** The text [buildSystemPrompt(context)] returns for the context of the
    page. *)
Variable systemPrompt : string.

(** The network: what the POST of a list of messages comes to. *)
Variable post : list GroqChatMessage -> FetchResult.

Definition requestMessages (userMessage : string)
    (conversationHistory : list GroqChatMessage) : list GroqChatMessage :=
  [ {| groq_role := groq_system; groq_content := systemPrompt |} ]
  ++ conversationHistory
  ++ [ {| groq_role := groq_user; groq_content := userMessage |} ].

Definition sendChatMessage (userMessage : string)
    (conversationHistory : list GroqChatMessage) : Call :=
  match nonEmpty GROQ_API_KEY with
  | None =>
      {| posted := [];
         settled :=
           Rejected
             (Some "Groq API key not configured. Please add VITE_GROQ_API_KEY to your .env file.") |}
  | Some _ =>
      let messages := requestMessages userMessage conversationHistory in
      {| posted := [messages];
         settled :=
           match post messages with
           | NetworkFailure m => Rejected (Some m)
           | HttpError status (NullBody m) => Rejected (Some m)
           | HttpError status (ErrorData errorMessage) =>
               Rejected
                 (Some
                    (match nonEmpty errorMessage with
                     | Some m => m
                     | None => ("Groq API error: " ++ Js.toString status)%string
                     end))
           | HttpOk (BadJson m) => Rejected (Some m)
           | HttpOk (NoChoices m) => Rejected (Some m)
           | HttpOk (Choices contents) =>
               Resolved
                 (match nonEmpty (match contents with
                                  | c :: _ => c
                                  | [] => None
                                  end) with
                  | Some content => content
                  | None => "Sorry, I could not generate a response."
                  end)
           end |}
  end.

End WithNetwork.

End Groq.

(** ** DashboardPage.tsx and ChatInterface.tsx: a conversation *)

Module ChatRuns.
Import Chat Groq.

(** One message sent by the user: its text, the clock when it is sent and
    when the reply settles, and what the network does with the request. *)
Record Turn := {
  text : string;
  sentAt : Z;
  settledAt : Z;
  network : list GroqChatMessage -> FetchResult
}.

Section WithKey.

Variable GROQ_API_KEY : option string.
Variable systemPrompt : string.

(** [handleSendMessage(message)] with the call of [sendChatMessage] it makes,
    on the conversation history of the render it was created in. *)
Definition send (s : State) (t : Turn) : State :=
  handleSendMessage (sentAt t) (settledAt t) (text t)
    (settled (sendChatMessage GROQ_API_KEY systemPrompt (network t) (text t)
                (conversationHistory s)))
    s.

(** The request the turn posts, if any. *)
Definition postedBy (s : State) (t : Turn) : list (list GroqChatMessage) :=
  posted (sendChatMessage GROQ_API_KEY systemPrompt (network t) (text t)
            (conversationHistory s)).

(** A conversation: the turns one after the other, each settled before the
    next is sent. *)
Definition converse (turns : list Turn) : State :=
  fold_left send turns initialChat.

(** [{messages.length <= 1 && (...)}]: whether [ChatInterface] shows the
    suggested questions. *)
Definition showsSuggestedPrompts (s : State) : bool :=
  (List.length (chatMessages s) <=? 1)%nat.

(** The history a list of exchanges makes. *)
Definition historyOf (exchanges : list (string * string))
    : list GroqChatMessage :=
  flat_map (fun e => [ {| groq_role := groq_user; groq_content := fst e |};
                       {| groq_role := groq_assistant;
                          groq_content := snd e |} ])
           exchanges.

(** The exchanges of the turns that resolved, oldest first, given the history
    the first of them starts from. *)
Fixpoint exchangesFrom (history : list GroqChatMessage) (turns : list Turn)
    : list (string * string) :=
  match turns with
  | [] => []
  | t :: rest =>
      match settled (sendChatMessage GROQ_API_KEY systemPrompt (network t)
                       (text t) history) with
      | Resolved reply =>
          (text t, reply)
          :: exchangesFrom
               (history ++ [ {| groq_role := groq_user;
                                groq_content := text t |};
                             {| groq_role := groq_assistant;
                                groq_content := reply |} ])
               rest
      | Rejected _ => exchangesFrom history rest
      end
  end.

Lemma reply_not_empty (post : list GroqChatMessage -> FetchResult)
    (userMessage : string) (history : list GroqChatMessage) (reply : string) :
  settled (sendChatMessage GROQ_API_KEY systemPrompt post userMessage history)
  = Resolved reply ->
  reply <> "".
Proof.
  unfold sendChatMessage. destruct (nonEmpty GROQ_API_KEY); simpl;
    [|discriminate].
  destruct (post (requestMessages systemPrompt userMessage history))
    as [m|status [m|e]|[m|m|contents]]; try discriminate.
  intros [= <-].
  destruct contents as [|[c|] rest]; simpl; try discriminate.
  destruct c; simpl; discriminate.
Qed.

Lemma send_history (s : State) (t : Turn) :
  conversationHistory (send s t)
  = match settled (sendChatMessage GROQ_API_KEY systemPrompt (network t)
                     (text t) (conversationHistory s)) with
    | Resolved reply =>
        conversationHistory s
        ++ [ {| groq_role := groq_user; groq_content := text t |};
             {| groq_role := groq_assistant; groq_content := reply |} ]
    | Rejected _ => conversationHistory s
    end.
Proof.
  unfold send.
  destruct (settled (sendChatMessage GROQ_API_KEY systemPrompt (network t)
                       (text t) (conversationHistory s))); reflexivity.
Qed.

Lemma converse_history (turns : list Turn) :
  forall s,
    conversationHistory (fold_left send turns s)
    = conversationHistory s
      ++ historyOf (exchangesFrom (conversationHistory s) turns).
Proof.
  induction turns as [|t rest IH]; intros s; simpl.
  - now rewrite app_nil_r.
  - rewrite IH, send_history.
    destruct (settled (sendChatMessage GROQ_API_KEY systemPrompt (network t)
                         (text t) (conversationHistory s))) as [reply|e].
    + simpl. now rewrite <- app_assoc.
    + reflexivity.
Qed.

Lemma exchangesFrom_replies (turns : list Turn) :
  forall history,
    Forall (fun e => snd e <> "") (exchangesFrom history turns)
    /\ (List.length (exchangesFrom history turns) <= List.length turns)%nat.
Proof.
  induction turns as [|t rest IH]; intros history; simpl.
  - split; [constructor|lia].
  - destruct (settled (sendChatMessage GROQ_API_KEY systemPrompt (network t)
                         (text t) history)) as [reply|e] eqn:E.
    + destruct (IH (history
                    ++ [ {| groq_role := groq_user; groq_content := text t |};
                         {| groq_role := groq_assistant;
                            groq_content := reply |} ])) as [H1 H2].
      split; [|simpl; lia]. constructor; [|exact H1].
      simpl. exact (reply_not_empty _ _ _ E).
    + destruct (IH history) as [H1 H2]. split; [exact H1|lia].
Qed.

Lemma send_messages (s : State) (t : Turn) :
  exists reply,
    chatMessages (send s t)
    = chatMessages s ++ [userMessage (sentAt t) (text t); reply]
    /\ role reply = assistant
    /\ content reply <> ""
    /\ isTyping (send s t) = false.
Proof.
  unfold send.
  destruct (settled (sendChatMessage GROQ_API_KEY systemPrompt (network t)
                       (text t) (conversationHistory s))) as [reply|e] eqn:E.
  - exists (aiResponse (settledAt t) reply).
    unfold handleSendMessage, beforeAwait, afterAwait, andThen. simpl.
    rewrite <- app_assoc. repeat split. simpl.
    exact (reply_not_empty _ _ _ E).
  - exists (errorResponse (settledAt t) e).
    unfold handleSendMessage, beforeAwait, afterAwait, andThen. simpl.
    rewrite <- app_assoc. repeat split. simpl. discriminate.
Qed.

Lemma converse_length (turns : list Turn) :
  forall s,
    List.length (chatMessages (fold_left send turns s))
    = (List.length (chatMessages s) + 2 * List.length turns)%nat.
Proof.
  induction turns as [|t rest IH]; intros s; simpl; [lia|].
  rewrite IH. destruct (send_messages s t) as (reply & -> & _).
  rewrite length_app. simpl. lia.
Qed.

Lemma converse_roles (turns : list Turn) :
  forall s,
    map role (chatMessages (fold_left send turns s))
    = map role (chatMessages s)
      ++ List.concat (List.repeat [user; assistant] (List.length turns)).
Proof.
  induction turns as [|t rest IH]; intros s; simpl.
  - now rewrite app_nil_r.
  - rewrite IH. destruct (send_messages s t) as (reply & -> & Hr & _).
    rewrite map_app. simpl. rewrite Hr, <- app_assoc. reflexivity.
Qed.

Lemma historyOf_roles (exchanges : list (string * string)) :
  Forall (fun m => groq_role m <> groq_system) (historyOf exchanges)
  /\ List.length (historyOf exchanges) = (2 * List.length exchanges)%nat.
Proof.
  induction exchanges as [|e rest [IH1 IH2]]; simpl.
  - split; [constructor|reflexivity].
  - split; [|lia]. repeat constructor; simpl; try discriminate. exact IH1.
Qed.

(** X6: every send is answered.  Whatever the network does, a send adds to
    the chat the user's message and then exactly one assistant message whose
    text is not empty, and leaves the typing indicator off. *)
Theorem every_send_gets_a_reply (s : State) (t : Turn) :
  exists reply,
    chatMessages (send s t)
    = chatMessages s ++ [userMessage (sentAt t) (text t); reply]
    /\ role reply = assistant
    /\ content reply <> ""
    /\ isTyping (send s t) = false.
Proof. exact (send_messages s t). Qed.

(** X7: the conversation history is made of whole exchanges.  After any
    conversation the history sent along with the next request is the list of
    the exchanges that resolved, oldest first, each a user message followed
    by the assistant's non-empty reply; it holds no system message and never
    the half of a failed exchange. *)
Theorem conversation_history_is_exchanges (turns : list Turn) :
  conversationHistory (converse turns) = historyOf (exchangesFrom [] turns)
  /\ Forall (fun e => snd e <> "") (exchangesFrom [] turns)
  /\ (List.length (exchangesFrom [] turns) <= List.length turns)%nat
  /\ Forall (fun m => groq_role m <> groq_system)
       (conversationHistory (converse turns))
  /\ List.length (conversationHistory (converse turns))
     = (2 * List.length (exchangesFrom [] turns))%nat.
Proof.
  assert (Hh : conversationHistory (converse turns)
               = historyOf (exchangesFrom [] turns)).
  { unfold converse. now rewrite converse_history. }
  destruct (exchangesFrom_replies turns []) as [H1 H2].
  destruct (historyOf_roles (exchangesFrom [] turns)) as [H3 H4].
  rewrite Hh. repeat split; assumption.
Qed.

(** X8: the transcript of a conversation whose sends are each settled
    before the next alternates.  After [n] such sends the chat holds the
    greeting followed by [n] pairs of a user message and an assistant
    message, and the suggested questions are shown exactly as long as nothing
    has been sent.  (Nothing keeps the user from sending while a reply is
    pending; two sends that overlap put their two user messages first.) *)
Theorem transcript_alternates (turns : list Turn) :
  map role (chatMessages (converse turns))
  = assistant :: List.concat (List.repeat [user; assistant] (List.length turns))
  /\ List.length (chatMessages (converse turns))
     = (1 + 2 * List.length turns)%nat
  /\ (showsSuggestedPrompts (converse turns) = true <-> turns = []).
Proof.
  unfold converse, showsSuggestedPrompts.
  rewrite converse_roles, converse_length. simpl.
  repeat split.
  - intros H. apply Nat.leb_le in H. destruct turns; [reflexivity|].
    simpl in H. lia.
  - intros ->. reflexivity.
Qed.

(** X9: what a request carries.  With an API key, the one request a send
    posts is the system prompt, then the exchanges that resolved so far,
    oldest first, then the new user message. *)
Theorem request_carries_the_exchanges
    (turns : list Turn) (t : Turn) (key : string) :
  GROQ_API_KEY = Some key ->
  key <> "" ->
  postedBy (converse turns) t
  = [ [ {| groq_role := groq_system; groq_content := systemPrompt |} ]
      ++ historyOf (exchangesFrom [] turns)
      ++ [ {| groq_role := groq_user; groq_content := text t |} ] ].
Proof.
  intros Hkey Hne. unfold postedBy, sendChatMessage. rewrite Hkey.
  destruct key; [now elim Hne|]. simpl.
  unfold converse. now rewrite converse_history.
Qed.

(** X10: without an API key nothing is posted.  When the key is missing or
    empty, no send posts a request, the conversation history stays empty,
    and every send is answered by the configuration error. *)
Theorem no_key_no_request (turns : list Turn) (t : Turn) :
  nonEmpty GROQ_API_KEY = None ->
  postedBy (converse turns) t = []
  /\ conversationHistory (converse (turns ++ [t])) = []
  /\ exists reply,
       chatMessages (converse (turns ++ [t]))
       = chatMessages (converse turns)
         ++ [userMessage (sentAt t) (text t); reply]
       /\ content reply
          = "Sorry, I encountered an error: Groq API key not configured. Please add VITE_GROQ_API_KEY to your .env file.. Please try again.".
Proof.
  intros Hkey.
  assert (Hrej : forall post m h,
             settled (sendChatMessage GROQ_API_KEY systemPrompt post m h)
             = Rejected
                 (Some "Groq API key not configured. Please add VITE_GROQ_API_KEY to your .env file.")).
  { intros. unfold sendChatMessage. now rewrite Hkey. }
  assert (Hnone : forall ts h, exchangesFrom h ts = []).
  { induction ts as [|t' rest IH]; intros h; simpl; [reflexivity|].
    rewrite Hrej. apply IH. }
  split; [|split].
  - unfold postedBy, sendChatMessage. now rewrite Hkey.
  - unfold converse. rewrite converse_history. simpl. now rewrite Hnone.
  - unfold converse. rewrite fold_left_app. simpl.
    set (s := fold_left send turns initialChat).
    exists (errorResponse (settledAt t)
              (Some "Groq API key not configured. Please add VITE_GROQ_API_KEY to your .env file.")).
    unfold send. rewrite Hrej.
    unfold handleSendMessage, beforeAwait, afterAwait, andThen. simpl.
    rewrite <- app_assoc. split; reflexivity.
Qed.

End WithKey.

(** Two turns for the examples: the service answers the first and is down
    for the second. *)
Definition answered : Turn :=
  {| text := "Why is my bill so high?"; sentAt := 1000; settledAt := 2500;
     network := fun _ => HttpOk (Choices [Some "Mostly evening peaks."]) |}.

Definition unanswered : Turn :=
  {| text := "How can I save more this week?"; sentAt := 9000;
     settledAt := 9100;
     network := fun _ => HttpError 503 (ErrorData None) |}.

Example conversation_sample :
  map content (chatMessages (converse (Some "k") "prompt" [answered; unanswered]))
  = [ greeting; "Why is my bill so high?";
      "Mostly evening peaks."; "How can I save more this week?";
      "Sorry, I encountered an error: Groq API error: 503. Please try again." ]
  /\ conversationHistory (converse (Some "k") "prompt" [answered; unanswered])
     = [ {| groq_role := groq_user; groq_content := "Why is my bill so high?" |};
         {| groq_role := groq_assistant;
            groq_content := "Mostly evening peaks." |} ].
Proof. split; reflexivity. Qed.

Lemma request_carries_the_exchanges_witness :
  postedBy (Some "k") "prompt" (converse (Some "k") "prompt" [answered])
    unanswered
  = [ [ {| groq_role := groq_system; groq_content := "prompt" |} ]
      ++ historyOf (exchangesFrom (Some "k") "prompt" [] [answered])
      ++ [ {| groq_role := groq_user; groq_content := text unanswered |} ] ].
Proof.
  apply (@request_carries_the_exchanges (Some "k") "prompt" [answered]
           unanswered "k"); [reflexivity|discriminate].
Defined.

Lemma no_key_no_request_witness :
  postedBy (Some "") "prompt" (converse (Some "") "prompt" [answered])
    unanswered = []
  /\ conversationHistory
       (converse (Some "") "prompt" ([answered] ++ [unanswered])) = []
  /\ exists reply,
       chatMessages (converse (Some "") "prompt" ([answered] ++ [unanswered]))
       = chatMessages (converse (Some "") "prompt" [answered])
         ++ [userMessage (sentAt unanswered) (text unanswered); reply]
       /\ content reply
          = "Sorry, I encountered an error: Groq API key not configured. Please add VITE_GROQ_API_KEY to your .env file.. Please try again.".
Proof.
  apply (@no_key_no_request (Some "") "prompt" [answered] unanswered).
  reflexivity.
Defined.

End ChatRuns.

(** ** DashboardPage.tsx and DayPlanCard.tsx: the plan tab *)

Module PlanView.
Import Api Plan.

(** [completedDays] and [skippedDays]: objects used as maps from day label
    to [true]. *)
Record Marks := {
  completedDays : Js.Map bool;
  skippedDays : Js.Map bool
}.

Definition noMarks : Marks := {| completedDays := []; skippedDays := [] |}.

(** [setCompletedDays(prev => ({ ...prev, [dayLabel]: true }))]. *)
Definition handlePlanComplete (dayLabel : string) (m : Marks) : Marks :=
  {| completedDays := Js.set (completedDays m) dayLabel true;
     skippedDays := skippedDays m |}.

(** [setSkippedDays(prev => ({ ...prev, [dayLabel]: true }))]. *)
Definition handlePlanSkip (dayLabel : string) (m : Marks) : Marks :=
  {| completedDays := completedDays m;
     skippedDays := Js.set (skippedDays m) dayLabel true |}.

Section WithPrototype.

(** The property names an object literal inherits from [Object.prototype]
    ("constructor", "toString", ...): reading one of them from an object
    that does not have it as an own key gives a function, which is truthy. *)
Variable inherited : string -> bool.

(** The truthiness of [marks[dayLabel]], as [DayPlanCard] tests its
    [completed] and [skipped] props. *)
Definition marked (marks : Js.Map bool) (dayLabel : string) : bool :=
  match Js.get marks dayLabel with
  | Some b => b
  | None => inherited dayLabel
  end.

(** [{!completed && !skipped && onComplete && onSkip && (...)}]: whether the
    card shows its two buttons; the page always passes the handlers. *)
Definition showsButtons (m : Marks) (dayLabel : string) : bool :=
  negb (marked (completedDays m) dayLabel)
  && negb (marked (skippedDays m) dayLabel).

(** A click on a button of the plan tab. *)
Inductive Click :=
| ClickComplete (dayLabel : string)
| ClickSkip (dayLabel : string).

(** One click, on the cards of [plan]: a button that is not rendered cannot
    be clicked. *)
Definition click (plan : list DayPlan) (m : Marks) (c : Click) : Marks :=
  match c with
  | ClickComplete l =>
      if existsb (String.eqb l) (map dayLabel plan) && showsButtons m l
      then handlePlanComplete l m else m
  | ClickSkip l =>
      if existsb (String.eqb l) (map dayLabel plan) && showsButtons m l
      then handlePlanSkip l m else m
  end.

Definition clicks (plan : list DayPlan) (cs : list Click) : Marks :=
  fold_left (click plan) cs noMarks.

End WithPrototype.

(** A text of ASCII characters only.  For such a text the characters of the
    string are its UTF-16 code units, which is what [length] and [slice]
    count. *)
Fixpoint isAscii (s : string) : bool :=
  match s with
  | EmptyString => true
  | String c rest => (nat_of_ascii c <? 128)%nat && isAscii rest
  end.

(** The collapsed card: the preview of the first action,
    [action.slice(0, 120)] and "..." when [action.length > 120], for an
    action of ASCII characters. *)
Definition previewText (actions : list DayPlanAction) : string :=
  match actions with
  | [] => ""
  | firstAction :: _ =>
      substring 0 120 (action firstAction)
      ++ (if (120 <? String.length (action firstAction))%nat then "..." else "")
  end.

(** The plan tab below the summary: the cards of the days, or the notice
    that there is no plan. *)
Inductive PlanSection :=
| Cards (days : list DayPlan)
| NoPlanNotice.

Definition planSection (plan : list DayPlan) : PlanSection :=
  if (0 <? List.length plan)%nat then Cards plan else NoPlanNotice.

Lemma substring_0_length (n : nat) (s : string) :
  String.length (substring 0 n s) = Nat.min n (String.length s).
Proof.
  revert n. induction s as [|c s IH]; intros [|n]; simpl; try reflexivity.
  now rewrite IH.
Qed.

Lemma substring_0_all (n : nat) (s : string) :
  (String.length s <= n)%nat -> substring 0 n s = s.
Proof.
  revert n. induction s as [|c s IH]; intros [|n] H; simpl in *;
    try reflexivity; try lia.
  rewrite IH by lia. reflexivity.
Qed.

Lemma length_append (s t : string) :
  String.length (s ++ t) = (String.length s + String.length t)%nat.
Proof. induction s as [|c s IH]; simpl; [reflexivity|now rewrite IH]. Qed.

(** X11: the collapsed card.  For a first action of ASCII characters the
    preview is never longer than 123 characters, it is the whole action when
    that has at most 120 characters and its first 120 characters followed by
    "..." otherwise; and every card the page makes from an analysis has a
    first action to preview. *)
Theorem collapsed_card_preview
    (Date : Type) (addDays : Date -> nat -> Date) (isoDay : Date -> string)
    (today : Date) (data : AnalysisResult) :
  (forall a rest,
      isAscii (action a) = true ->
      (String.length (previewText (a :: rest)) <= 123)%nat
      /\ ((String.length (action a) <= 120)%nat ->
          previewText (a :: rest) = action a)
      /\ ((120 < String.length (action a))%nat ->
          previewText (a :: rest)
          = (substring 0 120 (action a) ++ "...")%string
          /\ String.length (previewText (a :: rest)) = 123%nat))
  /\ (forall d, In d (mapApiToPlan addDays isoDay today data) ->
                exists a rest, actions d = a :: rest).
Proof.
  split.
  - intros a rest _. unfold previewText.
    destruct (120 <? String.length (action a))%nat eqn:E.
    + apply Nat.ltb_lt in E.
      assert (Hlen : String.length (substring 0 120 (action a) ++ "...")
                     = 123%nat).
      { rewrite length_append, substring_0_length.
        change (String.length "...") with 3%nat. lia. }
      rewrite Hlen. repeat split; lia.
    + apply Nat.ltb_ge in E.
      assert (Hall : (substring 0 120 (action a) ++ "")%string = action a).
      { rewrite substring_0_all by exact E.
        clear. induction (action a) as [|c s IH]; simpl; [reflexivity|].
        now rewrite IH. }
      rewrite Hall. repeat split; lia.
  - intros d Hd. unfold mapApiToPlan in Hd.
    destruct (dailyPlanOf (seven_day_energy_plan data)) as [m|]; [|destruct Hd].
    apply (in_map entryOf) in Hd.
    rewrite (forEachEntry_entries addDays isoDay today m 0) in Hd.
    apply filter_In in Hd. destruct Hd as [_ Ha].
    unfold hasActions, entryOf in Ha. simpl in Ha.
    destruct (actions d) as [|a rest]; [discriminate|]. now exists a, rest.
Qed.

Example previewText_sample :
  isAscii (action sampleAction) = true
  /\ previewText [sampleAction; sampleAction]
     = "Pre-cool home before peak hours".
Proof. split; reflexivity. Qed.

(** X12: the dates of the plan.  The date of a day of the plan is today plus
    the position of its entry in the plan map, entries without actions
    counted: a day that is left out leaves a gap in the dates, and the plan
    never has more days than the map has entries. *)
Theorem plan_dates_follow_positions
    (Date : Type) (addDays : Date -> nat -> Date) (isoDay : Date -> string)
    (today : Date) (data : AnalysisResult) (m : PlanMap) :
  dailyPlanOf (seven_day_energy_plan data) = Some m ->
  (forall d, In d (mapApiToPlan addDays isoDay today data) ->
             exists i,
               nth_error m i = Some (dayLabel d, Some (actions d))
               /\ plan_date d = isoDay (addDays today i))
  /\ (List.length (mapApiToPlan addDays isoDay today data)
      <= List.length m)%nat.
Proof.
  intros Hm. unfold mapApiToPlan. rewrite Hm. split.
  - intros d Hd.
    destruct (forEachEntry_dates addDays isoDay today m 0 d Hd)
      as (i & _ & Hn & Hdate).
    exists i. rewrite Nat.sub_0_r in Hn. split; assumption.
  - rewrite <- (length_map entryOf).
    rewrite (forEachEntry_entries addDays isoDay today m 0).
    apply filter_length_le.
Qed.

Lemma plan_dates_follow_positions_witness :
  (forall d,
      In d (mapApiToPlan Nat.add sampleIso 0
              (sampleResult (Some samplePlanMap) None)) ->
      exists i,
        nth_error samplePlanMap i = Some (dayLabel d, Some (actions d))
        /\ plan_date d = sampleIso (0 + i))
  /\ (List.length (mapApiToPlan Nat.add sampleIso 0
                     (sampleResult (Some samplePlanMap) None))
      <= List.length samplePlanMap)%nat.
Proof.
  apply (@plan_dates_follow_positions nat Nat.add sampleIso 0
           (sampleResult (Some samplePlanMap) None) samplePlanMap).
  reflexivity.
Defined.

(** Dropping entries of a plan map keeps its keys distinct. *)
Lemma kept_keys_distinct
    (keep : string * option (list DayPlanAction) -> bool) (entries : PlanMap) :
  NoDup (map fst entries) -> NoDup (map fst (filter keep entries)).
Proof.
  intros Hnd. induction entries as [|e rest IH]; simpl; [constructor|].
  simpl in Hnd. apply NoDup_cons_iff in Hnd. destruct Hnd as [Hfresh Hrest].
  destruct (keep e); simpl; [|exact (IH Hrest)].
  apply NoDup_cons_iff. split; [|exact (IH Hrest)].
  intros Hin. apply Hfresh. apply in_map_iff in Hin.
  destruct Hin as (e' & He' & Hin). rewrite <- He'.
  apply in_map. apply filter_In in Hin. tauto.
Qed.

(** X13: the cards have distinct keys.  The keys of a plan map being
    distinct, as the keys of an object are, the day labels of the plan are
    distinct: no two cards share their React key or their completed and
    skipped marks. *)
Theorem plan_labels_distinct
    (Date : Type) (addDays : Date -> nat -> Date) (isoDay : Date -> string)
    (today : Date) (data : AnalysisResult) (m : PlanMap) :
  dailyPlanOf (seven_day_energy_plan data) = Some m ->
  NoDup (map fst m) ->
  NoDup (map dayLabel (mapApiToPlan addDays isoDay today data)).
Proof.
  intros Hm Hnd. unfold mapApiToPlan. rewrite Hm.
  replace (map dayLabel (forEachEntry addDays isoDay today m 0 []))
    with (map fst (map entryOf (forEachEntry addDays isoDay today m 0 [])))
    by (rewrite map_map; reflexivity).
  rewrite (forEachEntry_entries addDays isoDay today m 0).
  now apply kept_keys_distinct.
Qed.

Lemma plan_labels_distinct_witness :
  NoDup (map dayLabel
           (mapApiToPlan Nat.add sampleIso 0
              (sampleResult (Some samplePlanMap) None))).
Proof.
  apply (@plan_labels_distinct nat Nat.add sampleIso 0
           (sampleResult (Some samplePlanMap) None) samplePlanMap).
  - reflexivity.
  - repeat constructor; simpl; intuition discriminate.
Defined.

(** X14: when the plan tab has no cards.  The tab shows the notice "No energy
    plan available" exactly when the page is in demo mode, or the analysis
    has neither plan key, or no entry of its plan map has actions; otherwise
    it shows one card per entry with actions. *)
Theorem plan_notice_iff_no_day_has_actions
    (Date : Type) (addDays : Date -> nat -> Date) (isoDay : Date -> string)
    (today : Date) (analysisData : option AnalysisResult) :
  (planSection (Dashboard.plan
                  (Dashboard.pageData addDays isoDay today analysisData))
   = NoPlanNotice
   <-> forall data m,
         analysisData = Some data ->
         dailyPlanOf (seven_day_energy_plan data) = Some m ->
         forall e, In e m -> hasActions e = false)
  /\ (forall days,
        planSection (Dashboard.plan
                       (Dashboard.pageData addDays isoDay today analysisData))
        = Cards days ->
        exists data m,
          analysisData = Some data
          /\ dailyPlanOf (seven_day_energy_plan data) = Some m
          /\ map entryOf days = filter hasActions m).
Proof.
  unfold planSection.
  destruct analysisData as [data|]; simpl.
  - unfold mapApiToPlan.
    destruct (dailyPlanOf (seven_day_energy_plan data)) as [m|] eqn:Em; simpl.
    + pose proof (forEachEntry_entries addDays isoDay today m 0) as Heq.
      set (out := forEachEntry addDays isoDay today m 0 []) in *.
      split.
      * split.
        -- intros Hnone data' m' [= <-] Hm' e He. rewrite Em in Hm'.
           injection Hm' as <-.
           destruct (hasActions e) eqn:Ee; [|reflexivity].
           assert (Hin : In e (filter hasActions m))
             by (apply filter_In; tauto).
           rewrite <- Heq in Hin. destruct out; [destruct Hin|discriminate].
        -- intros Hall. specialize (Hall data m eq_refl Em).
           destruct out as [|d rest]; [reflexivity|].
           assert (Hin : In (entryOf d) (filter hasActions m))
             by (rewrite <- Heq; simpl; tauto).
           apply filter_In in Hin. destruct Hin as [Hin Ha].
           rewrite (Hall _ Hin) in Ha. discriminate.
      * intros days Hdays. exists data, m. repeat split; try assumption.
        destruct out; [discriminate|]. now injection Hdays as <-.
    + split; [split; [|reflexivity]|discriminate].
      intros _ data' m' [= <-] Hm'. congruence.
  - split; [split; [|reflexivity]|discriminate].
    intros _ data m H. discriminate.
Qed.

Section MarksFacts.

Variable inherited : string -> bool.
Variable plan : list DayPlan.

(** What the marks satisfy after any clicks, for a label [l] that is not a
    name of [Object.prototype]. *)
Definition marks_invariant (m : Marks) : Prop :=
  forall l,
    inherited l = false ->
    ~ (marked inherited (completedDays m) l = true
       /\ marked inherited (skippedDays m) l = true)
    /\ (marked inherited (completedDays m) l = true
        \/ marked inherited (skippedDays m) l = true ->
        In l (map dayLabel plan)).

Lemma marked_set (marks : Js.Map bool) (l l' : string) :
  marked inherited (Js.set marks l true) l'
  = if l =? l' then true else marked inherited marks l'.
Proof.
  unfold marked. destruct (l =? l') eqn:E.
  - apply String.eqb_eq in E. subst l'. now rewrite Grouping.get_set_same.
  - apply String.eqb_neq in E.
    rewrite Grouping.get_set_other by congruence. reflexivity.
Qed.

Lemma mark_invariant (m : Marks) (l0 : string) :
  In l0 (map dayLabel plan) ->
  marks_invariant m ->
  (marked inherited (skippedDays m) l0 = false ->
   marks_invariant (handlePlanComplete l0 m))
  /\ (marked inherited (completedDays m) l0 = false ->
      marks_invariant (handlePlanSkip l0 m)).
Proof.
  intros Hin Hinv. split; intros Hfree l Hl;
    destruct (Hinv l Hl) as [Hex Hplan]; simpl; rewrite marked_set;
    destruct (l0 =? l) eqn:E.
  - apply String.eqb_eq in E. subst l. rewrite Hfree.
    split; [intros [_ H]; discriminate|intros _; exact Hin].
  - split; assumption.
  - apply String.eqb_eq in E. subst l. rewrite Hfree.
    split; [intros [H _]; discriminate|intros _; exact Hin].
  - split; assumption.
Qed.

Lemma click_invariant (m : Marks) (c : Click) :
  marks_invariant m -> marks_invariant (click inherited plan m c).
Proof.
  intros Hinv. destruct c as [l0|l0]; simpl;
    destruct (existsb (String.eqb l0) (map dayLabel plan)) eqn:Ein;
    simpl; try exact Hinv;
    destruct (showsButtons inherited m l0) eqn:Eb; try exact Hinv;
    apply existsb_exists in Ein; destruct Ein as (x & Hx & Heq);
    apply String.eqb_eq in Heq; subst x;
    unfold showsButtons in Eb; apply andb_true_iff in Eb;
    destruct Eb as [Ec Es]; apply negb_true_iff in Ec, Es;
    destruct (@mark_invariant m l0 Hx Hinv) as [H1 H2]; auto.
Qed.

Lemma click_keeps (m : Marks) (c : Click) (l : string) :
  (marked inherited (completedDays m) l = true ->
   marked inherited (completedDays (click inherited plan m c)) l = true)
  /\ (marked inherited (skippedDays m) l = true ->
      marked inherited (skippedDays (click inherited plan m c)) l = true).
Proof.
  destruct c as [l0|l0]; simpl;
    destruct (existsb (String.eqb l0) (map dayLabel plan) &&
              showsButtons inherited m l0); simpl; try tauto;
    rewrite marked_set; destruct (l0 =? l); tauto.
Qed.

End MarksFacts.

(** X15: a day is completed or skipped, never both.  Whatever buttons are
    clicked, a day whose label is not the name of a property of
    [Object.prototype] is never marked both completed and skipped, only days
    of the plan are marked, a mark once set stays, and a marked day has lost
    its buttons. *)
Theorem plan_marks_exclusive
    (inherited : string -> bool) (plan : list DayPlan)
    (cs more : list Click) (l : string) :
  inherited l = false ->
  ~ (marked inherited (completedDays (clicks inherited plan cs)) l = true
     /\ marked inherited (skippedDays (clicks inherited plan cs)) l = true)
  /\ (marked inherited (completedDays (clicks inherited plan cs)) l = true
      \/ marked inherited (skippedDays (clicks inherited plan cs)) l = true ->
      In l (map dayLabel plan)
      /\ showsButtons inherited (clicks inherited plan cs) l = false)
  /\ (marked inherited (completedDays (clicks inherited plan cs)) l = true ->
      marked inherited (completedDays (clicks inherited plan (cs ++ more))) l
      = true)
  /\ (marked inherited (skippedDays (clicks inherited plan cs)) l = true ->
      marked inherited (skippedDays (clicks inherited plan (cs ++ more))) l
      = true).
Proof.
  intros Hl.
  assert (Hinv : forall cs' m, marks_invariant inherited plan m ->
                   marks_invariant inherited plan
                     (fold_left (click inherited plan) cs' m)).
  { induction cs' as [|c rest IH]; intros m Hm; simpl; [exact Hm|].
    apply IH. now apply click_invariant. }
  assert (Hinit : marks_invariant inherited plan noMarks).
  { intros l' Hl'. unfold marked. simpl. rewrite Hl'.
    split; [intros [H _]; discriminate|intros [H|H]; discriminate]. }
  destruct (Hinv cs noMarks Hinit l Hl) as [Hex Hplan].
  assert (Hkeep : forall more' m,
             (marked inherited (completedDays m) l = true ->
              marked inherited
                (completedDays (fold_left (click inherited plan) more' m)) l
              = true)
             /\ (marked inherited (skippedDays m) l = true ->
                 marked inherited
                   (skippedDays (fold_left (click inherited plan) more' m)) l
                 = true)).
  { induction more' as [|c rest IH]; intros m; simpl; [tauto|].
    destruct (IH (click inherited plan m c)) as [IH1 IH2].
    destruct (click_keeps inherited plan m c l) as [K1 K2]. tauto. }
  split; [exact Hex|]. split; [|split].
  - intros H. split; [now apply Hplan|].
    unfold showsButtons. destruct H as [H|H]; rewrite H; simpl;
      [reflexivity|apply andb_false_r].
  - unfold clicks. rewrite fold_left_app. apply Hkeep.
  - unfold clicks. rewrite fold_left_app. apply Hkeep.
Qed.

(** Two inherited names, the cards of the sample plan, and a user who
    completes the first day, tries to skip it, and skips the second. *)
Definition samplePrototype (l : string) : bool :=
  (l =? "constructor") || (l =? "toString").

Definition sampleCards : list DayPlan :=
  mapApiToPlan Nat.add sampleIso 0 (sampleResult (Some samplePlanMap) None).

Definition sampleClicks : list Click :=
  [ClickComplete "Day 1"; ClickSkip "Day 1"; ClickSkip "Day 2"].

Example sampleClicks_marks :
  clicks samplePrototype sampleCards sampleClicks
  = {| completedDays := [("Day 1", true)]; skippedDays := [("Day 2", true)] |}.
Proof. reflexivity. Qed.

Lemma plan_marks_exclusive_witness :
  ~ (marked samplePrototype
       (completedDays (clicks samplePrototype sampleCards sampleClicks))
       "Day 1" = true
     /\ marked samplePrototype
          (skippedDays (clicks samplePrototype sampleCards sampleClicks))
          "Day 1" = true)
  /\ (marked samplePrototype
        (completedDays (clicks samplePrototype sampleCards sampleClicks))
        "Day 1" = true
      \/ marked samplePrototype
           (skippedDays (clicks samplePrototype sampleCards sampleClicks))
           "Day 1" = true ->
      In "Day 1" (map dayLabel sampleCards)
      /\ showsButtons samplePrototype
           (clicks samplePrototype sampleCards sampleClicks) "Day 1" = false)
  /\ (marked samplePrototype
        (completedDays (clicks samplePrototype sampleCards sampleClicks))
        "Day 1" = true ->
      marked samplePrototype
        (completedDays
           (clicks samplePrototype sampleCards
              (sampleClicks ++ [ClickSkip "Day 1"])))
        "Day 1" = true)
  /\ (marked samplePrototype
        (skippedDays (clicks samplePrototype sampleCards sampleClicks))
        "Day 1" = true ->
      marked samplePrototype
        (skippedDays
           (clicks samplePrototype sampleCards
              (sampleClicks ++ [ClickSkip "Day 1"])))
        "Day 1" = true).
Proof.
  apply (@plan_marks_exclusive samplePrototype sampleCards sampleClicks
           [ClickSkip "Day 1"] "Day 1").
  reflexivity.
Defined.

End PlanView.

(** ** ChartCard.tsx and data/mockData.ts: the two views of the chart *)

Module Charts.
Import Api.

(** The keys of a list in the order in which they first appear, given the
    keys [seen] before. *)
Fixpoint firstSeenFrom (seen : list string) (ks : list string) : list string :=
  match ks with
  | [] => []
  | k :: rest =>
      if existsb (String.eqb k) seen then firstSeenFrom seen rest
      else k :: firstSeenFrom (seen ++ [k]) rest
  end.

Definition firstSeen (ks : list string) : list string := firstSeenFrom [] ks.

(** [xs.slice(-n)]: the last [n] elements. *)
Definition sliceLast {A : Type} (n : nat) (xs : list A) : list A :=
  skipn (List.length xs - n) xs.

Section HourlyLocale.

(** [new Date(s)] printed with [{ month: 'short', day: 'numeric' }], with
    [{ weekday: 'short' }] and with [{ month, day, hour, hour12 }], and
    [new Date(s).getHours()]. *)
Variable dateKeyOf : string -> string.
Variable dayNameOf : string -> string.
Variable fullDateOf : string -> string.
Variable getHours : string -> Z.

(** The rows [generateMockConsumptionData()] returns when it is called. *)
Variable mockConsumptionData : list MockData.ConsumptionData.

(** [hourlyData]: the forecast points as they are, or, without a forecast,
    the last fourteen days of the consumption data. *)
Definition hourlyData (forecastData : option (list ForecastDataPoint))
    (data : option (list MockData.ConsumptionData))
    : list ChartCard.ChartPoint :=
  match forecastData with
  | Some (p :: ps) =>
      Js.mapi
        (fun index item =>
           {| ChartCard.index := Some index;
              ChartCard.date := dateKeyOf (datetime item);
              ChartCard.dayName := dayNameOf (datetime item);
              ChartCard.fullDate := Some (fullDateOf (datetime item));
              ChartCard.kWh := predicted_usage item;
              ChartCard.point_datetime := Some (datetime item);
              ChartCard.isMidnight := Some (getHours (datetime item) =? 0)%Z |})
        (p :: ps)
  | _ =>
      let consumptionData :=
        match data with
        | Some rows => rows
        | None => mockConsumptionData
        end in
      let dailyConsumption := MockData.getDailyConsumption consumptionData in
      Js.mapi
        (fun index item =>
           {| ChartCard.index := Some index;
              ChartCard.date := dateKeyOf (MockData.date item);
              ChartCard.dayName := dayNameOf (MockData.date item);
              ChartCard.fullDate := Some (dateKeyOf (MockData.date item));
              ChartCard.kWh := MockData.kWh item;
              ChartCard.point_datetime := Some (MockData.date item);
              ChartCard.isMidnight := Some true |})
        (sliceLast 14 dailyConsumption)
  end.

(** The two views of one chart. *)
Definition dailyView (forecastData : option (list ForecastDataPoint))
    (data : option (list MockData.ConsumptionData))
    : list ChartCard.ChartPoint :=
  ChartCard.dailyData dateKeyOf dayNameOf forecastData
    (hourlyData forecastData data).

End HourlyLocale.

Section FoldOrder.

Variables A V : Type.
Variable keyOf : A -> string.
Variable valOf : A -> Q.
Variable amount : V -> Q.
Variable step : Js.Map V -> A -> Js.Map V.

Hypothesis step_adds :
  forall m a, exists v,
    step m a = Js.set m (keyOf a) v
    /\ (amount v == Grouping.held amount m (keyOf a) + valOf a)%Q.

Lemma existsb_keys (m : Js.Map V) (k : string) :
  existsb (String.eqb k) (Js.keys m)
  = match Js.get m k with Some _ => true | None => false end.
Proof.
  unfold Js.keys. induction m as [|[k' v] rest IH]; simpl; [reflexivity|].
  rewrite String.eqb_sym. destruct (k' =? k); simpl; [reflexivity|exact IH].
Qed.

Lemma keys_fold_order (data : list A) :
  forall m,
    Js.keys (fold_left step data m)
    = Js.keys m ++ firstSeenFrom (Js.keys m) (map keyOf data).
Proof.
  induction data as [|a rest IH]; intros m; simpl.
  - now rewrite app_nil_r.
  - rewrite IH. destruct (step_adds m a) as (v & -> & _).
    rewrite Grouping.keys_set, existsb_keys.
    destruct (Js.get m (keyOf a)); [reflexivity|].
    now rewrite <- app_assoc.
Qed.

End FoldOrder.

Lemma firstSeenFrom_length (ks : list string) :
  forall seen, (List.length (firstSeenFrom seen ks) <= List.length ks)%nat.
Proof.
  induction ks as [|k rest IH]; intros seen; simpl; [lia|].
  destruct (existsb (String.eqb k) seen); simpl.
  - specialize (IH seen). lia.
  - specialize (IH (seen ++ [k])). lia.
Qed.

Lemma firstSeenFrom_NoDup (ks : list string) :
  forall seen,
    NoDup ks -> (forall k, In k ks -> ~ In k seen) ->
    firstSeenFrom seen ks = ks.
Proof.
  induction ks as [|k rest IH]; intros seen Hnd Hout; simpl; [reflexivity|].
  inversion Hnd as [|? ? Hk Hrest]; subst.
  destruct (existsb (String.eqb k) seen) eqn:E.
  - apply existsb_exists in E. destruct E as (x & Hx & Heq).
    apply String.eqb_eq in Heq. subst x. elim (Hout k); simpl; tauto.
  - f_equal. apply IH; [exact Hrest|].
    intros k' Hk' Hin. apply in_app_iff in Hin. destruct Hin as [Hin|[<-|[]]].
    + apply (Hout k'); simpl; tauto.
    + contradiction.
Qed.

Lemma map_mapi_from {A B C : Type} (f : B -> C) (g : nat -> A -> B)
    (h : A -> C) (xs : list A) :
  (forall i x, f (g i x) = h x) ->
  forall i, map f (Js.mapi_from g i xs) = map h xs.
Proof.
  intros H. induction xs as [|x rest IH]; intros i; simpl; [reflexivity|].
  now rewrite H, IH.
Qed.








Lemma toFixed2_sign (x : Q) :
  ((0 <= x)%Q -> (0 <= Js.toFixed2 x)%Q)
  /\ ((x <= 0)%Q -> (Js.toFixed2 x <= 0)%Q).
Proof.
  unfold Js.toFixed2.
  destruct (Qle_bool (inject_Z (10 ^ 21)) (Qabs x)); [tauto|].
  assert (Hn : (0 <= Qfloor (Qabs x * 100 + (1 # 2)))%Z).
  { change 0%Z with (Qfloor 0). apply Qfloor_resp_le.
    pose proof (Qabs_nonneg x). lra. }
  set (n := Qfloor (Qabs x * 100 + (1 # 2))) in *.
  destruct (Qle_bool 0 x) eqn:E.
  - apply Qle_bool_iff in E. split.
    + intros _. unfold Qle. simpl. lia.
    + intros Hx. assert (Hz : (x == 0)%Q) by lra.
      assert (n = 0%Z); [|subst n; rewrite H; discriminate].
      unfold n. rewrite (Qfloor_comp _ (0 + (1 # 2))%Q).
      * reflexivity.
      * rewrite Hz. reflexivity.
  - split.
    + intros Hx. apply Qle_bool_iff in Hx. congruence.
    + intros _. unfold Qle, Qopp. simpl. lia.
Qed.

(** X16: the days come in the order in which they first appear.  The dates
    of the rows [getDailyConsumption] returns are the dates of its input in
    the order of their first appearance, and so are the date labels of the
    days [dailyData] makes of a forecast; rows that already have distinct
    dates keep their order. *)
Theorem days_in_order_of_first_appearance :
  (forall data : list MockData.ConsumptionData,
      map MockData.date (MockData.getDailyConsumption data)
      = firstSeen (map MockData.date data))
  /\ (forall (dateKeyOf dayNameOf : string -> string)
             (hourly : list ChartCard.ChartPoint)
             (item : ForecastDataPoint) (rest : list ForecastDataPoint),
        map ChartCard.date
          (ChartCard.dailyData dateKeyOf dayNameOf (Some (item :: rest)) hourly)
        = firstSeen (map (fun p => dateKeyOf (datetime p)) (item :: rest)))
  /\ (forall ks, NoDup ks -> firstSeen ks = ks)
  /\ (forall ks, List.length (firstSeen ks) <= List.length ks)%nat.
Proof.
  split; [|split; [|split]].
  - intros data. unfold MockData.getDailyConsumption. rewrite map_map. simpl.
    change (map (fun x : string * Q => fst x)
              (fold_left MockData.addRow data []))
      with (Js.keys (fold_left MockData.addRow data [])).
    now rewrite (keys_fold_order MockData.date MockData.kWh (fun x => x)
                   MockData.addRow MockData.addRow_adds).
  - intros dateKeyOf dayNameOf hourly item rest.
    change (ChartCard.dailyData dateKeyOf dayNameOf (Some (item :: rest)) hourly)
      with (map (fun e =>
                   {| ChartCard.index := None;
                      ChartCard.date := fst e;
                      ChartCard.dayName :=
                        dayNameOf (ChartCard.last_datetime (snd e));
                      ChartCard.fullDate := None;
                      ChartCard.kWh :=
                        Js.toFixed2 (ChartCard.total_kWh (snd e));
                      ChartCard.point_datetime := None;
                      ChartCard.isMidnight := None |})
                (fold_left (ChartCard.addPoint dateKeyOf) (item :: rest) [])).
    rewrite map_map. cbn [ChartCard.date].
    change (map (fun x : string * ChartCard.DayTotal => fst x)
              (fold_left (ChartCard.addPoint dateKeyOf) (item :: rest) []))
      with (Js.keys (fold_left (ChartCard.addPoint dateKeyOf) (item :: rest) [])).
    now rewrite (keys_fold_order (fun p => dateKeyOf (datetime p))
                   predicted_usage ChartCard.total_kWh
                   (ChartCard.addPoint dateKeyOf)
                   (ChartCard.addPoint_adds dateKeyOf)).
  - intros ks Hnd. apply firstSeenFrom_NoDup; [exact Hnd|]. intros k _ [].
  - intros ks. apply firstSeenFrom_length.
Qed.


Section Views.

Variable dateKeyOf : string -> string.
Variable dayNameOf : string -> string.
Variable fullDateOf : string -> string.
Variable getHours : string -> Z.
Variable mockConsumptionData : list MockData.ConsumptionData.

(** X18: the two views of a forecast agree on their days.  The hourly view
    shows the forecast points one for one, in order, each with its predicted
    usage as it is and under the date label of its timestamp; the daily view
    has the date labels of the hourly view, each once, in the order in which
    they first appear, and so never more points than the hourly view. *)
Theorem forecast_views_agree
    (item : ForecastDataPoint) (rest : list ForecastDataPoint)
    (data : option (list MockData.ConsumptionData)) :
  map ChartCard.kWh
    (hourlyData dateKeyOf dayNameOf fullDateOf getHours mockConsumptionData
       (Some (item :: rest)) data)
  = map predicted_usage (item :: rest)
  /\ map ChartCard.index
       (hourlyData dateKeyOf dayNameOf fullDateOf getHours mockConsumptionData
          (Some (item :: rest)) data)
     = map Some (seq 0 (List.length (item :: rest)))
  /\ map ChartCard.date
       (hourlyData dateKeyOf dayNameOf fullDateOf getHours mockConsumptionData
          (Some (item :: rest)) data)
     = map (fun p => dateKeyOf (datetime p)) (item :: rest)
  /\ map ChartCard.date
       (dailyView dateKeyOf dayNameOf fullDateOf getHours
          mockConsumptionData (Some (item :: rest)) data)
     = firstSeen
         (map ChartCard.date
            (hourlyData dateKeyOf dayNameOf fullDateOf getHours
               mockConsumptionData (Some (item :: rest)) data))
  /\ (forall d,
        In d (map ChartCard.date
                (dailyView dateKeyOf dayNameOf fullDateOf getHours
                   mockConsumptionData (Some (item :: rest)) data))
        <-> In d (map ChartCard.date
                    (hourlyData dateKeyOf dayNameOf fullDateOf getHours
                       mockConsumptionData (Some (item :: rest)) data)))
  /\ (List.length
        (dailyView dateKeyOf dayNameOf fullDateOf getHours
           mockConsumptionData (Some (item :: rest)) data)
      <= List.length
           (hourlyData dateKeyOf dayNameOf fullDateOf getHours
              mockConsumptionData (Some (item :: rest)) data))%nat.
Proof.
  set (points := item :: rest).
  set (mk := fun (index : nat) (it : ForecastDataPoint) =>
               {| ChartCard.index := Some index;
                  ChartCard.date := dateKeyOf (datetime it);
                  ChartCard.dayName := dayNameOf (datetime it);
                  ChartCard.fullDate := Some (fullDateOf (datetime it));
                  ChartCard.kWh := predicted_usage it;
                  ChartCard.point_datetime := Some (datetime it);
                  ChartCard.isMidnight :=
                    Some (getHours (datetime it) =? 0)%Z |}).
  assert (Hh : hourlyData dateKeyOf dayNameOf fullDateOf getHours
                 mockConsumptionData (Some points) data
               = Js.mapi mk points) by reflexivity.
  assert (Hadd := ChartCard.addPoint_adds dateKeyOf).
  set (m := fold_left (ChartCard.addPoint dateKeyOf) points []).
  assert (Hd : dailyView dateKeyOf dayNameOf fullDateOf getHours
                 mockConsumptionData (Some points) data
               = map (fun e =>
                        {| ChartCard.index := None;
                           ChartCard.date := fst e;
                           ChartCard.dayName :=
                             dayNameOf (ChartCard.last_datetime (snd e));
                           ChartCard.fullDate := None;
                           ChartCard.kWh :=
                             Js.toFixed2 (ChartCard.total_kWh (snd e));
                           ChartCard.point_datetime := None;
                           ChartCard.isMidnight := None |}) m)
    by reflexivity.
  rewrite Hh, Hd. clear Hh Hd. clearbody points.
  assert (Hk : map ChartCard.kWh (Js.mapi mk points)
               = map predicted_usage points).
  { apply map_mapi_from. reflexivity. }
  assert (Hl : map ChartCard.date (Js.mapi mk points)
               = map (fun p => dateKeyOf (datetime p)) points).
  { apply map_mapi_from. reflexivity. }
  assert (Hkeys : map ChartCard.date
                    (map (fun e =>
                            {| ChartCard.index := None;
                               ChartCard.date := fst e;
                               ChartCard.dayName :=
                                 dayNameOf (ChartCard.last_datetime (snd e));
                               ChartCard.fullDate := None;
                               ChartCard.kWh :=
                                 Js.toFixed2 (ChartCard.total_kWh (snd e));
                               ChartCard.point_datetime := None;
                               ChartCard.isMidnight := None |}) m)
                  = firstSeen (map (fun p => dateKeyOf (datetime p)) points)).
  { rewrite map_map. cbn [ChartCard.date].
    change (map (fun x : string * ChartCard.DayTotal => fst x) m)
      with (Js.keys m). unfold m.
    now rewrite (keys_fold_order (fun p => dateKeyOf (datetime p))
                   predicted_usage ChartCard.total_kWh
                   (ChartCard.addPoint dateKeyOf) Hadd). }
  split; [exact Hk|]. split; [|split; [exact Hl|split; [|split]]].
  - unfold Js.mapi. generalize 0%nat. clear.
    induction points as [|x xs IH]; intros i; simpl; [reflexivity|].
    now rewrite IH.
  - now rewrite Hkeys, Hl.
  - intros d. rewrite Hl, map_map. cbn [ChartCard.date].
    change (map (fun x : string * ChartCard.DayTotal => fst x) m)
      with (Js.keys m). unfold m.
    rewrite (Grouping.keys_fold (fun p => dateKeyOf (datetime p))
               predicted_usage ChartCard.total_kWh
               (ChartCard.addPoint dateKeyOf) Hadd).
    simpl. tauto.
  - rewrite <- (length_map ChartCard.date), Hkeys.
    rewrite <- (length_map ChartCard.date (Js.mapi mk points)), Hl.
    apply firstSeenFrom_length.
Qed.

Lemma sliceLast_length {A : Type} (n : nat) (xs : list A) :
  List.length (sliceLast n xs) = Nat.min n (List.length xs).
Proof. unfold sliceLast. rewrite length_skipn. lia. Qed.

(** X19: without a forecast the chart shows the last fourteen days.  When
    there is no forecast, or an empty one, the hourly view has at most
    fourteen points, they are the last days of the aggregated consumption
    data, the mock data being used when no data are given, and the daily
    view is the hourly view itself. *)
Theorem chart_without_forecast
    (forecastData : option (list ForecastDataPoint))
    (data : option (list MockData.ConsumptionData)) :
  forecastData = None \/ forecastData = Some [] ->
  dailyView dateKeyOf dayNameOf fullDateOf getHours mockConsumptionData
    forecastData data
  = hourlyData dateKeyOf dayNameOf fullDateOf getHours mockConsumptionData
      forecastData data
  /\ (List.length
        (hourlyData dateKeyOf dayNameOf fullDateOf getHours
           mockConsumptionData forecastData data) <= 14)%nat
  /\ exists earlier,
       map MockData.kWh
         (MockData.getDailyConsumption
            (match data with
             | Some rows => rows
             | None => mockConsumptionData
             end))
       = earlier
         ++ map ChartCard.kWh
              (hourlyData dateKeyOf dayNameOf fullDateOf getHours
                 mockConsumptionData forecastData data).
Proof.
  intros Hf.
  set (rows := MockData.getDailyConsumption
                 (match data with
                  | Some rows => rows
                  | None => mockConsumptionData
                  end)).
  set (mk := fun (index : nat) (it : MockData.ConsumptionData) =>
               {| ChartCard.index := Some index;
                  ChartCard.date := dateKeyOf (MockData.date it);
                  ChartCard.dayName := dayNameOf (MockData.date it);
                  ChartCard.fullDate := Some (dateKeyOf (MockData.date it));
                  ChartCard.kWh := MockData.kWh it;
                  ChartCard.point_datetime := Some (MockData.date it);
                  ChartCard.isMidnight := Some true |}).
  assert (Hh : hourlyData dateKeyOf dayNameOf fullDateOf getHours
                 mockConsumptionData forecastData data
               = Js.mapi mk (sliceLast 14 rows)).
  { destruct Hf as [-> | ->]; reflexivity. }
  split; [destruct Hf as [-> | ->]; reflexivity|].
  rewrite Hh. split.
  - unfold Js.mapi. rewrite RiskReportCard.mapi_from_length, sliceLast_length.
    lia.
  - exists (map MockData.kWh (firstn (List.length rows - 14) rows)).
    unfold Js.mapi.
    rewrite (map_mapi_from ChartCard.kWh mk MockData.kWh) by reflexivity.
    unfold sliceLast. rewrite <- map_app. now rewrite firstn_skipn.
Qed.

End Views.

Lemma chart_without_forecast_witness :
  dailyView ChartCard.sampleDateKey (fun s => s) (fun s => s) (fun _ => 0%Z)
    [] (Some []) (Some [MockData.row "2024-01-15" 0 (5 # 10)])
  = hourlyData ChartCard.sampleDateKey (fun s => s) (fun s => s)
      (fun _ => 0%Z) [] (Some [])
      (Some [MockData.row "2024-01-15" 0 (5 # 10)])
  /\ (List.length
        (hourlyData ChartCard.sampleDateKey (fun s => s) (fun s => s)
           (fun _ => 0%Z) [] (Some [])
           (Some [MockData.row "2024-01-15" 0 (5 # 10)])) <= 14)%nat
  /\ exists earlier,
       map MockData.kWh
         (MockData.getDailyConsumption
            [MockData.row "2024-01-15" 0 (5 # 10)])
       = earlier
         ++ map ChartCard.kWh
              (hourlyData ChartCard.sampleDateKey (fun s => s) (fun s => s)
                 (fun _ => 0%Z) [] (Some [])
                 (Some [MockData.row "2024-01-15" 0 (5 # 10)])).
Proof.
  apply (@chart_without_forecast ChartCard.sampleDateKey (fun s => s)
           (fun s => s) (fun _ => 0%Z) [] (Some [])
           (Some [MockData.row "2024-01-15" 0 (5 # 10)])).
  right. reflexivity.
Defined.

Lemma sumQ_nonneg (xs : list Q) :
  (forall x, In x xs -> (0 <= x)%Q) -> (0 <= Js.sumQ xs)%Q.
Proof.
  induction xs as [|x rest IH]; intros H; simpl; [discriminate|].
  assert (0 <= x)%Q by (apply H; simpl; tauto).
  assert (0 <= Js.sumQ rest)%Q by (apply IH; intros y Hy; apply H; simpl; tauto).
  unfold Js.sumQ in *. lra.
Qed.

(** X20: no negative day.  When no row has a negative kWh, no day
    [getDailyConsumption] returns has one, and when no forecast point has a
    negative predicted usage, no day of [dailyData] has one. *)
Theorem daily_totals_stay_nonnegative
    (dateKeyOf dayNameOf : string -> string)
    (hourly : list ChartCard.ChartPoint)
    (data : list MockData.ConsumptionData)
    (item : ForecastDataPoint) (rest : list ForecastDataPoint) :
  (forall r, In r data -> (0 <= MockData.kWh r)%Q) ->
  (forall p, In p (item :: rest) -> (0 <= predicted_usage p)%Q) ->
  (forall r, In r (MockData.getDailyConsumption data) ->
             (0 <= MockData.kWh r)%Q)
  /\ (forall p,
        In p (ChartCard.dailyData dateKeyOf dayNameOf (Some (item :: rest))
                hourly) ->
        (0 <= ChartCard.kWh p)%Q).
Proof.
  intros Hdata Hpoints. split.
  - intros r Hr. unfold MockData.getDailyConsumption in Hr.
    apply in_map_iff in Hr. destruct Hr as ([k v] & <- & Hin). simpl.
    apply toFixed2_sign.
    rewrite (Grouping.entry_fold MockData.date MockData.kWh (fun x => x)
               MockData.addRow MockData.addRow_adds data k v Hin).
    apply sumQ_nonneg. intros x Hx. apply in_map_iff in Hx.
    destruct Hx as (r & <- & Hr). apply filter_In in Hr. apply Hdata. tauto.
  - intros p Hp.
    change (ChartCard.dailyData dateKeyOf dayNameOf (Some (item :: rest)) hourly)
      with (map (fun e =>
                   {| ChartCard.index := None;
                      ChartCard.date := fst e;
                      ChartCard.dayName :=
                        dayNameOf (ChartCard.last_datetime (snd e));
                      ChartCard.fullDate := None;
                      ChartCard.kWh :=
                        Js.toFixed2 (ChartCard.total_kWh (snd e));
                      ChartCard.point_datetime := None;
                      ChartCard.isMidnight := None |})
                (fold_left (ChartCard.addPoint dateKeyOf) (item :: rest) []))
      in Hp.
    apply in_map_iff in Hp. destruct Hp as ([k v] & <- & Hin).
    cbn [ChartCard.kWh snd]. apply toFixed2_sign.
    rewrite (Grouping.entry_fold (fun p => dateKeyOf (datetime p))
               predicted_usage ChartCard.total_kWh
               (ChartCard.addPoint dateKeyOf)
               (ChartCard.addPoint_adds dateKeyOf) (item :: rest) k v Hin).
    apply sumQ_nonneg. intros x Hx. apply in_map_iff in Hx.
    destruct Hx as (q & <- & Hq). apply filter_In in Hq. apply Hpoints. tauto.
Qed.

Lemma daily_totals_stay_nonnegative_witness :
  (forall r,
      In r (MockData.getDailyConsumption
              [MockData.row "2024-01-15" 0 (5 # 10)]) ->
      (0 <= MockData.kWh r)%Q)
  /\ (forall p,
        In p (ChartCard.dailyData ChartCard.sampleDateKey (fun s => s)
                (Some [ChartCard.point "2024-12-27 22:00:00" (123 # 100)]) []) ->
        (0 <= ChartCard.kWh p)%Q).
Proof.
  apply (@daily_totals_stay_nonnegative ChartCard.sampleDateKey (fun s => s) []
           [MockData.row "2024-01-15" 0 (5 # 10)]
           (ChartCard.point "2024-12-27 22:00:00" (123 # 100)) []).
  - intros r [<-|[]]. vm_compute. discriminate.
  - intros p [<-|[]]. vm_compute. discriminate.
Defined.

Section Weekday.

Variable dateKeyOf : string -> string.
Variable dayNameOf : string -> string.

Lemma pointsOf_app (k : string) (pre : list ForecastDataPoint)
    (x : ForecastDataPoint) :
  ChartCard.pointsOf dateKeyOf k (pre ++ [x])
  = ChartCard.pointsOf dateKeyOf k pre
    ++ (if dateKeyOf (datetime x) =? k then [x] else []).
Proof. unfold ChartCard.pointsOf. now rewrite filter_app. Qed.

Lemma fold_last_datetime (points : list ForecastDataPoint) :
  forall k v d,
    Js.get (fold_left (ChartCard.addPoint dateKeyOf) points []) k = Some v ->
    ChartCard.pointsOf dateKeyOf k points <> []
    /\ ChartCard.last_datetime v
       = datetime (last (ChartCard.pointsOf dateKeyOf k points) d).
Proof.
  induction points as [|x pre IH] using rev_ind; intros k v d; simpl.
  - discriminate.
  - rewrite fold_left_app, pointsOf_app. simpl.
    set (m := fold_left (ChartCard.addPoint dateKeyOf) pre []) in *.
    destruct (dateKeyOf (datetime x) =? k) eqn:E.
    + apply String.eqb_eq in E. subst k. rewrite last_last.
      unfold ChartCard.addPoint.
      destruct (Js.get m (dateKeyOf (datetime x)));
        rewrite Grouping.get_set_same; intros [= <-];
        (split; [|reflexivity]); intros H; apply app_eq_nil in H;
        destruct H; discriminate.
    + apply String.eqb_neq in E. rewrite app_nil_r.
      unfold ChartCard.addPoint.
      destruct (Js.get m (dateKeyOf (datetime x)));
        rewrite Grouping.get_set_other by congruence; apply IH.
Qed.

(** X21: the weekday of a day is the weekday of its last point.  Each day of
    the daily view of a forecast has forecast points with its date label,
    and it shows the weekday of the last of them. *)
Theorem day_shows_weekday_of_its_last_point
    (hourly : list ChartCard.ChartPoint)
    (item : ForecastDataPoint) (rest : list ForecastDataPoint)
    (p : ChartCard.ChartPoint) :
  In p (ChartCard.dailyData dateKeyOf dayNameOf (Some (item :: rest)) hourly) ->
  ChartCard.pointsOf dateKeyOf (ChartCard.date p) (item :: rest) <> []
  /\ ChartCard.dayName p
     = dayNameOf
         (datetime
            (last (ChartCard.pointsOf dateKeyOf (ChartCard.date p)
                     (item :: rest))
                  item))
  /\ dateKeyOf
       (datetime
          (last (ChartCard.pointsOf dateKeyOf (ChartCard.date p)
                   (item :: rest))
                item))
     = ChartCard.date p.
Proof.
  intros Hp.
  change (ChartCard.dailyData dateKeyOf dayNameOf (Some (item :: rest)) hourly)
    with (map (fun e =>
                 {| ChartCard.index := None;
                    ChartCard.date := fst e;
                    ChartCard.dayName :=
                      dayNameOf (ChartCard.last_datetime (snd e));
                    ChartCard.fullDate := None;
                    ChartCard.kWh := Js.toFixed2 (ChartCard.total_kWh (snd e));
                    ChartCard.point_datetime := None;
                    ChartCard.isMidnight := None |})
              (fold_left (ChartCard.addPoint dateKeyOf) (item :: rest) []))
    in Hp.
  apply in_map_iff in Hp. destruct Hp as ([k v] & <- & Hin).
  cbn [ChartCard.date ChartCard.dayName fst snd].
  assert (Hnd : NoDup (Js.keys (fold_left (ChartCard.addPoint dateKeyOf)
                                  (item :: rest) []))).
  { apply (Grouping.NoDup_fold (fun p => dateKeyOf (datetime p))
             predicted_usage ChartCard.total_kWh (ChartCard.addPoint dateKeyOf)
             (ChartCard.addPoint_adds dateKeyOf)). constructor. }
  pose proof (Grouping.in_get _ _ _ Hnd Hin) as Hget.
  destruct (fold_last_datetime (item :: rest) k item Hget) as [Hne Hlast].
  split; [exact Hne|]. split; [now rewrite Hlast|].
  set (pts := ChartCard.pointsOf dateKeyOf k (item :: rest)) in *.
  assert (H : forall (l : list ForecastDataPoint) d,
             l <> [] -> In (last l d) l).
  { induction l as [|a l IH]; intros d Hl; [now elim Hl|].
    destruct l as [|b l]; [simpl; tauto|].
    right. apply IH. discriminate. }
  assert (Hin' : In (last pts item) pts) by (apply H; exact Hne).
  unfold pts, ChartCard.pointsOf in Hin'. apply filter_In in Hin'.
  destruct Hin' as [_ Heq]. now apply String.eqb_eq in Heq.
Qed.

End Weekday.

Lemma day_shows_weekday_of_its_last_point_witness :
  ChartCard.pointsOf ChartCard.sampleDateKey "12-27"
    [ChartCard.point "2024-12-27 22:00:00" (123 # 100);
     ChartCard.point "2024-12-27 23:00:00" (1 # 2)] <> []
  /\ ChartCard.dayName
       {| ChartCard.index := None; ChartCard.date := "12-27";
          ChartCard.dayName := "23"; ChartCard.fullDate := None;
          ChartCard.kWh := (173 # 100)%Q; ChartCard.point_datetime := None;
          ChartCard.isMidnight := None |}
     = (fun s => substring 11 2 s)
         (datetime
            (last (ChartCard.pointsOf ChartCard.sampleDateKey "12-27"
                     [ChartCard.point "2024-12-27 22:00:00" (123 # 100);
                      ChartCard.point "2024-12-27 23:00:00" (1 # 2)])
                  (ChartCard.point "2024-12-27 22:00:00" (123 # 100))))
  /\ ChartCard.sampleDateKey
       (datetime
          (last (ChartCard.pointsOf ChartCard.sampleDateKey "12-27"
                   [ChartCard.point "2024-12-27 22:00:00" (123 # 100);
                    ChartCard.point "2024-12-27 23:00:00" (1 # 2)])
                (ChartCard.point "2024-12-27 22:00:00" (123 # 100))))
     = "12-27".
Proof.
  apply (@day_shows_weekday_of_its_last_point ChartCard.sampleDateKey
           (fun s => substring 11 2 s) []
           (ChartCard.point "2024-12-27 22:00:00" (123 # 100))
           [ChartCard.point "2024-12-27 23:00:00" (1 # 2)]
           {| ChartCard.index := None; ChartCard.date := "12-27";
              ChartCard.dayName := "23"; ChartCard.fullDate := None;
              ChartCard.kWh := (173 # 100)%Q; ChartCard.point_datetime := None;
              ChartCard.isMidnight := None |}).
  vm_compute. left. reflexivity.
Defined.

End Charts.

(** ** ConsumptionInsightsCard.tsx: [formatHour] *)

Module Insights.

Definition formatHour (hour : Z) : string :=
  if (hour =? 0)%Z then "12 AM"
  else if (hour =? 12)%Z then "12 PM"
  else if (12 <? hour)%Z then (Js.toString (hour - 12) ++ " PM")%string
  else (Js.toString hour ++ " AM")%string.

(** The hours of a day. *)
Definition hoursOfDay : list Z := map Z.of_nat (seq 0 24).

(** The number a twelve-hour clock shows for an hour. *)
Definition clockNumber (hour : Z) : Z :=
  if (hour mod 12 =? 0)%Z then 12%Z else (hour mod 12)%Z.

Example formatHour_samples :
  map formatHour [0; 1; 11; 12; 13; 23]%Z
  = ["12 AM"; "1 AM"; "11 AM"; "12 PM"; "1 PM"; "11 PM"].
Proof. reflexivity. Qed.

Lemma in_hoursOfDay (h : Z) : (0 <= h <= 23)%Z -> In h hoursOfDay.
Proof.
  intros Hh. unfold hoursOfDay. apply in_map_iff.
  exists (Z.to_nat h). split; [lia|]. apply in_seq. lia.
Qed.

(** X22: the hour labels.  For an hour of the day, from 0 to 23, the label
    is the number a twelve-hour clock shows, from 1 to 12, followed by AM
    before noon and PM from noon on, and two different hours never get the
    same label. *)
Theorem formatHour_twelve_hour_clock (h h' : Z) :
  (0 <= h <= 23)%Z ->
  (0 <= h' <= 23)%Z ->
  formatHour h
  = (Js.toString (clockNumber h) ++ (if (h <? 12)%Z then " AM" else " PM"))%string
  /\ (1 <= clockNumber h <= 12)%Z
  /\ (formatHour h = formatHour h' -> h = h').
Proof.
  intros Hh Hh'.
  assert (Hall :
    forallb (fun a =>
      String.eqb (formatHour a)
        (Js.toString (clockNumber a)
         ++ (if (a <? 12)%Z then " AM" else " PM"))%string
      && forallb (fun b =>
           implb (String.eqb (formatHour a) (formatHour b)) (a =? b)%Z)
           hoursOfDay)
      hoursOfDay = true) by (vm_compute; reflexivity).
  rewrite forallb_forall in Hall.
  specialize (Hall h (in_hoursOfDay Hh)).
  apply andb_true_iff in Hall. destruct Hall as [Hlabel Hinj].
  apply String.eqb_eq in Hlabel.
  rewrite forallb_forall in Hinj. specialize (Hinj h' (in_hoursOfDay Hh')).
  split; [exact Hlabel|]. split.
  - unfold clockNumber. pose proof (Z.mod_pos_bound h 12 ltac:(lia)).
    destruct (h mod 12 =? 0)%Z eqn:E; [lia|]. apply Z.eqb_neq in E. lia.
  - intros Heq. apply String.eqb_eq in Heq. rewrite Heq in Hinj.
    simpl in Hinj. now apply Z.eqb_eq.
Qed.

Lemma formatHour_twelve_hour_clock_witness :
  formatHour 13
  = (Js.toString (clockNumber 13)
     ++ (if (13 <? 12)%Z then " AM" else " PM"))%string
  /\ (1 <= clockNumber 13 <= 12)%Z
  /\ (formatHour 13 = formatHour 1 -> 13%Z = 1%Z).
Proof.
  apply (@formatHour_twelve_hour_clock 13 1); lia.
Defined.

End Insights.

(** ** pages/Index.tsx: the three pages *)

Module Index.

Inductive AppStep := landing | onboarding | dashboard.

Record State := {
  step : AppStep;
  analysisId : option string
}.

Definition initialState : State := {| step := landing; analysisId := None |}.

Definition handleGetStarted (s : State) : State :=
  {| step := onboarding; analysisId := analysisId s |}.

Definition handleTryDemo (s : State) : State :=
  {| step := dashboard; analysisId := None |}.

Definition handleOnboardingComplete (newAnalysisId : string) (s : State)
    : State :=
  {| step := dashboard; analysisId := Some newAnalysisId |}.

Definition handleBackToLanding (s : State) : State :=
  {| step := landing; analysisId := None |}.

(** What happens to the app: the user acts on the page shown, or the
    analysis started on an onboarding page completes. *)
Inductive Event :=
| GetStarted
| TryDemo
| OnboardingComplete (newAnalysisId : string)
| Back.

(** One event.  The landing page passes on Get started and Try demo, the
    onboarding page and the dashboard Back.  [onComplete] is called from the
    promise of [handleSubmitAnalysis], which outlives the onboarding page:
    the user may have gone back in the meantime, so the completion is taken
    on whatever page is shown, and [handleOnboardingComplete] sets the state
    all the same. *)
Definition react (s : State) (e : Event) : State :=
  match e, step s with
  | OnboardingComplete newAnalysisId, _ =>
      handleOnboardingComplete newAnalysisId s
  | GetStarted, landing => handleGetStarted s
  | TryDemo, landing => handleTryDemo s
  | Back, onboarding => handleBackToLanding s
  | Back, dashboard => handleBackToLanding s
  | _, _ => s
  end.

Definition run (events : list Event) : State :=
  fold_left react events initialState.

(** [{!analysisId && (<span>Demo Mode</span>)}] of the dashboard.  The empty
    string is falsy as well. *)
Definition showsDemoBadge (s : State) : bool :=
  match step s, analysisId s with
  | dashboard, None | dashboard, Some "" => true
  | _, _ => false
  end.

(** The events that change nothing while the dashboard is shown: its page
    has no button for them. *)
Definition quiet (e : Event) : Prop := e = GetStarted \/ e = TryDemo.

Lemma quiet_on_dashboard (events : list Event) :
  Forall quiet events ->
  forall s, step s = dashboard -> fold_left react events s = s.
Proof.
  induction 1 as [|e rest He _ IH]; intros s Hs; simpl; [reflexivity|].
  assert (E : react s e = s).
  { destruct He as [-> | ->]; unfold react; rewrite Hs; reflexivity. }
  rewrite E. now apply IH.
Qed.

Lemma run_snoc (events : list Event) (e : Event) :
  run (events ++ [e]) = react (run events) e.
Proof. unfold run. now rewrite fold_left_app. Qed.

(** X23: what the dashboard shows.  Whatever happens, the app holds an
    analysis id only while the dashboard is open.  The dashboard holds the
    id [i] exactly when the completion that delivered [i] is the last
    completion and nobody has pressed Back since, be it a completion that
    arrived late, after the user went back and opened the demo; and it holds
    no id exactly when Try demo opened it from the landing page and neither
    Back nor a completion came after. *)
Theorem analysis_id_only_on_dashboard (events : list Event) :
  (step (run events) <> dashboard -> analysisId (run events) = None)
  /\ (forall i,
        run events = {| step := dashboard; analysisId := Some i |}
        <-> exists before after,
              events = before ++ OnboardingComplete i :: after
              /\ Forall quiet after)
  /\ (run events = {| step := dashboard; analysisId := None |}
      <-> exists before after,
            events = before ++ TryDemo :: after
            /\ step (run before) = landing
            /\ Forall quiet after).
Proof.
  induction events as [|e events IH] using rev_ind.
  - split; [reflexivity|]. split; [intros i|]; (split; [discriminate|]);
      intros (before & after & H & _); destruct before; discriminate H.
  - destruct IH as (Hoff & Hid & Hdemo). rewrite run_snoc.
    assert (Hlast : forall before after x,
               events ++ [e] = before ++ x :: after ->
               (after = [] /\ before = events /\ x = e)
               \/ (exists after', after = after' ++ [e]
                                  /\ events = before ++ x :: after')).
    { intros before after x H.
      destruct after as [|y after' _] using rev_ind.
      - left. apply app_inj_tail in H. destruct H as [-> ->]. now repeat split.
      - right. exists after'.
        change (before ++ x :: after' ++ [y])
          with (before ++ (x :: after') ++ [y]) in H.
        rewrite app_assoc in H. apply app_inj_tail in H.
        destruct H as [-> ->]. now split. }
    destruct (run events) as [st id] eqn:Er.
    split; [|split].
    + destruct e, st; simpl; intros H; try reflexivity; try (now elim H);
        apply Hoff; discriminate.
    + intros i. split.
      * intros H. destruct e.
        -- destruct st; simpl in H; try discriminate H.
           destruct (proj1 (Hid i) H) as (b & a & -> & Hq).
           exists b, (a ++ [GetStarted]). split; [now rewrite <- app_assoc|].
           apply Forall_app. split; [exact Hq|]. repeat constructor.
        -- destruct st; simpl in H; try discriminate H.
           destruct (proj1 (Hid i) H) as (b & a & -> & Hq).
           exists b, (a ++ [TryDemo]). split; [now rewrite <- app_assoc|].
           apply Forall_app. split; [exact Hq|].
           constructor; [now right|constructor].
        -- simpl in H. injection H as <-.
           exists events, []. split; [reflexivity|constructor].
        -- destruct st; simpl in H; discriminate H.
      * intros (b & a & H & Hq).
        destruct (Hlast _ _ _ H) as [(-> & -> & <-)|(a' & -> & ->)].
        -- reflexivity.
        -- apply Forall_app in Hq. destruct Hq as [Hq He].
           inversion He as [|? ? Hquiet _]; subst.
           assert (Hi : {| step := st; analysisId := id |}
                        = {| step := dashboard; analysisId := Some i |}).
           { apply (proj2 (Hid i)). now exists b, a'. }
           rewrite Hi. destruct Hquiet as [-> | ->]; reflexivity.
    + split.
      * intros H. destruct e.
        -- destruct st; simpl in H; try discriminate H.
           destruct (proj1 Hdemo H) as (b & a & -> & Hb & Hq).
           exists b, (a ++ [GetStarted]).
           split; [now rewrite <- app_assoc|]. split; [exact Hb|].
           apply Forall_app. split; [exact Hq|]. repeat constructor.
        -- destruct st; simpl in H; try discriminate H.
           ++ exists events, []. split; [reflexivity|].
              split; [now rewrite Er|constructor].
           ++ destruct (proj1 Hdemo H) as (b & a & -> & Hb & Hq).
              exists b, (a ++ [TryDemo]).
              split; [now rewrite <- app_assoc|]. split; [exact Hb|].
              apply Forall_app. split; [exact Hq|].
              constructor; [now right|constructor].
        -- simpl in H. discriminate H.
        -- destruct st; simpl in H; discriminate H.
      * intros (b & a & H & Hb & Hq).
        destruct (Hlast _ _ _ H) as [(-> & -> & <-)|(a' & -> & ->)].
        -- rewrite Er in Hb. simpl in Hb. subst st. reflexivity.
        -- apply Forall_app in Hq. destruct Hq as [Hq He].
           inversion He as [|? ? Hquiet _]; subst.
           assert (Hi : {| step := st; analysisId := id |}
                        = {| step := dashboard; analysisId := None |}).
           { apply (proj2 Hdemo). now exists b, a'. }
           rewrite Hi. destruct Hquiet as [-> | ->]; reflexivity.
Qed.

(** The user starts an analysis, goes back, opens the demo, and the analysis
    completes: the dashboard opened as a demo shows the analysis. *)
Example late_completion_replaces_demo :
  run [GetStarted; Back; TryDemo; OnboardingComplete "a1"]
  = {| step := dashboard; analysisId := Some "a1" |}
  /\ showsDemoBadge (run [GetStarted; Back; TryDemo; OnboardingComplete "a1"])
     = false
  /\ showsDemoBadge (run [GetStarted; Back; TryDemo]) = true.
Proof. repeat split. Qed.

End Index.

(** ** UploadBox.tsx *)

Module UploadBox.

(** What the component reads of a [File]. *)
Record File := {
  name : string;
  type : string;
  size : Z
}.

(** [s.endsWith(suffix)]. *)
Definition endsWith (s suffix : string) : bool :=
  (String.length suffix <=? String.length s)%nat
  && (substring (String.length s - String.length suffix)
        (String.length suffix) s =? suffix).

(** The test of [handleDrop]. *)
Definition isCsv (file : File) : bool :=
  (type file =? "text/csv") || endsWith (name file) ".csv".

(** The state of the box, and the files handed to [onFileSelect] so far,
    oldest first. *)
Record State := {
  isDragging : bool;
  selectedFile : option File;
  passedOn : list File
}.

Definition initialState : State :=
  {| isDragging := false; selectedFile := None; passedOn := [] |}.

Definition select (file : File) (s : State) : State :=
  {| isDragging := isDragging s;
     selectedFile := Some file;
     passedOn := passedOn s ++ [file] |}.

Definition handleDragOver (s : State) : State :=
  {| isDragging := true; selectedFile := selectedFile s;
     passedOn := passedOn s |}.

Definition handleDragLeave (s : State) : State :=
  {| isDragging := false; selectedFile := selectedFile s;
     passedOn := passedOn s |}.

(** [handleDrop]; [files] is [e.dataTransfer.files]. *)
Definition handleDrop (files : list File) (s : State) : State :=
  let s1 := handleDragLeave s in
  match files with
  | file :: _ => if isCsv file then select file s1 else s1
  | [] => s1
  end.

(** [handleFileChange]; [files] is [e.target.files]. *)
Definition handleFileChange (files : option (list File)) (s : State) : State :=
  match files with
  | Some (file :: _) => select file s
  | _ => s
  end.

Inductive Event :=
| DragOver
| DragLeave
| Drop (files : list File)
| Change (files : option (list File)).

Definition react (s : State) (e : Event) : State :=
  match e with
  | DragOver => handleDragOver s
  | DragLeave => handleDragLeave s
  | Drop files => handleDrop files s
  | Change files => handleFileChange files s
  end.

Definition run (events : list Event) : State :=
  fold_left react events initialState.

(** The last element of a list, if it has one. *)
Definition latest {A : Type} (l : list A) : option A := hd_error (rev l).

Definition isChange (e : Event) : bool :=
  match e with
  | Change _ => true
  | _ => false
  end.

Example endsWith_samples :
  map (fun n => endsWith n ".csv") ["meter.csv"; "meter.CSV"; ".csv"; "csv"; ""]
  = [true; false; true; false; false].
Proof. reflexivity. Qed.

Lemma react_in_step (s : State) (e : Event) :
  selectedFile s = latest (passedOn s) ->
  selectedFile (react s e) = latest (passedOn (react s e)).
Proof.
  assert (Hlast : forall (l : list File) f, latest (l ++ [f]) = Some f).
  { intros l f. unfold latest. now rewrite rev_app_distr. }
  intros H. destruct e as [| |files|files]; simpl; try exact H.
  - unfold handleDrop. destruct files as [|file rest]; [exact H|].
    destruct (isCsv file); [|exact H]. simpl. now rewrite Hlast.
  - destruct files as [[|file rest]|]; try exact H. simpl. now rewrite Hlast.
Qed.

Lemma react_drops_csv (s : State) (e : Event) :
  isChange e = false ->
  Forall (fun f => isCsv f = true) (passedOn s) ->
  Forall (fun f => isCsv f = true) (passedOn (react s e)).
Proof.
  intros He H. destruct e as [| |files|files]; simpl; try exact H;
    [|discriminate].
  unfold handleDrop. destruct files as [|file rest]; [exact H|].
  destruct (isCsv file) eqn:E; [|exact H]. simpl.
  apply Forall_app. split; [exact H|]. now repeat constructor.
Qed.

(** X24: the box and the page hold the same file.  After any drags, drops
    and picks, the file the box shows as selected is the last file it handed
    to the page, if it handed one at all; and as long as files only come by
    drop, every file handed on has the type text/csv or a name ending in
    ".csv", a drop of any other file changing nothing but the dragging
    highlight. *)
Theorem upload_box_in_step_with_page (events : list Event) :
  selectedFile (run events) = latest (passedOn (run events))
  /\ (forallb (fun e => negb (isChange e)) events = true ->
      Forall (fun f => isCsv f = true) (passedOn (run events)))
  /\ (forall file rest,
        isCsv file = false ->
        run (events ++ [Drop (file :: rest)])
        = handleDragLeave (run events)).
Proof.
  unfold run. split; [|split].
  - assert (H : forall s, selectedFile s = latest (passedOn s) ->
                 selectedFile (fold_left react events s)
                 = latest (passedOn (fold_left react events s))).
    { induction events as [|e rest IH]; intros s Hs; simpl; [exact Hs|].
      apply IH. now apply react_in_step. }
    now apply H.
  - assert (H : forall s,
                 forallb (fun e => negb (isChange e)) events = true ->
                 Forall (fun f => isCsv f = true) (passedOn s) ->
                 Forall (fun f => isCsv f = true)
                   (passedOn (fold_left react events s))).
    { induction events as [|e rest IH]; intros s He Hs; simpl; [exact Hs|].
      simpl in He. apply andb_true_iff in He. destruct He as [He Hrest].
      apply IH; [exact Hrest|]. apply react_drops_csv; [|exact Hs].
      now destruct (isChange e). }
    intros He. apply H; [exact He|constructor].
  - intros file rest Hno. rewrite fold_left_app. simpl.
    unfold handleDrop. now rewrite Hno.
Qed.

End UploadBox.

(** ** services/api.ts and hooks/useApi.ts: upload, then analyse *)

Module ApiService.

(** The body of a response that is not ok: not JSON, [null], whose [detail]
    cannot be read, or a value with the [detail] it has. *)
Inductive ErrorBody :=
| NotJson
| NullBody (message : string)
| ErrorData (detail : option string).

(** What a request comes to: [fetch] fails, or the response is not ok, or
    it is ok, with a body that is JSON or cannot be parsed. *)
Inductive HttpResult (A : Type) :=
| FetchFailed (message : string)
| NotOk (status : Z) (body : ErrorBody)
| Ok (payload : A)
| OkUnparsable (message : string).

Arguments FetchFailed {A} message.
Arguments NotOk {A} status body.
Arguments Ok {A} payload.
Arguments OkUnparsable {A} message.

(** What a promise of the service rejects with: an [ApiError], or the error
    [fetch] or the JSON parser threw. *)
Inductive Error :=
| ApiError (message : string) (status : Z) (detail : string)
| OtherError (message : string).

(** [errorData.detail || 'An error occurred'], [errorData] being
    [{ detail: 'Unknown error' }] when the body is not JSON. *)
Definition detailOf (detail : option string) : string :=
  match detail with
  | Some "" | None => "An error occurred"
  | Some d => d
  end.

Definition fetchApi {A : Type} (r : HttpResult A) : A + Error :=
  match r with
  | FetchFailed m => inr (OtherError m)
  | NotOk status (NullBody m) => inr (OtherError m)
  | NotOk status NotJson =>
      inr (ApiError ("API Error: " ++ Js.toString status)%string status
             (detailOf (Some "Unknown error")))
  | NotOk status (ErrorData detail) =>
      inr (ApiError ("API Error: " ++ Js.toString status)%string status
             (detailOf detail))
  | Ok payload => inl payload
  | OkUnparsable m => inr (OtherError m)
  end.

Record UploadResponse := {
  session_id : string;
  file_path : string;
  rows_count : Z;
  upload_message : string
}.

Record AnalyzeResponse := {
  analysis_id : string;
  status : string;
  analyze_message : string
}.

Record AnalyzeRequest := {
  request_session_id : string;
  request_answers : Onboarding.Answers
}.

Lemma fetchApi_resolves {A : Type} (r : HttpResult A) (payload : A) :
  fetchApi r = inl payload -> r = Ok payload.
Proof.
  destruct r as [m|st [|m|detail]|p|m]; simpl; try discriminate.
  now intros [= ->].
Qed.

Lemma fetchApi_rejects {A : Type} (r : HttpResult A) message status detail :
  fetchApi r = inr (ApiError message status detail) ->
  detail <> "" /\ message = ("API Error: " ++ Js.toString status)%string.
Proof.
  destruct r as [m|st [|m|[[|c d]|]]|p|m]; simpl; try discriminate;
    intros [= <- <- <-]; (split; [discriminate|reflexivity]).
Qed.

(** The requests the front end posts. *)
Inductive Request :=
| PostUpload (file : UploadBox.File)
| PostAnalyze (request : AnalyzeRequest).

Section WithBackend.

(** The backend, as the front end sees it. *)
Variable upload : UploadBox.File -> HttpResult UploadResponse.
Variable analyze : AnalyzeRequest -> HttpResult AnalyzeResponse.

Definition uploadCsv (file : UploadBox.File) : UploadResponse + Error :=
  fetchApi (upload file).

Definition runAnalysis (sessionId : string) (answers : Onboarding.Answers)
    : AnalyzeResponse + Error :=
  fetchApi (analyze {| request_session_id := sessionId;
                       request_answers := answers |}).

(** [startAnalysis(file, answers)]: the requests it posts, in order, and what
    its promise settles with, the pair of ids or the error. *)
Definition startAnalysis (file : UploadBox.File) (answers : Onboarding.Answers)
    : list Request * ((string * string) + Error) :=
  match uploadCsv file with
  | inr e => ([PostUpload file], inr e)
  | inl uploadResult =>
      let request :=
        {| request_session_id := session_id uploadResult;
           request_answers := answers |} in
      match runAnalysis (session_id uploadResult) answers with
      | inr e => ([PostUpload file; PostAnalyze request], inr e)
      | inl analyzeResult =>
          ([PostUpload file; PostAnalyze request],
           inl (session_id uploadResult, analysis_id analyzeResult))
      end
  end.

(** X25: an analysis follows its upload.  [startAnalysis] always posts the
    upload first; it posts an analysis request only when the upload
    succeeded, one request, carrying the session id the upload returned and
    the answers as they were given; it resolves only when both requests
    succeeded, with that session id and the analysis id of the answer; and an
    error it rejects with for a response that is not ok always has a detail
    text. *)
Theorem analysis_follows_upload
    (file : UploadBox.File) (answers : Onboarding.Answers) :
  (exists more, fst (startAnalysis file answers) = PostUpload file :: more)
  /\ (forall request,
        In (PostAnalyze request) (fst (startAnalysis file answers)) ->
        exists uploadResult,
          upload file = Ok uploadResult
          /\ request = {| request_session_id := session_id uploadResult;
                          request_answers := answers |}
          /\ fst (startAnalysis file answers)
             = [PostUpload file; PostAnalyze request])
  /\ (forall sessionId analysisId,
        snd (startAnalysis file answers) = inl (sessionId, analysisId) ->
        exists uploadResult analyzeResult,
          upload file = Ok uploadResult
          /\ analyze {| request_session_id := session_id uploadResult;
                        request_answers := answers |} = Ok analyzeResult
          /\ sessionId = session_id uploadResult
          /\ analysisId = analysis_id analyzeResult)
  /\ (forall message status detail,
        snd (startAnalysis file answers)
        = inr (ApiError message status detail) ->
        detail <> ""
        /\ message = ("API Error: " ++ Js.toString status)%string).
Proof.
  unfold startAnalysis, uploadCsv, runAnalysis.
  destruct (fetchApi (upload file)) as [uploadResult|e] eqn:Eu; simpl.
  - apply fetchApi_resolves in Eu.
    set (request := {| request_session_id := session_id uploadResult;
                       request_answers := answers |}).
    assert (Hfst : forall l,
               l = [PostUpload file; PostAnalyze request] ->
               (exists more, l = PostUpload file :: more)
               /\ (forall r,
                     In (PostAnalyze r) l ->
                     exists uploadResult0,
                       upload file = Ok uploadResult0
                       /\ r = {| request_session_id := session_id uploadResult0;
                                 request_answers := answers |}
                       /\ l = [PostUpload file; PostAnalyze r])).
    { intros l ->. split; [eexists; reflexivity|].
      intros r [H|[H|[]]]; [discriminate|]. injection H as <-.
      exists uploadResult. now repeat split. }
    destruct (fetchApi (analyze request)) as [analyzeResult|e] eqn:Ea; simpl.
    + destruct (Hfst _ eq_refl) as [H1 H2].
      split; [exact H1|]. split; [exact H2|]. split; [|discriminate].
      intros s a [= <- <-]. exists uploadResult, analyzeResult.
      apply fetchApi_resolves in Ea. now repeat split.
    + destruct (Hfst _ eq_refl) as [H1 H2].
      split; [exact H1|]. split; [exact H2|]. split; [discriminate|].
      intros message status0 detail [= ->].
      exact (fetchApi_rejects _ Ea).
  - split; [now exists []|]. split; [intros r [H|[]]; discriminate|].
    split; [discriminate|]. intros message status0 detail [= ->].
    exact (fetchApi_rejects _ Eu).
Qed.

End WithBackend.

End ApiService.
